(** * DVI bridge: a shallow embedding of the vendor client and of the
      final server's request handlers.

    The Python sources are embedded function by function.  Python values
    that come from JSON are modelled by the type [json]; exceptions are
    values of type [exn] carried by a result type; the effects of a request
    handler (vendor calls, temporary files, random identifiers) are threaded
    through an explicit [World]; whether a line printed to standard output
    is taken or makes [print] raise is left to the environment.

    Modelling limits, stated once: strings are strings of characters with
    codes below 256 and the case and whitespace operations are Python's
    restricted to ASCII; JSON numbers are integers; the text of the lines
    printed is not kept. *)

From Stdlib Require Import String Ascii List ZArith Bool Lia DecimalString.
Import ListNotations.
Open Scope string_scope.
Set Warnings "-register-all".

(* ================================================================== *)
(** ** Python string operations *)
(* ================================================================== *)

Module PyStr.

(** [c.lower()] on one ASCII character. *)
Definition lower_ascii (c : ascii) : ascii :=
  let n := nat_of_ascii c in
  if andb (Nat.leb 65 n) (Nat.leb n 90) then ascii_of_nat (n + 32) else c.

(** [s.lower()] *)
Fixpoint lower (s : string) : string :=
  match s with
  | EmptyString => EmptyString
  | String c s' => String (lower_ascii c) (lower s')
  end.

(** [s.startswith(p)] *)
Definition startswith (s p : string) : bool := String.prefix p s.

(** [needle in hay] for two strings: some suffix of [hay] starts with
    [needle]. *)
Fixpoint contains (needle hay : string) : bool :=
  if String.prefix needle hay then true
  else match hay with
       | EmptyString => false
       | String _ hay' => contains needle hay'
       end.

(** [s.endswith(p)] *)
Fixpoint endswith (s p : string) : bool :=
  if String.eqb s p then true
  else match s with
       | EmptyString => false
       | String _ s' => endswith s' p
       end.

(** [s.lstrip(chars)] for a one-character set. *)
Fixpoint lstrip_char (c : ascii) (s : string) : string :=
  match s with
  | EmptyString => EmptyString
  | String a s' => if Ascii.eqb a c then lstrip_char c s' else s
  end.

(** [s.rstrip(chars)] for a one-character set. *)
Fixpoint rstrip_char (c : ascii) (s : string) : string :=
  match s with
  | EmptyString => EmptyString
  | String a s' =>
      match rstrip_char c s' with
      | EmptyString => if Ascii.eqb a c then EmptyString else String a EmptyString
      | r => String a r
      end
  end.

(** [s.strip(chars)] for a one-character set. *)
Definition strip_char (c : ascii) (s : string) : string :=
  rstrip_char c (lstrip_char c s).





(** [sep.join(l)] *)
Definition join (sep : string) (l : list string) : string := String.concat sep l.

(** [any(k in text for k in keywords)] *)
Definition any_in (keywords : list string) (text : string) : bool :=
  existsb (fun k => contains k text) keywords.


Definition first_char (s : string) : option ascii :=
  match s with EmptyString => None | String c _ => Some c end.

Fixpoint last_char (s : string) : option ascii :=
  match s with
  | EmptyString => None
  | String c EmptyString => Some c
  | String _ s' => last_char s'
  end.

End PyStr.

(** The double-quote character. *)
Definition dquote : ascii := "034"%char.

(* ================================================================== *)
(** ** Python values, exceptions and results *)
(* ================================================================== *)

(** Values produced by [json.loads] / [request.get_json]; a dict is kept
    as its list of items in insertion order. *)
Inductive json : Type :=
| JNull
| JBool (b : bool)
| JInt (z : Z)
| JStr (s : string)
| JArr (l : list json)
| JObj (kvs : list (string * json)).

Inductive exn_class : Type :=
| AttributeError | TypeError | KeyError | ValueError | RuntimeError
| HTTPError | ConnectionError | DVIError | JSONDecodeError
| FileNotFoundError | OSError | BinasciiError | IndexError
| UnicodeEncodeError.

(** A raised exception: its class and [str(e)]. *)
Record exn : Type := Exn { exn_cls : exn_class; exn_msg : string }.

(** The result of a Python expression that may raise. *)
Inductive res (A : Type) : Type :=
| Ok (a : A)
| Raise (e : exn).
Arguments Ok {A} a.
Arguments Raise {A} e.

Definition res_bind {A B} (r : res A) (k : A -> res B) : res B :=
  match r with
  | Ok a => k a
  | Raise e => Raise e
  end.

Declare Scope res_scope.
Delimit Scope res_scope with res.
Notation "x <- c ;; k" := (res_bind c (fun x => k))
  (at level 61, c at next level, right associativity) : res_scope.

Module Py.

(** Truthiness, as tested by [if x], [not x], [x or y]. *)
Definition truthy (j : json) : bool :=
  match j with
  | JNull => false
  | JBool b => b
  | JInt z => negb (Z.eqb z 0)
  | JStr s => negb (String.eqb s "")
  | JArr l => match l with [] => false | _ => true end
  | JObj kvs => match kvs with [] => false | _ => true end
  end.

(** [x or y] *)
Definition or_ (x y : json) : json := if truthy x then x else y.

(** [type(x).__name__] *)
Definition type_name (j : json) : string :=
  match j with
  | JNull => "NoneType"
  | JBool _ => "bool"
  | JInt _ => "int"
  | JStr _ => "str"
  | JArr _ => "list"
  | JObj _ => "dict"
  end.

Definition no_attribute {A} (j : json) (attr : string) : res A :=
  Raise (Exn AttributeError
              ("'" ++ type_name j ++ "' object has no attribute '" ++ attr ++ "'")).

(** [str(n)] for an int. *)
Definition str_int (z : Z) : string := NilZero.string_of_int (Z.to_int z).

Definition hex_digit (n : nat) : ascii :=
  if Nat.ltb n 10 then ascii_of_nat (48 + n) else ascii_of_nat (87 + n).

(** One character inside [repr] of a str quoted with [q]. *)
Definition repr_char (q c : ascii) : string :=
  let n := nat_of_ascii c in
  if Ascii.eqb c q then String "\" (String c "")
  else if Nat.eqb n 92 then "\\"
  else if Nat.eqb n 9 then "\t"
  else if Nat.eqb n 10 then "\n"
  else if Nat.eqb n 13 then "\r"
  else if orb (Nat.ltb n 32) (Nat.leb 127 n)
       then String "\" (String "x" (String (hex_digit (n / 16))
                                       (String (hex_digit (n mod 16)) "")))
       else String c "".

Fixpoint repr_chars (q : ascii) (s : string) : string :=
  match s with
  | EmptyString => EmptyString
  | String c s' => repr_char q c ++ repr_chars q s'
  end.

Definition has_char (c : ascii) (s : string) : bool :=
  PyStr.contains (String c "") s.

(** [repr(s)] for a str: single quotes unless the text has a single
    quote and no double quote. *)
Definition repr_str (s : string) : string :=
  let q := if andb (has_char "'" s) (negb (has_char dquote s))
           then dquote else "'"%char in
  String q (repr_chars q s ++ String q "").

(** [repr(x)] *)
Fixpoint repr (j : json) : string :=
  match j with
  | JNull => "None"
  | JBool true => "True"
  | JBool false => "False"
  | JInt z => str_int z
  | JStr s => repr_str s
  | JArr l => "[" ++ PyStr.join ", " (map repr l) ++ "]"
  | JObj kvs =>
      "{" ++ PyStr.join ", "
               (map (fun kv => repr_str (fst kv) ++ ": " ++ repr (snd kv)) kvs)
          ++ "}"
  end.

(** [str(x)], also the text an f-string interpolates. *)
Definition str (j : json) : string :=
  match j with
  | JStr s => s
  | _ => repr j
  end.

Fixpoint assoc (k : string) (kvs : list (string * json)) : option json :=
  match kvs with
  | [] => None
  | (k', v) :: rest => if String.eqb k k' then Some v else assoc k rest
  end.

(** [d.get(k, default)]; [d.get(k)] is [get d k JNull]. *)
Definition get (d : json) (k : string) (default : json) : res json :=
  match d with
  | JObj kvs => Ok (match assoc k kvs with Some v => v | None => default end)
  | _ => no_attribute d "get"
  end.

(** [x.lower()] *)
Definition lower (x : json) : res string :=
  match x with
  | JStr s => Ok (PyStr.lower s)
  | _ => no_attribute x "lower"
  end.

Fixpoint chars (s : string) : list json :=
  match s with
  | EmptyString => []
  | String c s' => JStr (String c "") :: chars s'
  end.

(** The items a [for] loop visits. *)
Definition iter (x : json) : res (list json) :=
  match x with
  | JArr l => Ok l
  | JStr s => Ok (chars s)
  | JObj kvs => Ok (map (fun kv => JStr (fst kv)) kvs)
  | _ => Raise (Exn TypeError ("'" ++ type_name x ++ "' object is not iterable"))
  end.

(** [isinstance(x, list)] *)
Definition is_list (x : json) : bool :=
  match x with JArr _ => true | _ => false end.

(** [isinstance(x, str)] *)
Definition is_str (x : json) : bool :=
  match x with JStr _ => true | _ => false end.

End Py.


(* ================================================================== *)
(** ** dvi_client.py: pure helpers over the RO detail *)
(* ================================================================== *)

Module DviClient.
Local Open Scope res_scope.

(** The loop of [find_labor_id_by_description]. *)
Fixpoint find_labor_loop (target_lower : string) (labors : list json) : res json :=
  match labors with
  | [] => Ok JNull
  | labor :: rest =>
      d <- Py.get labor "Description" JNull ;;
      desc <- Py.lower (Py.or_ d (JStr "")) ;;
      if PyStr.contains target_lower desc then
        labor_id <- Py.get labor "ID" JNull ;;
        if Py.truthy labor_id then Ok labor_id
        else find_labor_loop target_lower rest
      else find_labor_loop target_lower rest
  end.

Definition find_labor_id_by_description (ro_detail : json) (target : string) : res json :=
  let target_lower := PyStr.lower target in
  ll <- Py.get ro_detail "LaborList" (JArr []) ;;
  labors <- Py.iter ll ;;
  find_labor_loop target_lower labors.

(** [for labor in ...: desc = ...; if any(k in desc for k in keywords): return True] *)
Fixpoint labor_keyword_loop (keywords : list string) (labors : list json) : res bool :=
  match labors with
  | [] => Ok false
  | labor :: rest =>
      d <- Py.get labor "Description" JNull ;;
      desc <- Py.lower (Py.or_ d (JStr "")) ;;
      if PyStr.any_in keywords desc then Ok true
      else labor_keyword_loop keywords rest
  end.

(** [for cl in ...: if phrase in (cl.get("Name") or "").lower(): return True] *)
Fixpoint checklist_name_loop (phrase : string) (cls : list json) : res bool :=
  match cls with
  | [] => Ok false
  | cl :: rest =>
      n <- Py.get cl "Name" JNull ;;
      name <- Py.lower (Py.or_ n (JStr "")) ;;
      if PyStr.contains phrase name then Ok true
      else checklist_name_loop phrase rest
  end.

(** The body shared, line for line, by the two detectors: they differ in
    the keyword list and in the sign-off phrase only. *)
Definition keyword_detector (keywords : list string) (signoff : string)
           (ro_detail : json) : res bool :=
  r <- Py.get ro_detail "Requests" JNull ;;
  requests_text <- Py.lower (Py.or_ r (JStr "")) ;;
  if PyStr.any_in keywords requests_text then Ok true
  else
    ll <- Py.get ro_detail "LaborList" (JArr []) ;;
    labors <- Py.iter ll ;;
    hit <- labor_keyword_loop keywords labors ;;
    if hit then Ok true
    else
      cl <- Py.get ro_detail "CheckLists" (JArr []) ;;
      cls <- Py.iter cl ;;
      hit' <- checklist_name_loop signoff cls ;;
      if hit' then Ok true else Ok false.

Definition oil_keywords : list string :=
  [ "oil change"; "lube, oil"; "oil capacity verified"; "oil filter";
    "synthetic oil"; "engine oil" ].

Definition ro_has_oil_service (ro_detail : json) : res bool :=
  keyword_detector oil_keywords "oil change signoff" ro_detail.

Definition wheel_keywords : list string :=
  [ "tire"; "mount and balance"; "wheel balance"; "alignment"; "brake";
    "cv axle"; "strut"; "shock"; "control arm"; "ball joint";
    "wheel bearing"; "rim"; "lug"; "hub" ].

Definition ro_has_wheel_work (ro_detail : json) : res bool :=
  keyword_detector wheel_keywords "wheel torque signoff" ro_detail.

End DviClient.

(* ================================================================== *)
(** ** The outside world: vendor, files, random identifiers *)
(* ================================================================== *)

(** What [requests] hands back: [resp.status_code], [resp.reason],
    [resp.text], the outcome of [resp.json()] and [resp.url], the URL
    the response came from: the one requested, unless the vendor
    redirected the request. *)
Record http_response : Type := HttpResponse {
  status_code : Z;
  reason : string;
  text : string;
  json_body : res json;
  url : string
}.

(** One HTTP request to the vendor, with the fields the client puts in it. *)
Inductive vendor_op : Type :=
| OpLogin
| OpChangeStatus (token ro_number : json) (status ro_type : string)
| OpSaveMedia (token : json) (blob_name content : string)
| OpSaveChecklistImageCloud (token ro_number labor_id item_id : json) (blob_name ro_type : string)
| OpSaveChecklist (token ro_number labor_id item_id condition comments : json) (ro_type : string)
| OpSetROStatus (token ro_number : json) (status : string)
| OpGetRODetail (token ro_number : json)
| OpGetCheckListItems (token labor_id : json).

(** The state a request handler reads and changes: the vendor requests
    sent so far (oldest first), the regular files on disk (path and
    content) and the number of identifiers drawn from [uuid.uuid4]. *)
Record World : Type := MkWorld {
  w_trace : list vendor_op;
  w_files : list (string * string);
  w_uuids : nat
}.

(** What the code does not decide: how the vendor answers a request given
    the requests before it ([Raise] is a transport failure), the hex form
    of the n-th [uuid4], which paths the OS lets the process create, the
    two optional overrides of [config.py], and what becomes of a line
    printed to standard output: [print] raises when the stream cannot
    encode the text or has been closed, which may depend on all that
    happened before. *)
Record Env : Type := MkEnv {
  vendor : list vendor_op -> vendor_op -> res http_response;
  uuid4_hex : nat -> string;
  creatable : string -> bool;
  ISO_LABOR_ID : json;
  ISO_ITEM_ID : json;
  stdout : World -> string -> res unit
}.

(** A computation in the world that returns or raises. *)
Definition M (A : Type) : Type := World -> res A * World.

Definition ret {A} (a : A) : M A := fun w => (Ok a, w).

Definition raise {A} (c : exn_class) (msg : string) : M A :=
  fun w => (Raise (Exn c msg), w).

Definition bind {A B} (m : M A) (k : A -> M B) : M B :=
  fun w => match m w with
           | (Ok a, w') => k a w'
           | (Raise e, w') => (Raise e, w')
           end.

Definition lift {A} (r : res A) : M A := fun w => (r, w).

(** [try: m  except Exception as e: h e] *)
Definition try_except {A} (m : M A) (h : exn -> M A) : M A :=
  fun w => match m w with
           | (Ok a, w') => (Ok a, w')
           | (Raise e, w') => h e w'
           end.

(** [try: m  finally: c], for a [c] that does not raise. *)
Definition try_finally {A} (m : M A) (c : World -> World) : M A :=
  fun w => let (r, w') := m w in (r, c w').

Declare Scope M_scope.
Delimit Scope M_scope with M.
Notation "x <- c ;; k" := (bind c (fun x => k))
  (at level 61, c at next level, right associativity) : M_scope.

(** ** pathlib and the file system *)

Module Fs.

(** [s.split(sep)] for a one-character separator. *)
Fixpoint split (sep : ascii) (s : string) : list string :=
  match s with
  | EmptyString => [EmptyString]
  | String c s' =>
      if Ascii.eqb c sep then EmptyString :: split sep s'
      else match split sep s' with
           | [] => [String c EmptyString]
           | x :: xs => String c x :: xs
           end
  end.

(** The components pathlib keeps: empty and "." components are dropped. *)
Definition parts (s : string) : list string :=
  filter (fun c => negb (orb (String.eqb c "") (String.eqb c ".")))
         (split "/" s).

(** [str(Path(s))] *)
Definition path_str (s : string) : string :=
  let body := PyStr.join "/" (parts s) in
  if PyStr.startswith s "/" then "/" ++ body
  else match parts s with [] => "." | _ => body end.

(** [Path(s).name] *)
Definition path_name (s : string) : string := last (parts s) "".

Fixpoint lookup (p : string) (fs : list (string * string)) : option string :=
  match fs with
  | [] => None
  | (q, c) :: rest => if String.eqb p q then Some c else lookup p rest
  end.

Definition remove (p : string) (fs : list (string * string)) : list (string * string) :=
  filter (fun qc => negb (String.eqb p (fst qc))) fs.

(** Writing a whole file: the old content, if any, is replaced. *)
Definition write (p c : string) (fs : list (string * string)) : list (string * string) :=
  (p, c) :: remove p fs.

Definition exists_ (p : string) (fs : list (string * string)) : bool :=
  match lookup p fs with Some _ => true | None => false end.

End Fs.

Definition no_such_file {A} (p : string) : M A :=
  raise FileNotFoundError ("[Errno 2] No such file or directory: " ++ Py.repr_str p).

(** [open(p, "rb")] followed by reading the handle to its end.  A path
    that is an int names a file descriptor; none is open for reading in
    the modelled process. *)
Definition open_rb (p : json) : M string :=
  fun w =>
    match p with
    | JStr s =>
        match Fs.lookup (Fs.path_str s) (w_files w) with
        | Some c => (Ok c, w)
        | None => no_such_file s w
        end
    | JInt _ | JBool _ => raise OSError "[Errno 9] Bad file descriptor" w
    | _ => raise TypeError
             ("expected str, bytes or os.PathLike object, not " ++ Py.type_name p) w
    end.

(** [open(p, "wb")]: the file exists, empty, from here on. *)
Definition open_wb (env : Env) (p : string) : M unit :=
  fun w =>
    if creatable env (Fs.path_str p) then
      (Ok tt, MkWorld (w_trace w) (Fs.write (Fs.path_str p) "" (w_files w)) (w_uuids w))
    else no_such_file p w.

(** [f.write(c)] on a handle opened by [open_wb]. *)
Definition write_file (p c : string) : M unit :=
  fun w => (Ok tt, MkWorld (w_trace w) (Fs.write (Fs.path_str p) c (w_files w)) (w_uuids w)).

(** [uuid.uuid4().hex] *)
Definition fresh_uuid_hex (env : Env) : M string :=
  fun w => (Ok (uuid4_hex env (w_uuids w)),
            MkWorld (w_trace w) (w_files w) (S (w_uuids w))).

(** [requests.get] / [requests.post]: the request is recorded, the vendor
    answers. *)
Definition http (env : Env) (op : vendor_op) : M http_response :=
  fun w => (vendor env (w_trace w) op,
            MkWorld (w_trace w ++ [op]) (w_files w) (w_uuids w)).

(* ================================================================== *)
(** ** requests: status checks on a response *)
(* ================================================================== *)

Definition DVI_BASE : string := "https://dviapi.rowriter.com".
Definition ROW_API_BASE : string := "https://api.rowriter.com".

(** The URL the client builds for each request. *)
Definition request_url (op : vendor_op) : string :=
  match op with
  | OpLogin => DVI_BASE ++ "/login"
  | OpChangeStatus _ _ _ _ => DVI_BASE ++ "/ChangeStatus"
  | OpSaveMedia _ _ _ => ROW_API_BASE ++ "/v2/BlobStorage/SaveMedia"
  | OpSaveChecklistImageCloud _ _ _ _ _ _ => DVI_BASE ++ "/SaveChecklistImageCloud"
  | OpSaveChecklist _ _ _ _ _ _ _ => DVI_BASE ++ "/SaveChecklist"
  | OpSetROStatus _ _ _ => DVI_BASE ++ "/SetROStatus"
  | OpGetRODetail _ ro_number => DVI_BASE ++ "/GetRODetail/" ++ Py.str ro_number
  | OpGetCheckListItems _ labor_id =>
      DVI_BASE ++ "/GetCheckListItemsV2/" ++ Py.str labor_id ++ "/"
  end.

(** [resp.raise_for_status()] of the requests library: an [HTTPError]
    for 4xx and 5xx, whose text is made of the status code, the reason
    phrase and [resp.url]. *)
Definition raise_for_status (resp : http_response) : res unit :=
  let code := status_code resp in
  if andb (400 <=? code)%Z (code <? 500)%Z then
    Raise (Exn HTTPError (Py.str_int code ++ " Client Error: " ++ reason resp
                            ++ " for url: " ++ url resp))
  else if andb (500 <=? code)%Z (code <? 600)%Z then
    Raise (Exn HTTPError (Py.str_int code ++ " Server Error: " ++ reason resp
                            ++ " for url: " ++ url resp))
  else Ok tt.

(** [resp.ok]: [raise_for_status] would not raise. *)
Definition resp_ok (resp : http_response) : bool :=
  negb (andb (400 <=? status_code resp)%Z (status_code resp <? 600)%Z).

(** [d[k]] for a string key. *)
Definition getitem_str (d : json) (k : string) : res json :=
  match d with
  | JObj kvs =>
      match Py.assoc k kvs with
      | Some v => Ok v
      | None => Raise (Exn KeyError (Py.repr_str k))
      end
  | JArr _ => Raise (Exn TypeError "list indices must be integers or slices, not str")
  | JStr _ => Raise (Exn TypeError "string indices must be integers, not 'str'")
  | _ => Raise (Exn TypeError ("'" ++ Py.type_name d ++ "' object is not subscriptable"))
  end.

(** [x[0]] *)
Definition getitem0 (x : json) : res json :=
  match x with
  | JArr (a :: _) => Ok a
  | JArr [] => Raise (Exn IndexError "list index out of range")
  | JStr (String c _) => Ok (JStr (String c ""))
  | JStr EmptyString => Raise (Exn IndexError "string index out of range")
  | JObj _ => Raise (Exn KeyError "0")
  | _ => Raise (Exn TypeError ("'" ++ Py.type_name x ++ "' object is not subscriptable"))
  end.

(** [x.strip(q)] where [q] is the double-quote character. *)
Definition strip_quotes (x : json) : res string :=
  match x with
  | JStr s => Ok (PyStr.strip_char dquote s)
  | _ => Py.no_attribute x "strip"
  end.

(* ================================================================== *)
(** ** The vendor client: dvi_auth, dvi_status, dvi_media, dvi_client *)
(* ================================================================== *)

Section Client.
Variable env : Env.
Local Open Scope M_scope.

(** dvi_auth.py *)
Definition dvi_login : M json :=
  resp <- http env OpLogin ;;
  _ <- lift (raise_for_status resp) ;;
  data <- lift (json_body resp) ;;
  lift (getitem_str data "Token").

(** dvi_status.py *)
Definition change_status (token ro_number : json) (status ro_type : string) : M string :=
  resp <- http env (OpChangeStatus token ro_number status ro_type) ;;
  _ <- lift (raise_for_status resp) ;;
  ret (text resp).

(** dvi_media.py; [image_bytes] is [None] or a bytes object. *)
Definition save_media (token image_path : json) (image_bytes : option string) : M string :=
  let bytes_truthy :=
    match image_bytes with Some b => negb (String.eqb b "") | None => false end in
  if andb (negb (Py.truthy image_path)) (negb bytes_truthy) then
    raise ValueError "Must provide either image_path or image_bytes"
  else
    h <- fresh_uuid_hex env ;;
    let blob_name := h ++ ".jpg" in
    content <- (if Py.truthy image_path then open_rb image_path
                else ret (match image_bytes with Some b => b | None => "" end)) ;;
    resp <- http env (OpSaveMedia token blob_name content) ;;
    _ <- lift (raise_for_status resp) ;;
    j <- lift (json_body resp) ;;
    lift (strip_quotes j).

Definition failed (what : string) (resp : http_response) : string :=
  what ++ " failed: " ++ Py.str_int (status_code resp) ++ " " ++ text resp.

(** dvi_client.py *)
Definition get_ro_detail (token ro_number : json) : M json :=
  resp <- http env (OpGetRODetail token ro_number) ;;
  if negb (resp_ok resp) then raise DVIError (failed "GetRODetail" resp)
  else lift (json_body resp).

Definition get_checklist_items (token labor_id : json) : M json :=
  resp <- http env (OpGetCheckListItems token labor_id) ;;
  if negb (resp_ok resp) then raise DVIError (failed "GetCheckListItemsV2" resp)
  else lift (json_body resp).

(** [try: return resp.json()  except Exception: return {"raw": resp.text}] *)
Definition json_or_raw (resp : http_response) : json :=
  match json_body resp with
  | Ok j => j
  | Raise _ => JObj [("raw", JStr (text resp))]
  end.

Definition save_checklist (token ro_number labor_id item_id condition comments : json)
           (ro_type : string) : M json :=
  resp <- http env (OpSaveChecklist token ro_number labor_id item_id
                                    condition comments ro_type) ;;
  if negb (resp_ok resp) then raise DVIError (failed "SaveChecklist" resp)
  else ret (json_or_raw resp).

Definition save_checklist_image_cloud (token ro_number labor_id item_id : json)
           (blob_name ro_type : string) : M json :=
  resp <- http env (OpSaveChecklistImageCloud token ro_number labor_id item_id
                                              blob_name ro_type) ;;
  if negb (resp_ok resp) then raise DVIError (failed "SaveChecklistImageCloud" resp)
  else ret (json_or_raw resp).

Definition set_ro_status (token ro_number : json) (status : Z) : M json :=
  resp <- http env (OpSetROStatus token ro_number (Py.str_int status)) ;;
  if negb (resp_ok resp) then raise DVIError (failed "SetROStatus" resp)
  else ret (json_or_raw resp).

End Client.

(* ================================================================== *)
(** ** base64.b64decode *)
(* ================================================================== *)

Module Base64.

(** The value of one character of the base64 alphabet. *)
Definition value (c : ascii) : option nat :=
  let n := nat_of_ascii c in
  if andb (Nat.leb 65 n) (Nat.leb n 90) then Some (n - 65)
  else if andb (Nat.leb 97 n) (Nat.leb n 122) then Some (n - 71)
  else if andb (Nat.leb 48 n) (Nat.leb n 57) then Some (n + 4)
  else if Nat.eqb n 43 then Some 62
  else if Nat.eqb n 47 then Some 63
  else None.

Definition byte (n : nat) : string := String (ascii_of_nat (n mod 256)) EmptyString.

(** [binascii.a2b_base64] in its default, non-strict mode: characters
    outside the alphabet are skipped, a completed pad ends the input, and
    a dangling group is an error. *)
Fixpoint a2b (s : string) (quad_pos leftchar pads : nat) (out : string) : res string :=
  match s with
  | EmptyString =>
      if Nat.eqb quad_pos 0 then Ok out
      else if Nat.eqb quad_pos 1 then
        Raise (Exn BinasciiError
                 ("Invalid base64-encoded string: number of data characters ("
                    ++ Py.str_int (Z.of_nat (String.length out / 3 * 4 + 1))
                    ++ ") cannot be 1 more than a multiple of 4"))
      else Raise (Exn BinasciiError "Incorrect padding")
  | String c s' =>
      if Ascii.eqb c "=" then
        if Nat.leb 2 quad_pos then
          if Nat.leb 4 (quad_pos + S pads) then Ok out
          else a2b s' quad_pos leftchar (S pads) out
        else a2b s' quad_pos leftchar pads out
      else
        match value c with
        | None => a2b s' quad_pos leftchar pads out
        | Some v =>
            match quad_pos with
            | 0 => a2b s' 1 v 0 out
            | 1 => a2b s' 2 (v mod 16) 0 (out ++ byte (leftchar * 4 + v / 16))
            | 2 => a2b s' 3 (v mod 4) 0 (out ++ byte (leftchar * 16 + v / 4))
            | _ => a2b s' 0 0 0 (out ++ byte (leftchar * 64 + v))
            end
        end
  end.

Fixpoint is_ascii (s : string) : bool :=
  match s with
  | EmptyString => true
  | String c s' => andb (Nat.ltb (nat_of_ascii c) 128) (is_ascii s')
  end.

(** [base64.b64decode(x)] *)
Definition b64decode (x : json) : res string :=
  match x with
  | JStr s =>
      if is_ascii s then a2b s 0 0 0 EmptyString
      else Raise (Exn ValueError "string argument should contain only ASCII characters")
  | _ => Raise (Exn TypeError
                  ("argument should be a bytes-like object or ASCII string, not '"
                     ++ Py.type_name x ++ "'"))
  end.

End Base64.

(* ================================================================== *)
(** ** dvi_server_final.py *)
(* ================================================================== *)

(** A werkzeug [FileStorage]. *)
Record upload : Type := Upload { up_filename : string; up_content : string }.

(** What a handler reads from flask's [request]: the content type, the
    form fields and files of a multipart body (every part, in the order
    of the body; a name may occur more than once), and the outcome of
    [get_json(force=True, silent=True)] ([None] when the body does not
    parse). *)
Record request : Type := Request {
  content_type : option string;
  form : list (string * string);
  files : list (string * upload);
  get_json : option json
}.

(** [d.items()] of a werkzeug [MultiDict] such as [request.files]: each
    key once, in the order of its first occurrence, with the first of
    its values. *)
Fixpoint multidict_items {A} (l : list (string * A)) : list (string * A) :=
  match l with
  | [] => []
  | (k, v) :: rest =>
      (k, v) :: filter (fun kv => negb (String.eqb k (fst kv))) (multidict_items rest)
  end.

(** A returned [(jsonify(body), status)]. *)
Record response : Type := Response { http_status : Z; body : json }.

Definition error_body (msg : string) : json :=
  JObj [("ok", JBool false); ("error", JStr msg)].

(** [str(data.get(flag, "true")).lower() == "true"], given the looked-up
    value. *)
Definition flag_is_true (v : json) : bool :=
  String.eqb (PyStr.lower (Py.str v)) "true".

Section FinalServer.
Variable env : Env.
Local Open Scope M_scope.

(** [log(msg)]: [print(msg, flush=True)].  The line goes to standard
    output, or the call raises; what was printed is not kept. *)
Definition log (msg : string) : M unit := fun w => (stdout env w msg, w).

(** The search for the ISO item in [resolve_iso_labor_and_item]:
    [iso_item] stays [None] unless a title matches. *)
Fixpoint iso_item_loop (items : list json) : res json :=
  match items with
  | [] => Ok JNull
  | item :: rest =>
      match Py.get item "Title" JNull with
      | Raise e => Raise e
      | Ok t =>
          match Py.lower (Py.or_ t (JStr "")) with
          | Raise e => Raise e
          | Ok title =>
              if PyStr.contains "iso" title then Ok item else iso_item_loop rest
          end
      end
  end.

Definition resolve_iso_labor_and_item (token ro_number : json) : M (json * json) :=
  let static_labor := ISO_LABOR_ID env in
  let static_item := ISO_ITEM_ID env in
  if andb (Py.truthy static_labor) (Py.truthy static_item) then
    ret (static_labor, static_item)
  else
    ro_detail <- get_ro_detail env token ro_number ;;
    labor_id <- lift (DviClient.find_labor_id_by_description ro_detail "ISO") ;;
    if negb (Py.truthy labor_id) then
      raise RuntimeError ("Could not find ISO labor for RO " ++ Py.str ro_number)
    else
      items_payload <- get_checklist_items env token labor_id ;;
      items <- (if Py.is_list items_payload then ret items_payload
                else lift (Py.get items_payload "Items" (JArr []))) ;;
      if negb (Py.truthy items) then
        raise RuntimeError ("No checklist items returned for ISO labor "
                              ++ Py.str labor_id ++ " / RO " ++ Py.str ro_number)
      else
        its <- lift (Py.iter items) ;;
        found <- lift (iso_item_loop its) ;;
        iso_item <- (if negb (Py.truthy found) then lift (getitem0 items)
                     else ret found) ;;
        item_id <- lift (Py.get iso_item "ID" JNull) ;;
        if negb (Py.truthy item_id) then
          raise RuntimeError ("Could not determine ISO item ID for RO "
                                ++ Py.str ro_number)
        else ret (labor_id, item_id).

(** [/health] *)
Definition health (req : request) : M response :=
  ret (Response 200 (JObj [("ok", JBool true);
                            ("message", JStr "DVI bridge server running")])).

(** [request.get_json(force=True, silent=True) or {}] *)
Definition json_or_empty (req : request) : json :=
  Py.or_ (match get_json req with Some j => j | None => JNull end) (JObj []).

(** The four status-only endpoints share this body; they differ in
    their route, which the log line of a failure names, in the text of
    the 400 answer and in the status code sent. *)
Definition status_endpoint (route missing status : string) (req : request) : M response :=
  let data := json_or_empty req in
  ro_number <- lift (Py.get data "ro_number" JNull) ;;
  if negb (Py.truthy ro_number) then ret (Response 400 (error_body missing))
  else
    try_except
      (token <- dvi_login env ;;
       raw <- change_status env token ro_number status "R" ;;
       ret (Response 200 (JObj [("ok", JBool true); ("ro_number", ro_number);
                                 ("new_status", JStr status); ("raw", JStr raw)])))
      (fun e =>
         _ <- log (route ++ " error: " ++ exn_msg e) ;;
         ret (Response 500 (error_body (exn_msg e)))).

Definition dvi_start : request -> M response :=
  status_endpoint "/dvi/start" "Missing required field 'ro_number'" "3".

Definition dvi_iso_complete : request -> M response :=
  status_endpoint "/dvi/iso_complete" "Missing ro_number" "4".

Definition dvi_pma_complete : request -> M response :=
  status_endpoint "/dvi/pma_complete" "Missing ro_number" "5".

Definition dvi_qc_complete : request -> M response :=
  status_endpoint "/dvi/qc_complete" "Missing ro_number" "8".

(** [/dvi/upload_image] *)
Definition dvi_upload_image (req : request) : M response :=
  try_except
    (match find (fun kf => String.eqb "file" (fst kf)) (files req) with
     | Some (_, file) =>
         if String.eqb (up_filename file) "" then
           ret (Response 400 (error_body "Empty filename"))
         else
           h <- fresh_uuid_hex env ;;
           let tmp_path := "./tmp_" ++ h ++ ".jpg" in
           _ <- open_wb env tmp_path ;;
           _ <- write_file tmp_path (up_content file) ;;
           ret (Response 200 (JObj [("ok", JBool true);
                                     ("temp_path", JStr (Fs.path_str tmp_path))]))
     | None => ret (Response 400 (error_body "No file part"))
     end)
    (fun e =>
       _ <- log ("/dvi/upload_image error: " ++ exn_msg e) ;;
       ret (Response 500 (error_body (exn_msg e)))).

(** Step 1 of the ISO inspection: every multipart file is saved under a
    fresh name. *)
Fixpoint stage_files (fs : list (string * upload)) : M (list json) :=
  match fs with
  | [] => ret []
  | (_, f) :: rest =>
      if String.eqb (up_filename f) "" then stage_files rest
      else
        h <- fresh_uuid_hex env ;;
        let tmp_path := "./tmp_" ++ h ++ ".jpg" in
        _ <- open_wb env tmp_path ;;
        _ <- write_file tmp_path (up_content f) ;;
        staged <- stage_files rest ;;
        ret (JStr (Fs.path_str tmp_path) :: staged)
  end.

(** The body of the [try] of step 3, for one entry of [images_base64];
    [None] stands for [continue]. *)
Definition decode_image (img : json) : M (option string) :=
  named <- (match img with
            | JStr _ =>
                h <- fresh_uuid_hex env ;;
                ret (img, JStr ("img_" ++ h ++ ".jpg"))
            | JObj _ =>
                h <- fresh_uuid_hex env ;;
                filename <- lift (Py.get img "filename" (JStr ("img_" ++ h ++ ".jpg"))) ;;
                b64data <- lift (Py.get img "data" JNull) ;;
                ret (b64data, filename)
            | _ => lift (Py.no_attribute img "get")
            end) ;;
  let b64data := fst named in
  let filename := snd named in
  if negb (Py.truthy b64data) then ret None
  else
    h <- fresh_uuid_hex env ;;
    let tmp_path := "./tmp_" ++ h ++ "_" ++ Py.str filename in
    _ <- open_wb env tmp_path ;;
    decoded <- lift (Base64.b64decode b64data) ;;
    _ <- write_file tmp_path decoded ;;
    ret (Some (Fs.path_str tmp_path)).

(** Step 3: a failure on one entry is logged and the entry skipped. *)
Fixpoint decode_images (imgs : list json) : M (list json) :=
  match imgs with
  | [] => ret []
  | img :: rest =>
      r <- try_except (decode_image img)
                      (fun e => _ <- log ("Base64 decode error: " ++ exn_msg e) ;;
                                ret None) ;;
      decoded <- decode_images rest ;;
      ret (match r with Some p => JStr p :: decoded | None => decoded end)
  end.

(** The body of the [try] inside the upload loop, for one image. *)
Definition upload_and_attach (token ro_number labor_id item_id p : json) : M string :=
  blob <- save_media env token p None ;;
  _ <- save_checklist_image_cloud env token ro_number labor_id item_id blob "R" ;;
  ret blob.

(** [msg] of the [except] inside the upload loop. *)
Definition upload_error (p : json) (e : exn) : string :=
  "Failed to upload/attach " ++ Py.str p ++ ": " ++ exn_msg e.

(** The upload loop: [blobs] and [upload_errors] grow at their ends; a
    failure is logged before it is recorded. *)
Fixpoint upload_images (token ro_number labor_id item_id : json) (image_paths : list json)
         (blobs upload_errors : list string) : M (list string * list string) :=
  match image_paths with
  | [] => ret (blobs, upload_errors)
  | p :: rest =>
      r <- try_except
             (blob <- upload_and_attach token ro_number labor_id item_id p ;;
              ret (inl blob))
             (fun e => let msg := upload_error p e in
                       _ <- log msg ;;
                       ret (inr msg)) ;;
      match r with
      | inl blob => upload_images token ro_number labor_id item_id rest
                                  (blobs ++ [blob]) upload_errors
      | inr msg => upload_images token ro_number labor_id item_id rest
                                 blobs (upload_errors ++ [msg])
      end
  end.

(** The [finally] block: what is in [tmp_files_cleanup], still on disk and
    named [tmp_...] is unlinked; an entry that is no path is passed over. *)
Fixpoint cleanup (tmp_files_cleanup : list json) (w : World) : World :=
  match tmp_files_cleanup with
  | [] => w
  | p :: rest =>
      let w' :=
        match p with
        | JStr s =>
            if andb (Fs.exists_ (Fs.path_str s) (w_files w))
                    (PyStr.startswith (Fs.path_name s) "tmp_")
            then MkWorld (w_trace w) (Fs.remove (Fs.path_str s) (w_files w)) (w_uuids w)
            else w
        | _ => w
        end in
      cleanup rest w'
  end.

(** The body of the outer [try] of [/dvi/iso_inspection]. *)
Definition iso_inspection_try (data ro_number title comments : json)
           (image_paths : list json) (move_to_start move_to_complete : bool) : M response :=
  token <- dvi_login env ;;
  ids <- resolve_iso_labor_and_item token ro_number ;;
  let labor_id := fst ids in
  let item_id := snd ids in
  _ <- log ("Resolved ISO labor_id=" ++ Py.str labor_id ++ ", item_id=" ++ Py.str item_id
              ++ " for RO " ++ Py.str ro_number) ;;
  up <- upload_images token ro_number labor_id item_id image_paths [] [] ;;
  let blobs := fst up in
  let upload_errors := snd up in
  c <- lift (Py.get data "condition" (JStr "")) ;;
  let condition :=
    Py.or_ c (if Py.truthy comments then JStr "Failed Inspection" else JStr "") in
  checklist_result <- save_checklist env token ro_number labor_id item_id
                                     condition comments "R" ;;
  started <- (if move_to_start
              then raw <- change_status env token ro_number "3" "R" ;;
                   ret [("start", JStr raw)]
              else ret []) ;;
  status_changes <- (if move_to_complete
                     then raw <- change_status env token ro_number "4" "R" ;;
                          ret (started ++ [("iso_complete", JStr raw)])%list
                     else ret started) ;;
  ret (Response 200
         (JObj [("ok", JBool true);
                ("ro_number", ro_number);
                ("title", title);
                ("labor_id", labor_id);
                ("item_id", item_id);
                ("blobs", JArr (map JStr blobs));
                ("upload_errors", JArr (map JStr upload_errors));
                ("checklist", checklist_result);
                ("status_changes", JObj status_changes)])).

(** [/dvi/iso_inspection] *)
Definition dvi_iso_inspection (req : request) : M response :=
  let multipart :=
    match content_type req with
    | Some ct => PyStr.contains "multipart/form-data" ct
    | None => false
    end in
  let data := if multipart
              then JObj (map (fun kv => (fst kv, JStr (snd kv))) (multidict_items (form req)))
              else json_or_empty req in
  let files := if multipart then multidict_items (files req) else [] in
  ro_number <- lift (Py.get data "ro_number" JNull) ;;
  if negb (Py.truthy ro_number) then
    ret (Response 400 (error_body "Missing required field 'ro_number'"))
  else
    title <- lift (Py.get data "title" (JStr "ISO Vehicle Inspection")) ;;
    comments <- lift (Py.get data "comments" (JStr "")) ;;
    staged <- stage_files files ;;
    paths <- lift (Py.get data "image_paths" (JArr [])) ;;
    let listed := match paths with JArr l => l | _ => [] end in
    images_b64 <- lift (Py.get data "images_base64" (JArr [])) ;;
    decoded <- (match images_b64 with JArr l => decode_images l | _ => ret [] end) ;;
    let image_paths := (staged ++ listed ++ decoded)%list in
    ms <- lift (Py.get data "move_to_start" (JStr "true")) ;;
    mc <- lift (Py.get data "move_to_complete" (JStr "true")) ;;
    let move_to_start := flag_is_true ms in
    let move_to_complete := flag_is_true mc in
    _ <- log ("/dvi/iso_inspection ro=" ++ Py.str ro_number ++ ", title=" ++ Py.str title
                ++ ", images=" ++ Py.str_int (Z.of_nat (length image_paths))) ;;
    let tmp_files_cleanup := image_paths in
    try_finally
      (try_except
         (iso_inspection_try data ro_number title comments image_paths
                             move_to_start move_to_complete)
         (fun e =>
            _ <- log ("/dvi/iso_inspection error: " ++ exn_msg e) ;;
            ret (Response 500 (error_body (exn_msg e)))))
      (cleanup tmp_files_cleanup).

End FinalServer.

(* ================================================================== *)
(** ** dvi_bridge.py: the flag helper *)
(* ================================================================== *)


(* ================================================================== *)
(** ** Vocabulary of the statements *)
(* ================================================================== *)

(** The text a field contributes to a keyword scan: a string as it is,
    anything falsy as the empty text. *)
Definition text_of (v : json) : string :=
  match v with JStr s => s | _ => EmptyString end.

(** The value under a key of an object, [JNull] when there is none. *)
Definition field (obj : json) (k : string) : json :=
  match obj with
  | JObj kvs => match Py.assoc k kvs with Some v => v | None => JNull end
  | _ => JNull
  end.

Definition field_text (obj : json) (k : string) : string :=
  PyStr.lower (text_of (field obj k)).

(** The entries of a list-valued field, none when the field is absent. *)
Definition entries (d : json) (k : string) : list json :=
  match field d k with JArr l => l | _ => [] end.

(** A text field is well formed when it is a string or falsy. *)
Definition wf_text (v : json) : bool :=
  match v with JStr _ => true | _ => negb (Py.truthy v) end.

Definition wf_entry (k : string) (e : json) : bool :=
  match e with JObj _ => wf_text (field e k) | _ => false end.

(** A list field is well formed when it is absent or a list of objects
    whose text field [ek] is well formed. *)
Definition wf_list (d : json) (k ek : string) : bool :=
  match d with
  | JObj kvs =>
      match Py.assoc k kvs with
      | None => true
      | Some (JArr l) => forallb (wf_entry ek) l
      | Some _ => false
      end
  | _ => false
  end.

(** An RO detail as the vendor documents it. *)
Definition wf_detail (d : json) : bool :=
  andb (wf_text (field d "Requests"))
       (andb (wf_list d "LaborList" "Description") (wf_list d "CheckLists" "Name")).

(** What the detectors compute: a keyword in the requests text or in a
    labor description, or the sign-off phrase in a checklist name. *)
Definition keyword_hit (keywords : list string) (signoff : string) (d : json) : Prop :=
  (exists k, In k keywords /\ PyStr.contains k (field_text d "Requests") = true)
  \/ (exists labor k, In labor (entries d "LaborList") /\ In k keywords
                      /\ PyStr.contains k (field_text labor "Description") = true)
  \/ (exists cl, In cl (entries d "CheckLists")
                 /\ PyStr.contains signoff (field_text cl "Name") = true).

(** The detector as the specification words it: a keyword of the list in
    any of the three text sources. *)
Definition spec_keyword_in_any_source (keywords : list string) (d : json) : bool :=
  orb (PyStr.any_in keywords (field_text d "Requests"))
      (orb (existsb (fun labor => PyStr.any_in keywords (field_text labor "Description"))
                    (entries d "LaborList"))
           (existsb (fun cl => PyStr.any_in keywords (field_text cl "Name"))
                    (entries d "CheckLists"))).

(** The world after one more request to the vendor. *)
Definition sent (op : vendor_op) (w : World) : World :=
  MkWorld (w_trace w ++ [op]) (w_files w) (w_uuids w).

(** The world after one more identifier was drawn. *)
Definition drawn (w : World) : World :=
  MkWorld (w_trace w) (w_files w) (S (w_uuids w)).

(** After the requests [h], the vendor answers [op] with [r], a response
    whose status is no error status. *)
Definition answers_ok (env : Env) (h : list vendor_op) (op : vendor_op)
           (r : http_response) : Prop :=
  vendor env h op = Ok r /\ resp_ok r = true.

(** The title of a checklist item holds the keyword, ignoring case. *)
Definition title_has_iso (item : json) : bool :=
  PyStr.contains "iso" (field_text item "Title").

(** The overrides of config.py are both set. *)
Definition static_ids (env : Env) : bool :=
  andb (Py.truthy (ISO_LABOR_ID env)) (Py.truthy (ISO_ITEM_ID env)).

(** Standard output takes every line the server prints. *)
Definition quiet (env : Env) : Prop := forall w msg, stdout env w msg = Ok tt.

(** The computation returned, or raised what a [print] raised. *)
Definition only_print_raises {A} (env : Env) (r : res A) : Prop :=
  match r with
  | Ok _ => True
  | Raise e => exists w msg, stdout env w msg = Raise e
  end.

(** What becomes of one image at the world [w]: the upload of its path,
    then the attachment of the identifier the upload returned; the
    identifier when both calls return, else the exception of the call
    that raised (no attachment is asked for after a failed upload). *)
Definition image_outcome (env : Env) (token ro_number labor_id item_id p : json)
           (w : World) : res string * World :=
  match save_media env token p None w with
  | (Ok blob, w1) =>
      match save_checklist_image_cloud env token ro_number labor_id item_id blob "R" w1 with
      | (Ok _, w2) => (Ok blob, w2)
      | (Raise e, w2) => (Raise e, w2)
      end
  | (Raise e, w1) => (Raise e, w1)
  end.

(** Each image with its outcome, the images taken one after the other
    from the world [w], whatever became of the images before. *)
Fixpoint image_outcomes (env : Env) (token ro_number labor_id item_id : json)
         (image_paths : list json) (w : World) : list (json * res string) :=
  match image_paths with
  | [] => []
  | p :: rest =>
      let (r, w') := image_outcome env token ro_number labor_id item_id p w in
      (p, r) :: image_outcomes env token ro_number labor_id item_id rest w'
  end.

(** The world the images leave behind. *)
Fixpoint after_images (env : Env) (token ro_number labor_id item_id : json)
         (image_paths : list json) (w : World) : World :=
  match image_paths with
  | [] => w
  | p :: rest =>
      after_images env token ro_number labor_id item_id rest
                   (snd (image_outcome env token ro_number labor_id item_id p w))
  end.

(** The blob identifiers of the images that went through. *)
Definition uploaded (outcomes : list (json * res string)) : list string :=
  flat_map (fun pr => match snd pr with Ok blob => [blob] | Raise _ => [] end) outcomes.

(** The entries of [upload_errors] for the images that did not: the
    path and the text of the exception. *)
Definition upload_failures (outcomes : list (json * res string)) : list string :=
  flat_map (fun pr => match snd pr with
                      | Ok _ => []
                      | Raise e => ["Failed to upload/attach " ++ Py.str (fst pr) ++ ": "
                                      ++ exn_msg e]
                      end) outcomes.

(** The request is read as multipart form data. *)
Definition is_multipart (req : request) : bool :=
  match content_type req with
  | Some ct => PyStr.contains "multipart/form-data" ct
  | None => false
  end.

(** The checklist item the resolution settles on: the first one whose
    title holds the keyword, else the first one. *)
Definition chosen_item (items : list json) : option json :=
  match find title_has_iso items with
  | Some it => Some it
  | None => head items
  end.

(** The items a checklist payload carries: the payload itself when it is
    a list, else what it has under [Items], nothing when absent. *)
Definition payload_items (payload : json) : json :=
  match payload with
  | JArr _ => payload
  | JObj kvs => match Py.assoc "Items" kvs with Some v => v | None => JArr [] end
  | _ => JNull
  end.

(** [d.get(k, default)] on a dict. *)
Definition field_or (obj : json) (k : string) (default : json) : json :=
  match obj with
  | JObj kvs => match Py.assoc k kvs with Some v => v | None => default end
  | _ => default
  end.

(** The vendor answers the requests [ops], sent one after the other
    after the requests [h], with the responses [rs], none an error. *)
Fixpoint accepts (env : Env) (h : list vendor_op) (ops : list vendor_op)
         (rs : list http_response) : Prop :=
  match ops, rs with
  | [], [] => True
  | op :: ops', r :: rs' => answers_ok env h op r /\ accepts env (h ++ [op]) ops' rs'
  | _, _ => False
  end.

(** The vendor operations of an inspection without images, as the final
    server issues them. *)
Definition inspection_ops (env : Env) (token ro_number condition comments : json)
  : list vendor_op :=
  [ OpLogin;
    OpSaveChecklist token ro_number (ISO_LABOR_ID env) (ISO_ITEM_ID env)
                    condition comments "R";
    OpChangeStatus token ro_number "3" "R";
    OpChangeStatus token ro_number "4" "R" ].

(** The order of operations the specification's scenario words. *)
Definition spec_scenario_ops (env : Env) (token ro_number condition comments : json)
  : list vendor_op :=
  [ OpLogin;
    OpChangeStatus token ro_number "3" "R";
    OpSaveChecklist token ro_number (ISO_LABOR_ID env) (ISO_ITEM_ID env)
                    condition comments "R";
    OpChangeStatus token ro_number "4" "R" ].






(** A structured answer: 200 with [ok] true, or 400 or 500 with [ok]
    false and an error text. *)
Definition structured (r : response) : Prop :=
  (http_status r = 200%Z /\ field (body r) "ok" = JBool true)
  \/ ((http_status r = 400%Z \/ http_status r = 500%Z)
      /\ field (body r) "ok" = JBool false
      /\ exists msg, field (body r) "error" = JStr msg).

(* ================================================================== *)
(** ** dvi_bridge.py: the RowID in a form action *)
(* ================================================================== *)

(** [s.split(sep)] for a separator of one character or more: the pieces
    between the occurrences of [sep], taken from the left without
    overlap; [skip] counts the characters of an occurrence still to pass. *)
Fixpoint split_on (sep : string) (skip : nat) (s : string) : list string :=
  match s with
  | EmptyString => [EmptyString]
  | String c s' =>
      match skip with
      | S k => split_on sep k s'
      | O =>
          if String.prefix sep s
          then EmptyString :: split_on sep (String.length sep - 1) s'
          else match split_on sep 0 s' with
               | x :: xs => String c x :: xs
               | [] => [String c EmptyString]
               end
      end
  end.

(** [action.split(marker)[1].split("&")[0]], for an action that holds
    the marker. *)
Definition parameter_after (marker action : string) : string :=
  hd EmptyString (Fs.split "&" (nth 1 (split_on marker 0 action) EmptyString)).

(** The part of [get_rowid_for_ro] that reads the RowID off the action
    of the form: the value after "ID=", else the value after "rowid=";
    [None] when the code goes on to the hidden field. *)
Definition rowid_from_action (action : string) : option string :=
  let by_id :=
    if PyStr.contains "ID=" action then
      let rowid := parameter_after "ID=" action in
      if negb (String.eqb rowid "") then Some rowid else None
    else None in
  match by_id with
  | Some rowid => Some rowid
  | None =>
      if PyStr.contains "rowid=" action then
        let rowid := parameter_after "rowid=" action in
        if negb (String.eqb rowid "") then Some rowid else None
      else None
  end.

(* ================================================================== *)
(** ** dvi_client.py: the remaining helpers *)
(* ================================================================== *)

(** The loop of [find_checklist_for_name]. *)
Fixpoint find_checklist_loop (target : string) (cls : list json) : res json :=
  match cls with
  | [] => Ok JNull
  | cl :: rest =>
      res_bind (Py.get cl "Name" JNull) (fun n =>
      res_bind (Py.lower (Py.or_ n (JStr ""))) (fun name =>
      if String.eqb name target then Ok cl
      else find_checklist_loop target rest))
  end.

Definition find_checklist_for_name (ro_detail : json) (checklist_name : string) : res json :=
  let target := PyStr.lower checklist_name in
  res_bind (Py.get ro_detail "CheckLists" (JArr [])) (fun cl =>
  res_bind (Py.iter cl) (fun cls =>
  find_checklist_loop target cls)).

Definition TECH_NOTES_ITEM_ID : json := JStr "791b5ee9-3a37-4a09-b866-07cdf9412268".

Definition save_pma_technician_notes (env : Env) (token ro_number pma_labor_id notes : json)
  : M json :=
  let condition := JStr "See Notes Below" in
  save_checklist env token ro_number pma_labor_id TECH_NOTES_ITEM_ID condition notes "R".

(** ** More vocabulary *)

(** The computation only appends requests to the trace, each of them
    satisfying [Q]. *)
Definition appends {A} (Q : vendor_op -> Prop) (m : M A) : Prop :=
  forall w, exists ops,
    w_trace (snd (m w)) = (w_trace w ++ ops)%list /\ Forall Q ops.

(** The request uploads or attaches an image. *)
Definition image_op (op : vendor_op) : Prop :=
  match op with
  | OpSaveMedia _ _ _ | OpSaveChecklistImageCloud _ _ _ _ _ _ => True
  | _ => False
  end.

(** The data a handler of the final server reads its fields from: the
    form of a multipart request, else the parsed JSON body. *)
Definition request_data (req : request) : json :=
  if is_multipart req
  then JObj (map (fun kv => (fst kv, JStr (snd kv))) (multidict_items (form req)))
  else json_or_empty req.

(** The flags of a request, as the ISO inspection handler reads them. *)
Definition start_flag (req : request) : bool :=
  flag_is_true (field_or (request_data req) "move_to_start" (JStr "true")).

Definition complete_flag (req : request) : bool :=
  flag_is_true (field_or (request_data req) "move_to_complete" (JStr "true")).

(** What the ISO inspection may send once it has logged in: lookups,
    uploads, attachments and the checklist save; a status change to "3"
    or "4" when the matching flag is on; no other status change, no
    [SetROStatus], no further login. *)
Definition allowed_after_login (move_to_start move_to_complete : bool) (op : vendor_op)
  : Prop :=
  match op with
  | OpLogin => False
  | OpSetROStatus _ _ _ => False
  | OpChangeStatus _ _ status _ =>
      (status = "3" /\ move_to_start = true) \/ (status = "4" /\ move_to_complete = true)
  | _ => True
  end.

(** A labor entry the labor lookup returns the id of: its description
    holds the target and its id is truthy. *)
Definition labor_matches (target : string) (labor : json) : bool :=
  andb (PyStr.contains (PyStr.lower target) (field_text labor "Description"))
       (Py.truthy (field labor "ID")).

(** No identifier drawn from [uuid4] holds a slash. *)
Definition slash_free_uuids (env : Env) : Prop :=
  forall n, PyStr.contains "/" (uuid4_hex env n) = false.

(** The four status-only endpoints of the final server, each with the
    status code it sends and the text of its 400 answer. *)
Definition status_endpoints (env : Env)
  : list ((request -> M response) * (string * string)) :=
  [ (dvi_start env, ("3", "Missing required field 'ro_number'"));
    (dvi_iso_complete env, ("4", "Missing ro_number"));
    (dvi_pma_complete env, ("5", "Missing ro_number"));
    (dvi_qc_complete env, ("8", "Missing ro_number")) ].

(** The answer of a status-only endpoint that went through. *)
Definition status_answer (ro_number : json) (status raw : string) : response :=
  Response 200 (JObj [("ok", JBool true); ("ro_number", ro_number);
                      ("new_status", JStr status); ("raw", JStr raw)]).

(** One handler run after the other on the same request. *)
Definition twice (handler : request -> M response) (req : request)
  : M (response * response) :=
  bind (handler req) (fun first =>
  bind (handler req) (fun second => ret (first, second))).

(** From [w] to [w'] at most [n] requests were sent, all of them image
    uploads or attachments, and no file was touched. *)
Definition image_effect (n : nat) (w w' : World) : Prop :=
  exists ops,
    w_trace w' = (w_trace w ++ ops)%list
    /\ Forall image_op ops
    /\ length ops <= n
    /\ w_files w' = w_files w.

(* ================================================================== *)
(** ** A concrete vendor and world, for evaluating the handlers *)
(* ================================================================== *)

Module Demo.

(** Four hex digits of [n], after a fixed 28-digit prefix: the shape of
    [uuid4().hex]. *)
Definition uuid4_hex (n : nat) : string :=
  "3f2a9c1e5b7d4e0fa1b2c3d4e5f6"
    ++ String (Py.hex_digit (n / 4096 mod 16))
         (String (Py.hex_digit (n / 256 mod 16))
            (String (Py.hex_digit (n / 16 mod 16))
               (String (Py.hex_digit (n mod 16)) EmptyString))).

(** The process may create files in its working directory only. *)
Definition creatable (p : string) : bool := negb (PyStr.contains "/" p).

Definition ro_detail : json :=
  JObj [("Requests", JStr "Customer states brakes squeal");
        ("LaborList",
         JArr [JObj [("ID", JStr "lab-1"); ("Description", JStr "Brake pad replacement")];
               JObj [("ID", JStr "lab-2"); ("Description", JStr "ISO Vehicle Inspection")]]);
        ("CheckLists", JArr [JObj [("Name", JStr "Wheel Torque Signoff")]])].

Definition checklist_items : json :=
  JArr [JObj [("ID", JStr "item-1"); ("Title", JStr "Technician Notes")];
        JObj [("ID", JStr "item-2"); ("Title", JStr "ISO Inspection Photos")]].

(** The answers of a vendor that does not redirect: each comes from the
    URL of the request [op]. *)
Definition plain (op : vendor_op) (body : string) : http_response :=
  HttpResponse 200 "OK" body
               (Raise (Exn JSONDecodeError "Expecting value: line 1 column 1 (char 0)"))
               (request_url op).

Definition answer (op : vendor_op) (j : json) : http_response :=
  HttpResponse 200 "OK" (Py.repr j) (Ok j) (request_url op).

(** A vendor that accepts every request and echoes the name of an
    uploaded blob. *)
Definition vendor_ok (history : list vendor_op) (op : vendor_op) : res http_response :=
  match op with
  | OpLogin => Ok (answer op (JObj [("Token", JStr "tok-1")]))
  | OpSaveMedia _ blob_name _ => Ok (answer op (JStr blob_name))
  | OpGetRODetail _ _ => Ok (answer op ro_detail)
  | OpGetCheckListItems _ _ => Ok (answer op checklist_items)
  | _ => Ok (plain op "OK")
  end.

Definition server_error (op : vendor_op) : http_response :=
  HttpResponse 500 "Internal Server Error" "boom"
               (Raise (Exn JSONDecodeError "Expecting value: line 1 column 1 (char 0)"))
               (request_url op).

(** A standard output that takes every line. *)
Definition stdout_ok (w : World) (msg : string) : res unit := Ok tt.

(** The same vendor, except that it answers 500 to the upload of the
    content [bad]. *)
Definition vendor_rejecting (bad : string) (history : list vendor_op) (op : vendor_op)
  : res http_response :=
  match op with
  | OpSaveMedia _ _ content =>
      if String.eqb content bad then Ok (server_error op) else vendor_ok history op
  | _ => vendor_ok history op
  end.

(** The same vendor, except that every status change is answered 500. *)
Definition vendor_status_500 (history : list vendor_op) (op : vendor_op) : res http_response :=
  match op with
  | OpChangeStatus _ _ _ _ => Ok (server_error op)
  | _ => vendor_ok history op
  end.

(** The same vendor, except that an upload is answered with the
    identifier [abc]. *)
Definition vendor_abc (history : list vendor_op) (op : vendor_op) : res http_response :=
  match op with
  | OpSaveMedia _ _ _ => Ok (answer op (JStr "abc"))
  | _ => vendor_ok history op
  end.

(** An RO without an ISO labor, and a vendor that returns it. *)
Definition ro_detail_no_iso : json :=
  JObj [("Requests", JStr "Oil change");
        ("LaborList",
         JArr [JObj [("ID", JStr "lab-1"); ("Description", JStr "Brake pad replacement")];
               JObj [("ID", JStr "lab-3"); ("Description", JNull)]])].

Definition vendor_no_iso (history : list vendor_op) (op : vendor_op) : res http_response :=
  match op with
  | OpGetRODetail _ _ => Ok (answer op ro_detail_no_iso)
  | _ => vendor_ok history op
  end.

Definition env_dynamic_no_iso : Env :=
  MkEnv vendor_no_iso uuid4_hex creatable JNull JNull stdout_ok.

(** Checklist items none of whose titles holds the keyword, and a vendor
    that returns them under the key [Items]. *)
Definition checklist_items_plain : json :=
  JObj [("Items",
         JArr [JObj [("ID", JStr "item-7"); ("Title", JStr "Technician Notes")];
               JObj [("ID", JStr "item-8"); ("Title", JStr "Photos")]])].

Definition vendor_plain_items (history : list vendor_op) (op : vendor_op) : res http_response :=
  match op with
  | OpGetCheckListItems _ _ => Ok (answer op checklist_items_plain)
  | _ => vendor_ok history op
  end.

Definition env_dynamic_plain_items : Env :=
  MkEnv vendor_plain_items uuid4_hex creatable JNull JNull stdout_ok.

(** config.py as it is in the repository. *)
Definition config_labor : json := JStr "e96a6a31-2400-47d4-84bd-155fccdb933b".
Definition config_item : json := JStr "7dfec4da-e129-4bff-860f-f3f1c440708b".

Definition env : Env := MkEnv vendor_ok uuid4_hex creatable config_labor config_item stdout_ok.

(** The overrides left unset. *)
Definition env_dynamic : Env := MkEnv vendor_ok uuid4_hex creatable JNull JNull stdout_ok.

Definition env_rejecting (bad : string) : Env :=
  MkEnv (vendor_rejecting bad) uuid4_hex creatable config_labor config_item stdout_ok.

Definition env_status_500 : Env :=
  MkEnv vendor_status_500 uuid4_hex creatable config_labor config_item stdout_ok.

Definition env_abc : Env := MkEnv vendor_abc uuid4_hex creatable config_labor config_item stdout_ok.

Definition world : World :=
  MkWorld [] [("photo1.jpg", "JPEG-1"); ("photo2.jpg", "JPEG-2")] 0.

Definition json_request (body : json) : request := Request None [] [] (Some body).

(** The request of the end-to-end scenario. *)
Definition scenario : request :=
  json_request (JObj [("ro_number", JStr "12345");
                      ("comments", JStr "Brake pads worn");
                      ("image_paths", JArr [])]).

(** Two images on disk, listed by path. *)
Definition two_images : request :=
  json_request (JObj [("ro_number", JStr "12345");
                      ("comments", JStr "Brake pads worn");
                      ("image_paths", JArr [JStr "photo1.jpg"; JStr "photo2.jpg"])]).

(** A body that is valid JSON but no object. *)
Definition list_body : request := json_request (JArr [JInt 1]).

(** One base64 image whose text does not decode. *)
Definition bad_base64 : request :=
  json_request (JObj [("ro_number", JStr "12345");
                      ("images_base64", JArr [JStr "a"])]).

(** The temporary file staged for that image. *)
Definition bad_base64_temp : string :=
  "tmp_3f2a9c1e5b7d4e0fa1b2c3d4e5f60001_img_3f2a9c1e5b7d4e0fa1b2c3d4e5f60000.jpg".

(** The scenario with [move_to_start] spelled "1". *)
Definition flag_one : request :=
  json_request (JObj [("ro_number", JStr "12345");
                      ("comments", JStr "Brake pads worn");
                      ("image_paths", JArr []);
                      ("move_to_start", JStr "1")]).

(** A multipart request with one photo. *)
Definition multipart_one : request :=
  Request (Some "multipart/form-data; boundary=frontier")
          [("ro_number", "12345"); ("comments", "Brake pads worn")]
          [("photo", Upload "front.jpg" "JPEG-3")]
          None.

(** A standard output that has been closed: every [print] raises. *)
Definition stdout_closed (w : World) (msg : string) : res unit :=
  Raise (Exn OSError "[Errno 9] Bad file descriptor").

Definition env_closed_stdout : Env :=
  MkEnv vendor_status_500 uuid4_hex creatable config_labor config_item stdout_closed.










Definition detail_oil_filter_checklist : json :=
  JObj [("CheckLists", JArr [JObj [("Name", JStr "Oil Filter")]])].

Definition detail_torque_signoff : json :=
  JObj [("CheckLists", JArr [JObj [("Name", JStr "Wheel Torque Signoff")]])].

End Demo.

(* ================================================================== *)
(** * Properties *)
(* ================================================================== *)

(** ** Strings *)

Lemma prefix_append (n s : string) : String.prefix n (n ++ s) = true.
Proof.
  induction n as [|c n IH]; simpl.
  - destruct s; reflexivity.
  - destruct (ascii_dec c c) as [_|ne]; [exact IH | contradiction].
Qed.

Lemma contains_of_prefix (n h : string) :
  String.prefix n h = true -> PyStr.contains n h = true.
Proof.
  destruct h; simpl; intros ->; reflexivity.
Qed.

Lemma contains_prefix (n s : string) : PyStr.contains n (n ++ s) = true.
Proof.
  apply contains_of_prefix, prefix_append.
Qed.

Lemma contains_append (a n b : string) : PyStr.contains n (a ++ n ++ b) = true.
Proof.
  induction a as [|c a IH]; simpl.
  - apply contains_prefix.
  - rewrite IH. match goal with |- (if ?x then _ else _) = _ => destruct x end; reflexivity.
Qed.

Lemma append_assoc (a b c : string) : (a ++ b) ++ c = a ++ (b ++ c).
Proof. induction a as [|x a IH]; simpl; [reflexivity | rewrite IH; reflexivity]. Qed.

Lemma append_nil_r (a : string) : a ++ "" = a.
Proof. induction a as [|x a IH]; simpl; [reflexivity | rewrite IH; reflexivity]. Qed.

Lemma contains_suffix (a n : string) : PyStr.contains n (a ++ n) = true.
Proof.
  rewrite <- (append_nil_r n) at 2. apply contains_append.
Qed.

(** ** Keyword detectors *)

Lemma lower_or_text (v : json) :
  wf_text v = true ->
  Py.lower (Py.or_ v (JStr "")) = Ok (PyStr.lower (text_of v)).
Proof.
  unfold Py.or_.
  destruct v as [|b|z|s|l|kvs]; simpl; intros H.
  - reflexivity.
  - destruct b; [discriminate | reflexivity].
  - destruct (z =? 0)%Z; [reflexivity | discriminate].
  - destruct s; reflexivity.
  - destruct l; [reflexivity | discriminate].
  - destruct kvs; [reflexivity | discriminate].
Qed.

Lemma get_field (e : json) (k : string) :
  wf_entry k e = true -> Py.get e k JNull = Ok (field e k).
Proof.
  destruct e; simpl; try discriminate. reflexivity.
Qed.

Lemma labor_keyword_loop_spec (keywords : list string) (labors : list json) :
  forallb (wf_entry "Description") labors = true ->
  DviClient.labor_keyword_loop keywords labors =
  Ok (existsb (fun labor => PyStr.any_in keywords (field_text labor "Description")) labors).
Proof.
  induction labors as [|labor rest IH]; simpl; intros H; [reflexivity|].
  apply andb_true_iff in H as [Hl Hr].
  rewrite (get_field _ _ Hl). simpl.
  unfold wf_entry in Hl. destruct labor; try discriminate.
  rewrite (lower_or_text _ Hl). simpl.
  unfold field_text at 1.
  destruct (PyStr.any_in keywords _); simpl; [reflexivity | auto].
Qed.

Lemma checklist_name_loop_spec (phrase : string) (cls : list json) :
  forallb (wf_entry "Name") cls = true ->
  DviClient.checklist_name_loop phrase cls =
  Ok (existsb (fun cl => PyStr.contains phrase (field_text cl "Name")) cls).
Proof.
  induction cls as [|cl rest IH]; simpl; intros H; [reflexivity|].
  apply andb_true_iff in H as [Hl Hr].
  rewrite (get_field _ _ Hl). simpl.
  unfold wf_entry in Hl. destruct cl; try discriminate.
  rewrite (lower_or_text _ Hl). simpl.
  unfold field_text at 1.
  destruct (PyStr.contains phrase _); simpl; [reflexivity | auto].
Qed.

(** On a well-formed list field, fetching and iterating it yields its
    entries. *)
Lemma iter_entries (d : json) (k ek : string) :
  wf_list d k ek = true ->
  res_bind (Py.get d k (JArr [])) Py.iter = Ok (entries d k)
  /\ forallb (wf_entry ek) (entries d k) = true.
Proof.
  unfold wf_list, entries, field.
  destruct d; try discriminate. simpl.
  destruct (Py.assoc k kvs) as [v|]; simpl.
  - destruct v; try discriminate. simpl. auto.
  - auto.
Qed.

Lemma keyword_detector_spec (keywords : list string) (signoff : string) (d : json) :
  wf_detail d = true ->
  DviClient.keyword_detector keywords signoff d =
  Ok (orb (PyStr.any_in keywords (field_text d "Requests"))
          (orb (existsb (fun labor => PyStr.any_in keywords (field_text labor "Description"))
                        (entries d "LaborList"))
               (existsb (fun cl => PyStr.contains signoff (field_text cl "Name"))
                        (entries d "CheckLists")))).
Proof.
  unfold wf_detail. intros H.
  apply andb_true_iff in H as [Hr H]. apply andb_true_iff in H as [Hl Hc].
  destruct (iter_entries _ _ _ Hl) as [El Wl].
  destruct (iter_entries _ _ _ Hc) as [Ec Wc].
  unfold DviClient.keyword_detector.
  assert (Hd : exists kvs, d = JObj kvs).
  { unfold wf_list in Hl. destruct d; try discriminate. eauto. }
  destruct Hd as [kvs ->].
  change (Py.get (JObj kvs) "Requests" JNull) with (Ok (field (JObj kvs) "Requests")).
  cbn [res_bind]. rewrite (lower_or_text _ Hr). cbn [res_bind].
  fold (field_text (JObj kvs) "Requests").
  destruct (PyStr.any_in keywords (field_text (JObj kvs) "Requests")); [reflexivity|].
  cbn [orb].
  unfold res_bind in El, Ec |- *.
  destruct (Py.get (JObj kvs) "LaborList" (JArr [])); [|discriminate].
  rewrite El, (labor_keyword_loop_spec _ _ Wl).
  destruct (existsb _ (entries (JObj kvs) "LaborList")); [reflexivity|].
  cbn [orb].
  destruct (Py.get (JObj kvs) "CheckLists" (JArr [])); [|discriminate].
  rewrite Ec, (checklist_name_loop_spec _ _ Wc).
  destruct (existsb _ (entries (JObj kvs) "CheckLists")); reflexivity.
Qed.

Lemma keyword_hit_iff (keywords : list string) (signoff : string) (d : json) :
  orb (PyStr.any_in keywords (field_text d "Requests"))
      (orb (existsb (fun labor => PyStr.any_in keywords (field_text labor "Description"))
                    (entries d "LaborList"))
           (existsb (fun cl => PyStr.contains signoff (field_text cl "Name"))
                    (entries d "CheckLists"))) = true
  <-> keyword_hit keywords signoff d.
Proof.
  unfold keyword_hit, PyStr.any_in.
  rewrite !orb_true_iff, !existsb_exists.
  split.
  - intros [H|[H|H]].
    + left. exact H.
    + right; left. destruct H as [labor [Hin H]].
      apply existsb_exists in H as [k [Hk H]]. eauto.
    + right; right. exact H.
  - intros [H|[H|H]].
    + left. exact H.
    + right; left. destruct H as [labor [k [Hin [Hk H]]]].
      exists labor. split; [exact Hin|]. apply existsb_exists. eauto.
    + right; right. exact H.
Qed.

(** C4, as the code has it: on a well-formed RO detail each detector
    returns a boolean, and returns true exactly when a keyword of its list
    occurs, ignoring case, in the Requests text or in the Description of
    an entry of LaborList, or its sign-off phrase occurs in the Name of an
    entry of CheckLists. *)
Theorem C4_detectors_amended (d : json) :
  wf_detail d = true ->
  (exists b, DviClient.ro_has_oil_service d = Ok b)
  /\ (DviClient.ro_has_oil_service d = Ok true
      <-> keyword_hit DviClient.oil_keywords "oil change signoff" d)
  /\ (exists b, DviClient.ro_has_wheel_work d = Ok b)
  /\ (DviClient.ro_has_wheel_work d = Ok true
      <-> keyword_hit DviClient.wheel_keywords "wheel torque signoff" d).
Proof.
  intros H.
  unfold DviClient.ro_has_oil_service, DviClient.ro_has_wheel_work.
  rewrite !(keyword_detector_spec _ _ _ H).
  repeat split; eauto.
  - intros E. apply keyword_hit_iff. congruence.
  - intros E. apply keyword_hit_iff in E. congruence.
  - intros E. apply keyword_hit_iff. congruence.
  - intros E. apply keyword_hit_iff in E. congruence.
Qed.

(** The claim C4 as worded fails on the code in both directions: a
    keyword in a checklist name alone does not make the oil detector
    true, and the wheel detector is true on a sign-off checklist none of
    whose texts holds a keyword. *)
Lemma C4_counterexample :
  DviClient.ro_has_oil_service Demo.detail_oil_filter_checklist = Ok false
  /\ spec_keyword_in_any_source DviClient.oil_keywords Demo.detail_oil_filter_checklist = true
  /\ DviClient.ro_has_wheel_work Demo.detail_torque_signoff = Ok true
  /\ spec_keyword_in_any_source DviClient.wheel_keywords Demo.detail_torque_signoff = false.
Proof. repeat split; reflexivity. Qed.

Lemma C4_detectors_witness :
  wf_detail Demo.ro_detail = true
  /\ (DviClient.ro_has_wheel_work Demo.ro_detail = Ok true
      <-> keyword_hit DviClient.wheel_keywords "wheel torque signoff" Demo.ro_detail).
Proof.
  split; [reflexivity|].
  apply (C4_detectors_amended Demo.ro_detail). reflexivity.
Defined.

(** ** Flags *)





(** ** Running computations *)

Lemma bind_ok {A B} (m : M A) (k : A -> M B) (w w' : World) (a : A) :
  m w = (Ok a, w') -> bind m k w = k a w'.
Proof. unfold bind. intros ->. reflexivity. Qed.

Lemma bind_raise {A B} (m : M A) (k : A -> M B) (w w' : World) (e : exn) :
  m w = (Raise e, w') -> bind m k w = (Raise e, w').
Proof. unfold bind. intros ->. reflexivity. Qed.

Lemma try_except_ok {A} (m : M A) (h : exn -> M A) (w w' : World) (a : A) :
  m w = (Ok a, w') -> try_except m h w = (Ok a, w').
Proof. unfold try_except. intros ->. reflexivity. Qed.

Lemma try_except_raise {A} (m : M A) (h : exn -> M A) (w w' : World) (e : exn) :
  m w = (Raise e, w') -> try_except m h w = h e w'.
Proof. unfold try_except. intros ->. reflexivity. Qed.

Lemma http_run (env : Env) (op : vendor_op) (w : World) :
  http env op w = (vendor env (w_trace w) op, sent op w).
Proof. reflexivity. Qed.

Lemma raise_for_status_ok (r : http_response) :
  resp_ok r = true -> raise_for_status r = Ok tt.
Proof.
  unfold resp_ok, raise_for_status. intros H. apply negb_true_iff in H.
  destruct ((400 <=? status_code r)%Z) eqn:E1; simpl in *.
  - destruct ((status_code r <? 600)%Z) eqn:E2; [discriminate|].
    assert ((status_code r <? 500)%Z = false) as -> by lia.
    assert ((500 <=? status_code r)%Z = true) as -> by lia.
    reflexivity.
  - assert ((500 <=? status_code r)%Z = false) as -> by lia. reflexivity.
Qed.

Lemma raise_for_status_error (r : http_response) :
  resp_ok r = false ->
  exists kind,
    (kind = " Client Error: " \/ kind = " Server Error: ")
    /\ raise_for_status r =
       Raise (Exn HTTPError (Py.str_int (status_code r) ++ kind ++ reason r
                               ++ " for url: " ++ url r)).
Proof.
  unfold resp_ok, raise_for_status. intros H. apply negb_false_iff in H.
  apply andb_true_iff in H as [H1 H2]. rewrite H1. simpl.
  destruct ((status_code r <? 500)%Z) eqn:E.
  - exists " Client Error: ". split; [left|]; reflexivity.
  - assert ((500 <=? status_code r)%Z = true) as -> by lia. rewrite H2. simpl.
    exists " Server Error: ". split; [right|]; reflexivity.
Qed.

(** ** Status changes *)

Lemma change_status_ok (env : Env) (token ro_number : json) (status ro_type : string)
      (w : World) (r : http_response) :
  answers_ok env (w_trace w) (OpChangeStatus token ro_number status ro_type) r ->
  change_status env token ro_number status ro_type w
  = (Ok (text r), sent (OpChangeStatus token ro_number status ro_type) w).
Proof.
  intros [Hv Hok]. unfold change_status.
  rewrite (bind_ok _ _ w (sent (OpChangeStatus token ro_number status ro_type) w) r)
    by (rewrite http_run, Hv; reflexivity).
  unfold bind, lift, ret. rewrite (raise_for_status_ok _ Hok). reflexivity.
Qed.






(** ** Media upload *)

Lemma first_char_lstrip (c : ascii) (s : string) :
  PyStr.first_char (PyStr.lstrip_char c s) <> Some c.
Proof.
  induction s as [|a s IH]; simpl; [discriminate|].
  destruct (Ascii.eqb a c) eqn:E; [exact IH|].
  simpl. intros H. inversion H; subst. rewrite Ascii.eqb_refl in E. discriminate.
Qed.

Lemma first_char_rstrip (c : ascii) (s : string) :
  PyStr.first_char s <> Some c ->
  PyStr.first_char (PyStr.rstrip_char c s) <> Some c.
Proof.
  destruct s as [|a s]; simpl; [discriminate|]. intros H.
  destruct (PyStr.rstrip_char c s); [|exact H].
  destruct (Ascii.eqb a c); [discriminate | exact H].
Qed.

Lemma last_char_rstrip (c : ascii) (s : string) :
  PyStr.last_char (PyStr.rstrip_char c s) <> Some c.
Proof.
  induction s as [|a s IH]; simpl; [discriminate|].
  destruct (PyStr.rstrip_char c s) as [|b r] eqn:E.
  - destruct (Ascii.eqb a c) eqn:Ea; simpl; [discriminate|].
    intros H. inversion H; subst. rewrite Ascii.eqb_refl in Ea. discriminate.
  - exact IH.
Qed.

Lemma endswith_refl (p : string) : PyStr.endswith p p = true.
Proof. destruct p; cbn [PyStr.endswith]; rewrite String.eqb_refl; reflexivity. Qed.

Lemma endswith_append (a p : string) : PyStr.endswith (a ++ p) p = true.
Proof.
  induction a as [|x a IH]; [apply endswith_refl|].
  cbn [append PyStr.endswith]. rewrite IH.
  destruct (String.eqb (String x (a ++ p)) p); reflexivity.
Qed.

Lemma endswith_inv (s p : string) :
  PyStr.endswith s p = true -> exists a, s = a ++ p.
Proof.
  induction s as [|x s IH]; cbn [PyStr.endswith].
  - destruct (String.eqb_spec "" p) as [<-|]; [|discriminate]. exists "". reflexivity.
  - destruct (String.eqb_spec (String x s) p) as [<-|].
    + exists "". reflexivity.
    + intros H. destruct (IH H) as [a ->]. exists (String x a). reflexivity.
Qed.

Lemma lstrip_keeps_jpg (a : string) :
  exists a', PyStr.lstrip_char dquote (a ++ ".jpg") = a' ++ ".jpg".
Proof.
  induction a as [|x a IH].
  - exists "". reflexivity.
  - cbn [append PyStr.lstrip_char]. destruct (Ascii.eqb x dquote); [exact IH|].
    exists (String x a). reflexivity.
Qed.

Lemma rstrip_keeps_jpg (a : string) :
  PyStr.rstrip_char dquote (a ++ ".jpg") = a ++ ".jpg".
Proof.
  induction a as [|x a IH]; [reflexivity|].
  cbn [append PyStr.rstrip_char]. rewrite IH.
  destruct (a ++ ".jpg") eqn:E; [destruct a; discriminate | reflexivity].
Qed.

Lemma strip_keeps_jpg (s : string) :
  PyStr.endswith s ".jpg" = true ->
  PyStr.endswith (PyStr.strip_char dquote s) ".jpg" = true.
Proof.
  intros H. destruct (endswith_inv _ _ H) as [a ->].
  unfold PyStr.strip_char. destruct (lstrip_keeps_jpg a) as [a' ->].
  rewrite rstrip_keeps_jpg. apply endswith_append.
Qed.

Lemma save_media_bytes (env : Env) (token : json) (bytes : string) (w : World)
      (r : http_response) (s : string) :
  bytes <> "" ->
  answers_ok env (w_trace w) (OpSaveMedia token (uuid4_hex env (w_uuids w) ++ ".jpg") bytes) r ->
  json_body r = Ok (JStr s) ->
  save_media env token JNull (Some bytes) w
  = (Ok (PyStr.strip_char dquote s),
     sent (OpSaveMedia token (uuid4_hex env (w_uuids w) ++ ".jpg") bytes) (drawn w)).
Proof.
  intros Hb [Hv Hok] Hj. unfold save_media.
  apply String.eqb_neq in Hb. rewrite Hb. cbn [Py.truthy negb andb].
  unfold bind at 1. cbn [fresh_uuid_hex].
  unfold bind at 1. cbn [ret].
  unfold bind at 1. rewrite http_run. cbn [w_trace]. rewrite Hv.
  unfold bind, lift. rewrite (raise_for_status_ok _ Hok), Hj. reflexivity.
Qed.

(** C8, as the code has it: for an upload from raw bytes that the vendor
    accepts with a JSON string, [save_media] returns that string with
    every leading and trailing double quote stripped, so the identifier
    neither starts nor ends with a quote; the name the bytes are uploaded
    under ends with ".jpg", and the identifier returned ends with ".jpg"
    whenever the vendor's string does. *)
Theorem C8_save_media_amended (env : Env) (token : json) (bytes : string) (w : World)
        (r : http_response) (s : string) :
  bytes <> "" ->
  answers_ok env (w_trace w) (OpSaveMedia token (uuid4_hex env (w_uuids w) ++ ".jpg") bytes) r ->
  json_body r = Ok (JStr s) ->
  save_media env token JNull (Some bytes) w
  = (Ok (PyStr.strip_char dquote s),
     sent (OpSaveMedia token (uuid4_hex env (w_uuids w) ++ ".jpg") bytes) (drawn w))
  /\ PyStr.first_char (PyStr.strip_char dquote s) <> Some dquote
  /\ PyStr.last_char (PyStr.strip_char dquote s) <> Some dquote
  /\ PyStr.endswith (uuid4_hex env (w_uuids w) ++ ".jpg") ".jpg" = true
  /\ (PyStr.endswith s ".jpg" = true ->
      PyStr.endswith (PyStr.strip_char dquote s) ".jpg" = true).
Proof.
  intros Hb Ha Hj.
  split; [exact (save_media_bytes env token bytes w r s Hb Ha Hj)|].
  split; [apply first_char_rstrip, first_char_lstrip|].
  split; [apply last_char_rstrip|].
  split; [apply endswith_append | apply strip_keeps_jpg].
Qed.

(** The claim C8 as worded fails on the code: the identifier returned is
    the vendor's, whatever its suffix. *)
Lemma C8_counterexample :
  fst (save_media Demo.env_abc (JStr "tok-1") JNull (Some "JPEG-bytes") Demo.world) = Ok "abc"
  /\ PyStr.endswith "abc" ".jpg" = false.
Proof. split; reflexivity. Qed.

Lemma C8_save_media_witness :
  fst (save_media Demo.env (JStr "tok-1") JNull (Some "JPEG-bytes") Demo.world)
  = Ok "3f2a9c1e5b7d4e0fa1b2c3d4e5f60000.jpg"
  /\ PyStr.last_char "3f2a9c1e5b7d4e0fa1b2c3d4e5f60000.jpg" <> Some dquote.
Proof.
  assert (Hb : "JPEG-bytes" <> "") by discriminate.
  destruct (C8_save_media_amended Demo.env (JStr "tok-1") "JPEG-bytes" Demo.world
              (Demo.answer (OpSaveMedia (JStr "tok-1")
                                        "3f2a9c1e5b7d4e0fa1b2c3d4e5f60000.jpg" "JPEG-bytes")
                           (JStr "3f2a9c1e5b7d4e0fa1b2c3d4e5f60000.jpg"))
              "3f2a9c1e5b7d4e0fa1b2c3d4e5f60000.jpg"
              Hb (conj eq_refl eq_refl) eq_refl) as [E [_ [L _]]].
  split; [rewrite E; reflexivity | exact L].
Defined.

(** ** Identifier resolution *)

Lemma bind_lift_ok {A B} (r : res A) (k : A -> M B) (w : World) (a : A) :
  r = Ok a -> bind (lift r) k w = k a w.
Proof. intros ->. reflexivity. Qed.

Lemma bind_lift_raise {A B} (r : res A) (k : A -> M B) (w : World) (e : exn) :
  r = Raise e -> bind (lift r) k w = (Raise e, w).
Proof. intros ->. reflexivity. Qed.

Lemma bind_ret {A B} (a : A) (k : A -> M B) (w : World) : bind (ret a) k w = k a w.
Proof. reflexivity. Qed.

Lemma bind_lift {A B} (r : res A) (k : A -> M B) (w : World) :
  bind (lift r) k w = match r with Ok a => k a w | Raise e => (Raise e, w) end.
Proof. destruct r; reflexivity. Qed.

Lemma get_ro_detail_ok (env : Env) (token ro_number : json) (w : World)
      (r : http_response) (d : json) :
  answers_ok env (w_trace w) (OpGetRODetail token ro_number) r ->
  json_body r = Ok d ->
  get_ro_detail env token ro_number w = (Ok d, sent (OpGetRODetail token ro_number) w).
Proof.
  intros [Hv Hok] Hj. unfold get_ro_detail, bind. rewrite http_run, Hv, Hok.
  cbn [negb]. unfold lift. rewrite Hj. reflexivity.
Qed.

Lemma get_checklist_items_ok (env : Env) (token labor_id : json) (w : World)
      (r : http_response) (d : json) :
  answers_ok env (w_trace w) (OpGetCheckListItems token labor_id) r ->
  json_body r = Ok d ->
  get_checklist_items env token labor_id w
  = (Ok d, sent (OpGetCheckListItems token labor_id) w).
Proof.
  intros [Hv Hok] Hj. unfold get_checklist_items, bind. rewrite http_run, Hv, Hok.
  cbn [negb]. unfold lift. rewrite Hj. reflexivity.
Qed.

Lemma find_labor_loop_none (target : string) (labors : list json) :
  forallb (wf_entry "Description") labors = true ->
  forallb (fun labor => negb (PyStr.contains target (field_text labor "Description")))
          labors = true ->
  DviClient.find_labor_loop target labors = Ok JNull.
Proof.
  induction labors as [|labor rest IH]; simpl; intros Hw Hn; [reflexivity|].
  apply andb_true_iff in Hw as [Hl Hw]. apply andb_true_iff in Hn as [Hc Hn].
  rewrite (get_field _ _ Hl). simpl.
  unfold wf_entry in Hl. destruct labor; try discriminate.
  rewrite (lower_or_text _ Hl). cbn [res_bind].
  unfold field_text in Hc. apply negb_true_iff in Hc. rewrite Hc. auto.
Qed.

Lemma find_labor_none (detail : json) :
  wf_list detail "LaborList" "Description" = true ->
  forallb (fun labor => negb (PyStr.contains "iso" (field_text labor "Description")))
          (entries detail "LaborList") = true ->
  DviClient.find_labor_id_by_description detail "ISO" = Ok JNull.
Proof.
  intros Hw Hn. destruct (iter_entries _ _ _ Hw) as [E W].
  unfold DviClient.find_labor_id_by_description.
  unfold res_bind in E |- *.
  destruct (Py.get detail "LaborList" (JArr [])); [|discriminate].
  rewrite E. apply find_labor_loop_none; [exact W | exact Hn].
Qed.

Lemma get_ro_detail_world (env : Env) (token ro_number : json) (w : World) :
  snd (get_ro_detail env token ro_number w) = sent (OpGetRODetail token ro_number) w.
Proof.
  unfold get_ro_detail, bind. rewrite http_run.
  destruct (vendor env (w_trace w) (OpGetRODetail token ro_number)) as [r|e]; [|reflexivity].
  destruct (negb (resp_ok r)); reflexivity.
Qed.

Lemma get_checklist_items_world (env : Env) (token labor_id : json) (w : World) :
  snd (get_checklist_items env token labor_id w)
  = sent (OpGetCheckListItems token labor_id) w.
Proof.
  unfold get_checklist_items, bind. rewrite http_run.
  destruct (vendor env (w_trace w) (OpGetCheckListItems token labor_id)) as [r|e];
    [|reflexivity].
  destruct (negb (resp_ok r)); reflexivity.
Qed.

(** Whatever the vendor answers, the resolution leaves the world as it
    was, or after the RO detail request alone, or after a checklist
    request for a labor id that is truthy. *)
Lemma resolve_worlds (env : Env) (token ro_number : json) (w : World) (P : World -> Prop) :
  P w ->
  P (sent (OpGetRODetail token ro_number) w) ->
  (forall labor_id, Py.truthy labor_id = true ->
     P (sent (OpGetCheckListItems token labor_id) (sent (OpGetRODetail token ro_number) w))) ->
  P (snd (resolve_iso_labor_and_item env token ro_number w)).
Proof.
  intros P0 P1 P2. unfold resolve_iso_labor_and_item.
  destruct (andb _ _); [exact P0|].
  unfold bind at 1.
  pose proof (get_ro_detail_world env token ro_number w) as W1.
  destruct (get_ro_detail env token ro_number w) as [[detail|e] w'];
    cbn [snd] in W1; subst w'; [|exact P1].
  unfold bind at 1, lift at 1.
  destruct (DviClient.find_labor_id_by_description detail "ISO") as [labor_id|e];
    [|exact P1].
  destruct (Py.truthy labor_id) eqn:Ht; cbn [negb]; [|exact P1].
  specialize (P2 labor_id Ht).
  unfold bind at 1.
  pose proof (get_checklist_items_world env token labor_id
                (sent (OpGetRODetail token ro_number) w)) as W2.
  destruct (get_checklist_items env token labor_id (sent (OpGetRODetail token ro_number) w))
    as [[payload|e] w']; cbn [snd] in W2; subst w'; [|exact P2].
  repeat first
    [ exact P2
    | rewrite bind_ret
    | rewrite bind_lift; cbv beta
    | match goal with
      | |- context [if ?b then _ else _] => destruct b
      | |- context [match ?r with Ok _ => _ | Raise _ => _ end] => destruct r
      end ].
Qed.

(** C6: when the static overrides are not both set and the vendor
    returns an RO detail none of whose labor descriptions holds "iso",
    ignoring case, the lookup of the labor id gives [None] and the
    resolution raises "Could not find ISO labor for RO ..." right after
    the RO detail request; and in every run, a checklist request the
    resolution sends carries a labor id that is truthy, never [None]. *)
Theorem C6_missing_iso_labor :
  (forall (env : Env) (token ro_number : json) (w : World)
          (r : http_response) (detail : json),
      static_ids env = false ->
      answers_ok env (w_trace w) (OpGetRODetail token ro_number) r ->
      json_body r = Ok detail ->
      wf_list detail "LaborList" "Description" = true ->
      forallb (fun labor => negb (PyStr.contains "iso" (field_text labor "Description")))
              (entries detail "LaborList") = true ->
      DviClient.find_labor_id_by_description detail "ISO" = Ok JNull
      /\ resolve_iso_labor_and_item env token ro_number w
         = (Raise (Exn RuntimeError ("Could not find ISO labor for RO " ++ Py.str ro_number)),
            sent (OpGetRODetail token ro_number) w))
  /\ (forall (env : Env) (token ro_number : json) (w : World) (token' labor_id : json),
         In (OpGetCheckListItems token' labor_id)
            (w_trace (snd (resolve_iso_labor_and_item env token ro_number w))) ->
         In (OpGetCheckListItems token' labor_id) (w_trace w)
         \/ Py.truthy labor_id = true).
Proof.
  split.
  - intros env token ro_number w r detail Hs Ha Hj Hw Hn.
    pose proof (find_labor_none detail Hw Hn) as Hf.
    split; [exact Hf|].
    unfold resolve_iso_labor_and_item. fold (static_ids env). rewrite Hs.
    rewrite (bind_ok _ _ _ _ _ (get_ro_detail_ok env token ro_number w r detail Ha Hj)).
    rewrite bind_lift, Hf. reflexivity.
  - intros env token ro_number w token' labor_id.
    apply (resolve_worlds env token ro_number w
             (fun w' => In (OpGetCheckListItems token' labor_id) (w_trace w') ->
                        In (OpGetCheckListItems token' labor_id) (w_trace w)
                        \/ Py.truthy labor_id = true)).
    + auto.
    + cbn [sent w_trace]. intros H. apply in_app_or in H as [H|[H|[]]];
        [auto | discriminate].
    + intros l Hl. cbn [sent w_trace]. intros H.
      apply in_app_or in H as [H|[H|[]]].
      * apply in_app_or in H as [H|[H|[]]]; [auto | discriminate].
      * inversion H; subst. auto.
Qed.

Lemma C6_missing_iso_labor_witness :
  resolve_iso_labor_and_item Demo.env_dynamic_no_iso (JStr "tok-1") (JStr "12345") Demo.world
  = (Raise (Exn RuntimeError "Could not find ISO labor for RO 12345"),
     sent (OpGetRODetail (JStr "tok-1") (JStr "12345")) Demo.world).
Proof.
  apply (proj1 C6_missing_iso_labor Demo.env_dynamic_no_iso (JStr "tok-1") (JStr "12345")
               Demo.world
               (Demo.answer (OpGetRODetail (JStr "tok-1") (JStr "12345"))
                            Demo.ro_detail_no_iso)
               Demo.ro_detail_no_iso
               eq_refl (conj eq_refl eq_refl) eq_refl eq_refl eq_refl).
Defined.

Lemma iso_item_loop_spec (items : list json) :
  forallb (wf_entry "Title") items = true ->
  iso_item_loop items
  = Ok (match find title_has_iso items with Some it => it | None => JNull end).
Proof.
  induction items as [|item rest IH]; intros H; [reflexivity|].
  cbn [forallb] in H. apply andb_true_iff in H as [Hi Hr].
  cbn [iso_item_loop find].
  rewrite (get_field _ _ Hi).
  unfold wf_entry in Hi. destruct item as [| | | | |kvs]; try discriminate.
  rewrite (lower_or_text _ Hi).
  unfold title_has_iso at 1, field_text.
  destruct (PyStr.contains "iso" _); [reflexivity | exact (IH Hr)].
Qed.

Lemma titled_item_truthy (item : json) :
  wf_entry "Title" item = true -> title_has_iso item = true -> Py.truthy item = true.
Proof.
  destruct item as [| | | | |kvs]; try discriminate.
  destruct kvs; [discriminate | reflexivity].
Qed.

Lemma wf_entry_obj (k : string) (e : json) :
  wf_entry k e = true -> Py.get e "ID" JNull = Ok (field e "ID").
Proof. destruct e; try discriminate. reflexivity. Qed.

Lemma chosen_item_none (items : list json) : chosen_item items = None <-> items = [].
Proof.
  unfold chosen_item. split.
  - destruct (find title_has_iso items); [discriminate|].
    destruct items; [reflexivity | discriminate].
  - intros ->. reflexivity.
Qed.

Lemma chosen_item_first_match (pre post : list json) (it : json) :
  forallb (fun i => negb (title_has_iso i)) pre = true ->
  title_has_iso it = true ->
  chosen_item (pre ++ it :: post) = Some it.
Proof.
  unfold chosen_item. intros Hp Hi.
  assert (E : find title_has_iso (pre ++ it :: post) = Some it).
  { induction pre as [|x pre IH]; cbn [app find].
    - rewrite Hi. reflexivity.
    - cbn [forallb] in Hp. apply andb_true_iff in Hp as [Hx Hp].
      apply negb_true_iff in Hx. rewrite Hx. exact (IH Hp). }
  rewrite E. reflexivity.
Qed.

Lemma chosen_item_fallback (first : json) (rest : list json) :
  forallb (fun i => negb (title_has_iso i)) (first :: rest) = true ->
  chosen_item (first :: rest) = Some first.
Proof.
  unfold chosen_item. intros H.
  assert (E : find title_has_iso (first :: rest) = None).
  { induction (first :: rest) as [|x l IH]; [reflexivity|].
    cbn [forallb] in H. apply andb_true_iff in H as [Hx H].
    apply negb_true_iff in Hx. cbn [find]. rewrite Hx. exact (IH H). }
  rewrite E. reflexivity.
Qed.

Lemma resolve_dynamic (env : Env) (token ro_number : json) (w : World)
      (r1 r2 : http_response) (detail labor_id payload : json) (items : list json) :
  static_ids env = false ->
  answers_ok env (w_trace w) (OpGetRODetail token ro_number) r1 ->
  json_body r1 = Ok detail ->
  DviClient.find_labor_id_by_description detail "ISO" = Ok labor_id ->
  Py.truthy labor_id = true ->
  answers_ok env (w_trace w ++ [OpGetRODetail token ro_number])
             (OpGetCheckListItems token labor_id) r2 ->
  json_body r2 = Ok payload ->
  payload_items payload = JArr items ->
  forallb (wf_entry "Title") items = true ->
  resolve_iso_labor_and_item env token ro_number w
  = (match chosen_item items with
     | None =>
         Raise (Exn RuntimeError ("No checklist items returned for ISO labor "
                                    ++ Py.str labor_id ++ " / RO " ++ Py.str ro_number))
     | Some it =>
         if Py.truthy (field it "ID") then Ok (labor_id, field it "ID")
         else Raise (Exn RuntimeError ("Could not determine ISO item ID for RO "
                                         ++ Py.str ro_number))
     end,
     sent (OpGetCheckListItems token labor_id) (sent (OpGetRODetail token ro_number) w)).
Proof.
  intros Hs Ha1 Hj1 Hf Ht Ha2 Hj2 Hp Hw.
  unfold resolve_iso_labor_and_item. fold (static_ids env). rewrite Hs.
  rewrite (bind_ok _ _ _ _ _ (get_ro_detail_ok env token ro_number w r1 detail Ha1 Hj1)).
  rewrite bind_lift, Hf, Ht. cbn [negb].
  rewrite (bind_ok _ _ _ _ _
             (get_checklist_items_ok env token labor_id
                (sent (OpGetRODetail token ro_number) w) r2 payload Ha2 Hj2)).
  set (w2 := sent (OpGetCheckListItems token labor_id) (sent (OpGetRODetail token ro_number) w)).
  assert (Hitems : forall k : json -> M (json * json),
             bind (if Py.is_list payload then ret payload
                   else lift (Py.get payload "Items" (JArr []))) k w2
             = k (JArr items) w2).
  { intros k. destruct payload; try discriminate; cbn [Py.is_list].
    - rewrite bind_ret, <- Hp. reflexivity.
    - rewrite bind_lift. cbn [Py.get]. cbn [payload_items] in Hp. rewrite Hp. reflexivity. }
  rewrite Hitems. clear Hitems.
  destruct items as [|first rest].
  - reflexivity.
  - cbn [Py.truthy negb]. rewrite bind_lift. cbn [Py.iter].
    rewrite bind_lift, (iso_item_loop_spec _ Hw).
    unfold chosen_item. cbn [hd_error head].
    destruct (find title_has_iso (first :: rest)) as [it|] eqn:Ef.
    + apply find_some in Ef as [Hin Hti].
      pose proof (proj1 (forallb_forall _ _) Hw it Hin) as Hwi.
      rewrite (titled_item_truthy it Hwi Hti). cbn [negb].
      rewrite bind_ret, bind_lift, (wf_entry_obj _ _ Hwi).
      destruct (Py.truthy (field it "ID")); reflexivity.
    + cbn [Py.truthy negb]. rewrite bind_lift. cbn [getitem0].
      cbn [forallb] in Hw. apply andb_true_iff in Hw as [Hw1 _].
      rewrite bind_lift, (wf_entry_obj _ _ Hw1).
      destruct (Py.truthy (field first "ID")); reflexivity.
Qed.

(** C5: when the resolution reaches the checklist items of the matched
    labor, it settles on the first item, in list order, whose Title holds
    "iso" ignoring case; on the first item of the list when no title does;
    and with an empty list it raises "No checklist items returned ..."
    and settles on nothing.  The identifier returned is the ID of the
    item settled on. *)
Theorem C5_item_choice (env : Env) (token ro_number : json) (w : World)
        (r1 r2 : http_response) (detail labor_id payload : json) (items : list json) :
  static_ids env = false ->
  answers_ok env (w_trace w) (OpGetRODetail token ro_number) r1 ->
  json_body r1 = Ok detail ->
  DviClient.find_labor_id_by_description detail "ISO" = Ok labor_id ->
  Py.truthy labor_id = true ->
  answers_ok env (w_trace w ++ [OpGetRODetail token ro_number])
             (OpGetCheckListItems token labor_id) r2 ->
  json_body r2 = Ok payload ->
  payload_items payload = JArr items ->
  forallb (wf_entry "Title") items = true ->
  fst (resolve_iso_labor_and_item env token ro_number w)
  = match chosen_item items with
    | None =>
        Raise (Exn RuntimeError ("No checklist items returned for ISO labor "
                                   ++ Py.str labor_id ++ " / RO " ++ Py.str ro_number))
    | Some it =>
        if Py.truthy (field it "ID") then Ok (labor_id, field it "ID")
        else Raise (Exn RuntimeError ("Could not determine ISO item ID for RO "
                                        ++ Py.str ro_number))
    end
  /\ (chosen_item items = None <-> items = [])
  /\ (forall (pre : list json) it post,
         items = (pre ++ it :: post)%list ->
         forallb (fun i => negb (title_has_iso i)) pre = true ->
         title_has_iso it = true ->
         chosen_item items = Some it)
  /\ (forall first rest,
         items = first :: rest ->
         forallb (fun i => negb (title_has_iso i)) items = true ->
         chosen_item items = Some first).
Proof.
  intros Hs Ha1 Hj1 Hf Ht Ha2 Hj2 Hp Hw.
  split.
  { rewrite (resolve_dynamic env token ro_number w r1 r2 detail labor_id payload items
               Hs Ha1 Hj1 Hf Ht Ha2 Hj2 Hp Hw). reflexivity. }
  split; [apply chosen_item_none|].
  split.
  - intros pre it post -> Hpre Hit. apply chosen_item_first_match; assumption.
  - intros first rest -> Hall. apply chosen_item_fallback; assumption.
Qed.

Lemma C5_item_choice_witness :
  fst (resolve_iso_labor_and_item Demo.env_dynamic_plain_items (JStr "tok-1") (JStr "12345")
                                  Demo.world)
  = Ok (JStr "lab-2", JStr "item-7").
Proof.
  apply (C5_item_choice Demo.env_dynamic_plain_items (JStr "tok-1") (JStr "12345") Demo.world
           (Demo.answer (OpGetRODetail (JStr "tok-1") (JStr "12345")) Demo.ro_detail)
           (Demo.answer (OpGetCheckListItems (JStr "tok-1") (JStr "lab-2"))
                        Demo.checklist_items_plain)
           Demo.ro_detail (JStr "lab-2") Demo.checklist_items_plain
           (entries Demo.checklist_items_plain "Items")
           eq_refl (conj eq_refl eq_refl) eq_refl eq_refl eq_refl
           (conj eq_refl eq_refl) eq_refl eq_refl eq_refl).
Defined.

(** ** The ISO inspection endpoint *)

Lemma dvi_login_ok (env : Env) (w : World) (r : http_response) (data token : json) :
  answers_ok env (w_trace w) OpLogin r ->
  json_body r = Ok data ->
  getitem_str data "Token" = Ok token ->
  dvi_login env w = (Ok token, sent OpLogin w).
Proof.
  intros [Hv Hok] Hj Ht. unfold dvi_login.
  rewrite (bind_ok _ _ w (sent OpLogin w) r) by (rewrite http_run, Hv; reflexivity).
  rewrite bind_lift, (raise_for_status_ok _ Hok).
  rewrite bind_lift, Hj. unfold lift. rewrite Ht. reflexivity.
Qed.

Lemma save_checklist_ok (env : Env) (token ro_number labor_id item_id condition comments : json)
      (ro_type : string) (w : World) (r : http_response) :
  answers_ok env (w_trace w)
             (OpSaveChecklist token ro_number labor_id item_id condition comments ro_type) r ->
  save_checklist env token ro_number labor_id item_id condition comments ro_type w
  = (Ok (json_or_raw r),
     sent (OpSaveChecklist token ro_number labor_id item_id condition comments ro_type) w).
Proof.
  intros [Hv Hok]. unfold save_checklist, bind. rewrite http_run, Hv, Hok. reflexivity.
Qed.

Lemma resolve_static (env : Env) (token ro_number : json) (w : World) :
  static_ids env = true ->
  resolve_iso_labor_and_item env token ro_number w
  = (Ok (ISO_LABOR_ID env, ISO_ITEM_ID env), w).
Proof.
  intros Hs. unfold resolve_iso_labor_and_item. fold (static_ids env). rewrite Hs.
  reflexivity.
Qed.

Lemma get_field_or (kvs : list (string * json)) (k : string) (d : json) :
  Py.get (JObj kvs) k d = Ok (field_or (JObj kvs) k d).
Proof. reflexivity. Qed.

(** ** Lines printed to standard output *)

Lemma log_quiet (env : Env) (msg : string) (w : World) :
  quiet env -> log env msg w = (Ok tt, w).
Proof. intros Q. unfold log. rewrite Q. reflexivity. Qed.

Lemma bind_log {B} (env : Env) (msg : string) (k : unit -> M B) (w : World) :
  quiet env -> bind (log env msg) k w = k tt w.
Proof. intros Q. unfold bind. rewrite (log_quiet env msg w Q). reflexivity. Qed.

Lemma log_world (env : Env) (msg : string) (w : World) : snd (log env msg w) = w.
Proof. reflexivity. Qed.

Lemma demo_quiet : quiet Demo.env.
Proof. intros w msg. reflexivity. Qed.

(** ** The course of an ISO inspection *)

(** A request whose data is an object with a truthy RO number: the
    handler stages the uploaded files, decodes the base64 images, prints
    its line and runs the guarded part on the staged, the listed and the
    decoded images. *)
Lemma iso_inspection_run (env : Env) (req : request) (kvs : list (string * json))
      (w : World) :
  request_data req = JObj kvs ->
  Py.truthy (field_or (JObj kvs) "ro_number" JNull) = true ->
  dvi_iso_inspection env req w
  = bind (stage_files env (if is_multipart req then multidict_items (files req) else []))
         (fun staged =>
            bind (match field_or (JObj kvs) "images_base64" (JArr []) with
                  | JArr l => decode_images env l
                  | _ => ret []
                  end)
                 (fun decoded =>
                    let image_paths :=
                      (staged ++ (match field_or (JObj kvs) "image_paths" (JArr []) with
                                  | JArr l => l
                                  | _ => []
                                  end) ++ decoded)%list in
                    bind (log env
                            ("/dvi/iso_inspection ro="
                               ++ Py.str (field_or (JObj kvs) "ro_number" JNull)
                               ++ ", title="
                               ++ Py.str (field_or (JObj kvs) "title"
                                                   (JStr "ISO Vehicle Inspection"))
                               ++ ", images="
                               ++ Py.str_int (Z.of_nat (length image_paths))))
                         (fun _ =>
                            try_finally
                              (try_except
                                 (iso_inspection_try env (JObj kvs)
                                    (field_or (JObj kvs) "ro_number" JNull)
                                    (field_or (JObj kvs) "title"
                                              (JStr "ISO Vehicle Inspection"))
                                    (field_or (JObj kvs) "comments" (JStr ""))
                                    image_paths
                                    (flag_is_true
                                       (field_or (JObj kvs) "move_to_start" (JStr "true")))
                                    (flag_is_true
                                       (field_or (JObj kvs) "move_to_complete"
                                                 (JStr "true"))))
                                 (fun e =>
                                    bind (log env ("/dvi/iso_inspection error: "
                                                     ++ exn_msg e))
                                         (fun _ =>
                                            ret (Response 500
                                                   (error_body (exn_msg e))))))
                              (cleanup image_paths)))) w.
Proof.
  intros Hd Hro. unfold dvi_iso_inspection. fold (is_multipart req).
  change (if is_multipart req
          then JObj (map (fun kv => (fst kv, JStr (snd kv))) (multidict_items (form req)))
          else json_or_empty req) with (request_data req).
  rewrite Hd.
  rewrite bind_lift, get_field_or, Hro. cbn [negb].
  rewrite bind_lift, get_field_or.
  rewrite bind_lift, get_field_or.
  destruct (stage_files env (if is_multipart req then multidict_items (files req) else []) w)
    as [[staged|e] w1] eqn:Es.
  2: { rewrite !(bind_raise _ _ _ _ _ Es). reflexivity. }
  rewrite !(bind_ok _ _ _ _ _ Es).
  rewrite bind_lift, get_field_or.
  rewrite bind_lift, get_field_or.
  destruct ((match field_or (JObj kvs) "images_base64" (JArr []) with
             | JArr l => decode_images env l
             | _ => ret []
             end) w1) as [[decoded|e] w2] eqn:Ed.
  2: { rewrite !(bind_raise _ _ _ _ _ Ed). reflexivity. }
  rewrite !(bind_ok _ _ _ _ _ Ed).
  rewrite bind_lift, get_field_or.
  rewrite bind_lift, get_field_or.
  reflexivity.
Qed.

(** The same for a JSON request: no file is staged. *)
Lemma iso_inspection_json (env : Env) (req : request) (kvs : list (string * json))
      (w : World) :
  is_multipart req = false ->
  json_or_empty req = JObj kvs ->
  Py.truthy (field_or (JObj kvs) "ro_number" JNull) = true ->
  dvi_iso_inspection env req w
  = bind (match field_or (JObj kvs) "images_base64" (JArr []) with
          | JArr l => decode_images env l
          | _ => ret []
          end)
         (fun decoded =>
            let image_paths :=
              ((match field_or (JObj kvs) "image_paths" (JArr []) with
                | JArr l => l
                | _ => []
                end) ++ decoded)%list in
            bind (log env
                    ("/dvi/iso_inspection ro="
                       ++ Py.str (field_or (JObj kvs) "ro_number" JNull)
                       ++ ", title="
                       ++ Py.str (field_or (JObj kvs) "title" (JStr "ISO Vehicle Inspection"))
                       ++ ", images="
                       ++ Py.str_int (Z.of_nat (length image_paths))))
                 (fun _ =>
                    try_finally
                      (try_except
                         (iso_inspection_try env (JObj kvs)
                            (field_or (JObj kvs) "ro_number" JNull)
                            (field_or (JObj kvs) "title" (JStr "ISO Vehicle Inspection"))
                            (field_or (JObj kvs) "comments" (JStr ""))
                            image_paths
                            (flag_is_true (field_or (JObj kvs) "move_to_start" (JStr "true")))
                            (flag_is_true
                               (field_or (JObj kvs) "move_to_complete" (JStr "true"))))
                         (fun e =>
                            bind (log env ("/dvi/iso_inspection error: " ++ exn_msg e))
                                 (fun _ => ret (Response 500 (error_body (exn_msg e))))))
                      (cleanup image_paths))) w.
Proof.
  intros Hm Hd Hro.
  assert (Hr : request_data req = JObj kvs) by (unfold request_data; rewrite Hm; exact Hd).
  rewrite (iso_inspection_run env req kvs w Hr Hro). rewrite Hm.
  cbn [stage_files]. rewrite bind_ret. reflexivity.
Qed.

Lemma trace_sent4 (w : World) (o1 o2 o3 o4 : vendor_op) :
  sent o4 (sent o3 (sent o2 (sent o1 w)))
  = MkWorld (w_trace w ++ [o1; o2; o3; o4]) (w_files w) (w_uuids w).
Proof.
  unfold sent. cbn [w_trace w_files w_uuids].
  rewrite <- !app_assoc. reflexivity.
Qed.

(** C1, what the code does where the claim says otherwise: for every
    JSON POST to the ISO-inspection endpoint of the final server that
    carries a truthy [ro_number], a non-empty [comments] string and an
    empty [image_paths] list, with both flags on and both static
    identifiers configured, when the vendor accepts each request and
    the handler's log lines are printed, the handler sends exactly
    login, the checklist-text save (with condition "Failed Inspection"
    unless the body carries a condition of its own), the status change
    to "3" and the status change to "4", in this order, and answers 200
    with [ok] true and empty [blobs] and [upload_errors]: the checklist
    text is saved before the status moves to "3", not after. *)
Theorem C1_save_precedes_status_moves
        (env : Env) (req : request) (kvs : list (string * json)) (comments : string)
        (w : World) (r0 r1 r2 r3 : http_response) (data token : json) :
  is_multipart req = false ->
  json_or_empty req = JObj kvs ->
  Py.truthy (field_or (JObj kvs) "ro_number" JNull) = true ->
  field_or (JObj kvs) "comments" (JStr "") = JStr comments ->
  comments <> "" ->
  field_or (JObj kvs) "image_paths" (JArr []) = JArr [] ->
  field_or (JObj kvs) "images_base64" (JArr []) = JArr [] ->
  start_flag req = true ->
  complete_flag req = true ->
  static_ids env = true ->
  quiet env ->
  accepts env (w_trace w)
          (inspection_ops env token (field_or (JObj kvs) "ro_number" JNull)
             (Py.or_ (field_or (JObj kvs) "condition" (JStr "")) (JStr "Failed Inspection"))
             (JStr comments))
          [r0; r1; r2; r3] ->
  json_body r0 = Ok data ->
  getitem_str data "Token" = Ok token ->
  dvi_iso_inspection env req w
  = (Ok (Response 200
           (JObj [("ok", JBool true);
                  ("ro_number", field_or (JObj kvs) "ro_number" JNull);
                  ("title", field_or (JObj kvs) "title" (JStr "ISO Vehicle Inspection"));
                  ("labor_id", ISO_LABOR_ID env);
                  ("item_id", ISO_ITEM_ID env);
                  ("blobs", JArr []);
                  ("upload_errors", JArr []);
                  ("checklist", json_or_raw r1);
                  ("status_changes",
                   JObj [("start", JStr (text r2)); ("iso_complete", JStr (text r3))])])),
     MkWorld (w_trace w
                ++ [ OpLogin;
                     OpSaveChecklist token (field_or (JObj kvs) "ro_number" JNull)
                       (ISO_LABOR_ID env) (ISO_ITEM_ID env)
                       (Py.or_ (field_or (JObj kvs) "condition" (JStr ""))
                               (JStr "Failed Inspection"))
                       (JStr comments) "R";
                     OpChangeStatus token (field_or (JObj kvs) "ro_number" JNull) "3" "R";
                     OpChangeStatus token (field_or (JObj kvs) "ro_number" JNull) "4" "R" ])
             (w_files w) (w_uuids w)).
Proof.
  intros Hm Hd Hro Hcomm Hc Hpaths Hb64 Hf1 Hf2 Hs Q [A0 [A1 [A2 [A3 _]]]] Hj Ht.
  assert (Hr : request_data req = JObj kvs) by (unfold request_data; rewrite Hm; exact Hd).
  unfold start_flag in Hf1. unfold complete_flag in Hf2. rewrite Hr in Hf1, Hf2.
  rewrite (iso_inspection_json env req kvs w Hm Hd Hro).
  rewrite Hb64, Hpaths, Hcomm, Hf1, Hf2.
  set (ro := field_or (JObj kvs) "ro_number" JNull) in *.
  set (title := field_or (JObj kvs) "title" (JStr "ISO Vehicle Inspection")).
  set (condition := Py.or_ (field_or (JObj kvs) "condition" (JStr ""))
                           (JStr "Failed Inspection")) in *.
  cbn [decode_images]. rewrite bind_ret. cbn [app length].
  rewrite (bind_log env _ _ w Q).
  unfold try_finally. cbn [cleanup].
  erewrite try_except_ok; [reflexivity|].
  unfold iso_inspection_try.
  rewrite (bind_ok _ _ _ _ _ (dvi_login_ok env w r0 data token A0 Hj Ht)).
  rewrite (bind_ok _ _ _ _ _ (resolve_static env token ro _ Hs)).
  cbn [fst snd]. rewrite (bind_log env _ _ _ Q).
  cbn [upload_images]. rewrite bind_ret. cbn [fst snd map].
  rewrite bind_lift, get_field_or. cbv beta.
  assert (Hcond : Py.or_ (field_or (JObj kvs) "condition" (JStr ""))
                    (if Py.truthy (JStr comments) then JStr "Failed Inspection"
                     else JStr "") = condition).
  { unfold condition. cbn [Py.truthy]. apply String.eqb_neq in Hc. rewrite Hc. reflexivity. }
  rewrite Hcond.
  rewrite (bind_ok _ _ _ _ _
             (save_checklist_ok env token ro _ _ _ _ "R" (sent OpLogin w) r1 A1)).
  set (w2 := sent (OpSaveChecklist token ro (ISO_LABOR_ID env) (ISO_ITEM_ID env)
                                   condition (JStr comments) "R")
                  (sent OpLogin w)).
  rewrite (bind_ok _ _ w2 (sent (OpChangeStatus token ro "3" "R") w2)
                   [("start", JStr (text r2))])
    by (rewrite (bind_ok _ _ _ _ _ (change_status_ok env token ro "3" "R" w2 r2 A2));
        reflexivity).
  set (w3 := sent (OpChangeStatus token ro "3" "R") w2).
  rewrite (bind_ok _ _ w3 (sent (OpChangeStatus token ro "4" "R") w3)
                   [("start", JStr (text r2)); ("iso_complete", JStr (text r3))])
    by (rewrite (bind_ok _ _ _ _ _ (change_status_ok env token ro "4" "R" w3 r3 A3));
        reflexivity).
  unfold ret, w3, w2. rewrite trace_sent4. reflexivity.
Qed.

(** C1 at the scenario of the specification: the requests are login,
    the save, the move to "3" and the move to "4", which is not the
    order the claim gives. *)
Lemma C1_scenario_witness :
  w_trace (snd (dvi_iso_inspection Demo.env Demo.scenario Demo.world))
  = [ OpLogin;
      OpSaveChecklist (JStr "tok-1") (JStr "12345") Demo.config_labor Demo.config_item
                      (JStr "Failed Inspection") (JStr "Brake pads worn") "R";
      OpChangeStatus (JStr "tok-1") (JStr "12345") "3" "R";
      OpChangeStatus (JStr "tok-1") (JStr "12345") "4" "R" ]
  /\ w_trace (snd (dvi_iso_inspection Demo.env Demo.scenario Demo.world))
     <> spec_scenario_ops Demo.env (JStr "tok-1") (JStr "12345")
                          (JStr "Failed Inspection") (JStr "Brake pads worn").
Proof.
  assert (Hc : "Brake pads worn" <> "") by discriminate.
  pose proof (C1_save_precedes_status_moves Demo.env Demo.scenario
                [("ro_number", JStr "12345"); ("comments", JStr "Brake pads worn");
                 ("image_paths", JArr [])]
                "Brake pads worn" Demo.world
                (Demo.answer OpLogin (JObj [("Token", JStr "tok-1")]))
                (Demo.plain (OpSaveChecklist (JStr "tok-1") (JStr "12345")
                               Demo.config_labor Demo.config_item
                               (JStr "Failed Inspection") (JStr "Brake pads worn") "R") "OK")
                (Demo.plain (OpChangeStatus (JStr "tok-1") (JStr "12345") "3" "R") "OK")
                (Demo.plain (OpChangeStatus (JStr "tok-1") (JStr "12345") "4" "R") "OK")
                (JObj [("Token", JStr "tok-1")]) (JStr "tok-1")
                eq_refl eq_refl eq_refl eq_refl Hc eq_refl eq_refl eq_refl eq_refl eq_refl
                demo_quiet
                (conj (conj eq_refl eq_refl)
                   (conj (conj eq_refl eq_refl)
                      (conj (conj eq_refl eq_refl)
                         (conj (conj eq_refl eq_refl) I))))
                eq_refl eq_refl) as E.
  rewrite E. split; [reflexivity | discriminate].
Defined.

(** ** The upload loop *)

Lemma upload_and_attach_outcome (env : Env) (token ro_number labor_id item_id p : json)
      (w : World) :
  upload_and_attach env token ro_number labor_id item_id p w
  = image_outcome env token ro_number labor_id item_id p w.
Proof.
  unfold upload_and_attach, image_outcome. unfold bind at 1.
  destruct (save_media env token p None w) as [[blob|e] w1]; [|reflexivity].
  unfold bind at 1.
  destruct (save_checklist_image_cloud env token ro_number labor_id item_id blob "R" w1)
    as [[j|e] w2]; reflexivity.
Qed.

(** With every log line printed, the loop returns: [blobs] gains the
    identifiers of the images that went through, [upload_errors] the
    texts of those that did not. *)
Lemma upload_images_spec (env : Env) (token ro_number labor_id item_id : json)
      (paths : list json) :
  quiet env ->
  forall (blobs errs : list string) (w : World),
    upload_images env token ro_number labor_id item_id paths blobs errs w
    = (Ok ((blobs ++ uploaded (image_outcomes env token ro_number labor_id item_id paths w))%list,
           (errs ++ upload_failures
                      (image_outcomes env token ro_number labor_id item_id paths w))%list),
       after_images env token ro_number labor_id item_id paths w).
Proof.
  intros Q. induction paths as [|p rest IH]; intros blobs errs w.
  - cbn [upload_images image_outcomes after_images uploaded upload_failures flat_map].
    rewrite !app_nil_r. reflexivity.
  - cbn [upload_images image_outcomes after_images].
    pose proof (upload_and_attach_outcome env token ro_number labor_id item_id p w) as U.
    destruct (image_outcome env token ro_number labor_id item_id p w) as [[blob|e] w1] eqn:E.
    + rewrite (bind_ok _ _ w w1 (inl blob))
        by (apply try_except_ok; rewrite (bind_ok _ _ _ _ _ U); reflexivity).
      rewrite IH. cbn [snd].
      unfold uploaded, upload_failures. cbn [flat_map snd fst app].
      rewrite <- app_assoc. reflexivity.
    + rewrite (bind_ok _ _ w w1
                 (inr ("Failed to upload/attach " ++ Py.str p ++ ": " ++ exn_msg e)))
        by (rewrite (try_except_raise _ _ w w1 e)
              by (rewrite (bind_raise _ _ _ _ _ U); reflexivity);
            cbv zeta; rewrite (bind_log env _ _ w1 Q); reflexivity).
      rewrite IH. cbn [snd].
      unfold uploaded, upload_failures. cbn [flat_map snd fst app].
      rewrite <- app_assoc. reflexivity.
Qed.







(** The partial-failure scenario of the specification, evaluated: two
    images, the vendor answers 500 to the upload of the second. *)
Example partial_failure_scenario :
  exists body,
    fst (dvi_iso_inspection (Demo.env_rejecting "JPEG-2") Demo.two_images Demo.world)
    = Ok (Response 200 (JObj body))
    /\ Py.assoc "ok" body = Some (JBool true)
    /\ Py.assoc "blobs" body = Some (JArr [JStr "3f2a9c1e5b7d4e0fa1b2c3d4e5f60000.jpg"])
    /\ Py.assoc "upload_errors" body
       = Some (JArr [JStr ("Failed to upload/attach photo2.jpg: 500 Server Error: "
                             ++ "Internal Server Error for url: "
                             ++ "https://api.rowriter.com/v2/BlobStorage/SaveMedia")]).
Proof. eexists. repeat split. Qed.

(** ** Requests the final server does not answer in JSON *)

(** C2 at its failing input: a body that is valid JSON but no object
    makes [data.get] raise before any [try] is entered, in the ISO
    inspection handler and in the four status-only handlers alike; the
    exception leaves the handler, and no vendor request is sent. *)
Theorem C2_non_object_body_uncaught (env : Env) (w : World) :
  dvi_iso_inspection env Demo.list_body w
  = (Raise (Exn AttributeError "'list' object has no attribute 'get'"), w)
  /\ dvi_start env Demo.list_body w
     = (Raise (Exn AttributeError "'list' object has no attribute 'get'"), w)
  /\ dvi_iso_complete env Demo.list_body w
     = (Raise (Exn AttributeError "'list' object has no attribute 'get'"), w)
  /\ dvi_pma_complete env Demo.list_body w
     = (Raise (Exn AttributeError "'list' object has no attribute 'get'"), w)
  /\ dvi_qc_complete env Demo.list_body w
     = (Raise (Exn AttributeError "'list' object has no attribute 'get'"), w).
Proof. repeat split; reflexivity. Qed.

(** ** Temporary files *)

(** C9 at its failing input: for a base64 image whose text does not
    decode, the file opened to stage it stays on disk, empty, after the
    handler has answered 200; it is not among the paths the cleanup
    visits. *)
Theorem C9_undecodable_image_leaks_temp_file :
  Fs.exists_ Demo.bad_base64_temp (w_files Demo.world) = false
  /\ (exists body,
         fst (dvi_iso_inspection Demo.env Demo.bad_base64 Demo.world)
         = Ok (Response 200 (JObj body))
         /\ Py.assoc "ok" body = Some (JBool true))
  /\ Fs.lookup Demo.bad_base64_temp
               (w_files (snd (dvi_iso_inspection Demo.env Demo.bad_base64 Demo.world)))
     = Some EmptyString.
Proof.
  split; [reflexivity|].
  split; [eexists; split; reflexivity | reflexivity].
Qed.

(** ** Requests the final server does answer in JSON *)

Lemma bind_inv {A B} (m : M A) (k : A -> M B) (w w' : World) (b : B) :
  bind m k w = (Ok b, w') ->
  exists a w1, m w = (Ok a, w1) /\ k a w1 = (Ok b, w').
Proof.
  unfold bind. destruct (m w) as [[a|e] w1]; [eauto | discriminate].
Qed.

Lemma guarded_structured (env : Env) (line : exn -> string) (m : M response) (w : World) :
  quiet env ->
  (forall r w', m w = (Ok r, w') -> structured r) ->
  exists r w',
    try_except m (fun e => bind (log env (line e))
                                (fun _ => ret (Response 500 (error_body (exn_msg e))))) w
    = (Ok r, w')
    /\ structured r.
Proof.
  intros Q H. unfold try_except. destruct (m w) as [[r|e] w'] eqn:E.
  - exists r, w'. split; [reflexivity | exact (H r w' eq_refl)].
  - rewrite (bind_log env _ _ w' Q).
    eexists. exists w'. split; [reflexivity|].
    right. split; [right; reflexivity|]. split; [reflexivity | eexists; reflexivity].
Qed.

(** With every log line printed, a status-only endpoint answers every
    request whose body is an object (or does not parse, or is falsy)
    with a structured answer. *)
Lemma status_endpoint_structured (env : Env) (route missing status : string) (req : request)
      (kvs : list (string * json)) (w : World) :
  quiet env ->
  json_or_empty req = JObj kvs ->
  exists r w', status_endpoint env route missing status req w = (Ok r, w') /\ structured r.
Proof.
  intros Q Hd. unfold status_endpoint. rewrite Hd, bind_lift, get_field_or.
  destruct (Py.truthy (field_or (JObj kvs) "ro_number" JNull)); cbn [negb].
  - apply (guarded_structured env (fun e => route ++ " error: " ++ exn_msg e)); [exact Q|].
    intros r w' H.
    apply bind_inv in H as (token & w1 & _ & H).
    apply bind_inv in H as (raw & w2 & _ & H).
    inversion H; subst. left. split; reflexivity.
  - eexists. exists w. split; [reflexivity|].
    right. split; [left; reflexivity|]. split; [reflexivity | eexists; reflexivity].
Qed.

Lemma decode_images_total (env : Env) (imgs : list json) :
  quiet env ->
  forall w, exists decoded w', decode_images env imgs w = (Ok decoded, w').
Proof.
  intros Q. induction imgs as [|img rest IH]; intros w; [exists [], w; reflexivity|].
  cbn [decode_images]. unfold bind at 1, try_except.
  destruct (decode_image env img w) as [[r|e] w1].
  - destruct (IH w1) as (d & w2 & E). rewrite (bind_ok _ _ _ _ _ E).
    eexists. exists w2. reflexivity.
  - rewrite (bind_log env _ _ w1 Q). cbn [ret].
    destruct (IH w1) as (d & w2 & E). rewrite (bind_ok _ _ _ _ _ E).
    eexists. exists w2. reflexivity.
Qed.

Lemma decode_step_total (env : Env) (images_b64 : json) (w : World) :
  quiet env ->
  exists decoded w',
    (match images_b64 with
     | JArr l => decode_images env l
     | _ => ret []
     end) w = (Ok decoded, w').
Proof.
  intros Q. destruct images_b64; try (exists [], w; reflexivity).
  apply decode_images_total. exact Q.
Qed.

Lemma iso_try_structured (env : Env) (data ro title comments : json) (paths : list json)
      (f1 f2 : bool) (w w' : World) (r : response) :
  iso_inspection_try env data ro title comments paths f1 f2 w = (Ok r, w') ->
  structured r.
Proof.
  intros H. unfold iso_inspection_try in H.
  repeat (apply bind_inv in H as (? & ? & _ & H)).
  inversion H; subst. left. split; reflexivity.
Qed.

(** With every log line printed, the ISO inspection endpoint answers
    every request whose data is an object and whose uploaded files could
    be staged with a structured answer. *)
Lemma iso_inspection_structured (env : Env) (req : request)
      (kvs : list (string * json)) (w w1 : World) (staged : list json) :
  quiet env ->
  request_data req = JObj kvs ->
  stage_files env (if is_multipart req then multidict_items (files req) else []) w
  = (Ok staged, w1) ->
  exists r w', dvi_iso_inspection env req w = (Ok r, w') /\ structured r.
Proof.
  intros Q Hd Hs.
  destruct (Py.truthy (field_or (JObj kvs) "ro_number" JNull)) eqn:Hro.
  - rewrite (iso_inspection_run env req kvs w Hd Hro).
    rewrite (bind_ok _ _ _ _ _ Hs).
    destruct (decode_step_total env (field_or (JObj kvs) "images_base64" (JArr [])) w1 Q)
      as (decoded & w2 & T).
    rewrite (bind_ok _ _ _ _ _ T). cbv zeta.
    rewrite (bind_log env _ _ w2 Q).
    unfold try_finally.
    match goal with
    | |- context [try_except ?m (fun e => bind (log env (@?line e)) _) w2] =>
        destruct (guarded_structured env line m w2 Q) as (r & w3 & E & S)
    end.
    + intros r w' H. exact (iso_try_structured _ _ _ _ _ _ _ _ _ _ _ H).
    + rewrite E. eexists. eexists. split; [reflexivity | exact S].
  - unfold dvi_iso_inspection. fold (is_multipart req).
    change (if is_multipart req
            then JObj (map (fun kv => (fst kv, JStr (snd kv))) (multidict_items (form req)))
            else json_or_empty req) with (request_data req).
    rewrite Hd, bind_lift, get_field_or, Hro. cbn [negb].
    eexists. exists w. split; [reflexivity|].
    right. split; [left; reflexivity|]. split; [reflexivity | eexists; reflexivity].
Qed.

(** ** Where the cleanup does its work *)

(** A multipart photo is staged, uploaded and removed again. *)
Example multipart_photo_cleaned :
  w_files (snd (dvi_iso_inspection Demo.env Demo.multipart_one Demo.world))
  = w_files Demo.world
  /\ exists body,
       fst (dvi_iso_inspection Demo.env Demo.multipart_one Demo.world)
       = Ok (Response 200 (JObj body))
       /\ Py.assoc "blobs" body = Some (JArr [JStr "3f2a9c1e5b7d4e0fa1b2c3d4e5f60001.jpg"]).
Proof. split; [reflexivity | eexists; split; reflexivity]. Qed.

(** It is removed as well when the request ends in a 500. *)
Example multipart_photo_cleaned_on_failure :
  w_files (snd (dvi_iso_inspection Demo.env_status_500 Demo.multipart_one Demo.world))
  = w_files Demo.world
  /\ exists body,
       fst (dvi_iso_inspection Demo.env_status_500 Demo.multipart_one Demo.world)
       = Ok (Response 500 (JObj body))
       /\ Py.assoc "ok" body = Some (JBool false).
Proof. split; [reflexivity | eexists; split; reflexivity]. Qed.

(** ** The other status wrapper *)

(** [set_ro_status] of dvi_client.py is the wrapper whose error text
    holds the response body; what it returns on success is the parsed
    body, or the text wrapped in an object. *)
Lemma set_ro_status_spec (env : Env) (token ro_number : json) (status : Z) (w : World)
      (r : http_response) :
  vendor env (w_trace w) (OpSetROStatus token ro_number (Py.str_int status)) = Ok r ->
  set_ro_status env token ro_number status w
  = (if resp_ok r then Ok (json_or_raw r)
     else Raise (Exn DVIError (failed "SetROStatus" r)),
     sent (OpSetROStatus token ro_number (Py.str_int status)) w)
  /\ PyStr.contains (Py.str_int (status_code r)) (failed "SetROStatus" r) = true
  /\ PyStr.contains (text r) (failed "SetROStatus" r) = true.
Proof.
  intros Hv. split.
  - unfold set_ro_status, bind. rewrite http_run, Hv.
    destruct (resp_ok r); reflexivity.
  - unfold failed. split.
    + rewrite <- append_assoc. apply contains_append.
    + rewrite <- !append_assoc. apply contains_suffix.
Qed.

(* ================================================================== *)
(** * Further properties of the code *)
(* ================================================================== *)

(** ** Login *)

Lemma raise_for_status_ok_inv (r : http_response) :
  raise_for_status r = Ok tt -> resp_ok r = true.
Proof.
  destruct (resp_ok r) eqn:E; [reflexivity|].
  destruct (raise_for_status_error r E) as [kind [_ ->]]. discriminate.
Qed.

Lemma dvi_login_world (env : Env) (w : World) :
  snd (dvi_login env w) = sent OpLogin w.
Proof.
  unfold dvi_login. unfold bind at 1. rewrite http_run.
  destruct (vendor env (w_trace w) OpLogin) as [r|e]; [|reflexivity].
  rewrite bind_lift.
  destruct (raise_for_status r) as [[]|e]; [|reflexivity].
  rewrite bind_lift. destruct (json_body r) as [data|e]; [|reflexivity].
  unfold lift. reflexivity.
Qed.

(** X1: [dvi_login] sends one request, and when the vendor accepts it
    with a JSON object, returns whatever that object holds under
    [Token], a null or an empty token included; an object without
    [Token] makes it raise [KeyError] with the text ['Token']. *)
Theorem X1_login_returns_token_field (env : Env) (w : World) (r : http_response)
        (kvs : list (string * json)) :
  answers_ok env (w_trace w) OpLogin r ->
  json_body r = Ok (JObj kvs) ->
  dvi_login env w
  = (match Py.assoc "Token" kvs with
     | Some token => Ok token
     | None => Raise (Exn KeyError "'Token'")
     end,
     sent OpLogin w).
Proof.
  intros [Hv Hok] Hj. unfold dvi_login.
  rewrite (bind_ok _ _ w (sent OpLogin w) r) by (rewrite http_run, Hv; reflexivity).
  rewrite bind_lift, (raise_for_status_ok _ Hok), bind_lift, Hj.
  unfold lift, getitem_str. destruct (Py.assoc "Token" kvs); reflexivity.
Qed.

Lemma X1_login_witness :
  dvi_login (MkEnv (fun _ op => Ok (Demo.answer op (JObj [("Token", JNull)])))
                   Demo.uuid4_hex Demo.creatable JNull JNull Demo.stdout_ok) Demo.world
  = (Ok JNull, sent OpLogin Demo.world).
Proof.
  apply (X1_login_returns_token_field
           (MkEnv (fun _ op => Ok (Demo.answer op (JObj [("Token", JNull)])))
                  Demo.uuid4_hex Demo.creatable JNull JNull Demo.stdout_ok)
           Demo.world (Demo.answer OpLogin (JObj [("Token", JNull)])) [("Token", JNull)]
           (conj eq_refl eq_refl) eq_refl).
Defined.

(** ** Media upload: what happens before and after the request *)

Lemma open_rb_world (p : json) (w : World) : snd (open_rb p w) = w.
Proof.
  unfold open_rb, no_such_file, raise.
  destruct p; try reflexivity.
  destruct (Fs.lookup (Fs.path_str s) (w_files w)); reflexivity.
Qed.

(** X2: [save_media] does not reach the vendor without content: with
    neither a path nor bytes it raises [ValueError] and changes nothing;
    with a path it reads the file and ignores the bytes, so that a path
    to a missing file raises [FileNotFoundError] with no request sent,
    and a path to a file sends the content of the file under a fresh
    name ending in ".jpg". *)
Theorem X2_save_media_content (env : Env) (token : json) (w : World) :
  (forall image_path, Py.truthy image_path = false ->
      save_media env token image_path None w
      = (Raise (Exn ValueError "Must provide either image_path or image_bytes"), w)
      /\ save_media env token image_path (Some EmptyString) w
         = (Raise (Exn ValueError "Must provide either image_path or image_bytes"), w))
  /\ (forall path image_bytes,
         path <> EmptyString ->
         Fs.lookup (Fs.path_str path) (w_files w) = None ->
         save_media env token (JStr path) image_bytes w
         = (Raise (Exn FileNotFoundError
                       ("[Errno 2] No such file or directory: " ++ Py.repr_str path)),
            drawn w))
  /\ (forall path image_bytes content,
         path <> EmptyString ->
         Fs.lookup (Fs.path_str path) (w_files w) = Some content ->
         w_trace (snd (save_media env token (JStr path) image_bytes w))
         = (w_trace w ++ [OpSaveMedia token (uuid4_hex env (w_uuids w) ++ ".jpg") content])%list
         /\ PyStr.endswith (uuid4_hex env (w_uuids w) ++ ".jpg") ".jpg" = true).
Proof.
  split; [|split].
  - intros p Hp. unfold save_media. rewrite Hp. split; reflexivity.
  - intros path b Hne Hl. unfold save_media.
    assert (Ht : Py.truthy (JStr path) = true).
    { cbn [Py.truthy]. apply String.eqb_neq in Hne. rewrite Hne. reflexivity. }
    rewrite Ht. cbn [negb andb].
    unfold bind at 1. cbn [fresh_uuid_hex].
    fold (drawn w).
    unfold bind at 1, open_rb. cbn [drawn w_files]. rewrite Hl. reflexivity.
  - intros path b content Hne Hl. split; [|apply endswith_append].
    unfold save_media.
    assert (Ht : Py.truthy (JStr path) = true).
    { cbn [Py.truthy]. apply String.eqb_neq in Hne. rewrite Hne. reflexivity. }
    rewrite Ht. cbn [negb andb].
    unfold bind at 1. cbn [fresh_uuid_hex].
    fold (drawn w).
    unfold bind at 1, open_rb. cbn [drawn w_files]. rewrite Hl.
    unfold bind at 1. rewrite http_run.
    change (w_trace (drawn w)) with (w_trace w).
    destruct (vendor env (w_trace w)
                     (OpSaveMedia token (uuid4_hex env (w_uuids w) ++ ".jpg") content))
      as [r|e]; [|reflexivity].
    rewrite bind_lift. destruct (raise_for_status r) as [[]|e]; [|reflexivity].
    rewrite bind_lift. destruct (json_body r) as [j|e]; [|reflexivity].
    unfold lift. reflexivity.
Qed.

Lemma X2_save_media_witness :
  save_media Demo.env (JStr "tok-1") (JStr "missing.jpg") (Some "JPEG-9") Demo.world
  = (Raise (Exn FileNotFoundError "[Errno 2] No such file or directory: 'missing.jpg'"),
     drawn Demo.world).
Proof.
  assert (Hne : "missing.jpg" <> EmptyString) by discriminate.
  apply (proj1 (proj2 (X2_save_media_content Demo.env (JStr "tok-1") Demo.world))
               "missing.jpg" (Some "JPEG-9") Hne eq_refl).
Defined.

(** X3: when [save_media] returns an identifier, the vendor has
    answered one upload request, sent under a fresh name ending in
    ".jpg", with a status that is no error and with a JSON string, and
    the identifier is that string stripped of its surrounding quotes. *)
Theorem X3_save_media_returns_vendor_string
        (env : Env) (token image_path : json) (image_bytes : option string)
        (w w' : World) (id : string) :
  save_media env token image_path image_bytes w = (Ok id, w') ->
  exists content r s,
    vendor env (w_trace w) (OpSaveMedia token (uuid4_hex env (w_uuids w) ++ ".jpg") content)
    = Ok r
    /\ resp_ok r = true
    /\ json_body r = Ok (JStr s)
    /\ id = PyStr.strip_char dquote s
    /\ w' = sent (OpSaveMedia token (uuid4_hex env (w_uuids w) ++ ".jpg") content) (drawn w).
Proof.
  unfold save_media.
  destruct (andb _ _); [discriminate|].
  intros H.
  apply bind_inv in H as (h & w1 & Eh & H).
  cbn [fresh_uuid_hex] in Eh. inversion Eh; subst h w1. clear Eh.
  fold (drawn w) in H.
  apply bind_inv in H as (content & w2 & Ec & H).
  assert (w2 = drawn w).
  { destruct (Py.truthy image_path).
    - pose proof (open_rb_world image_path (drawn w)) as W. rewrite Ec in W. exact W.
    - inversion Ec. reflexivity. }
  subst w2.
  apply bind_inv in H as (r & w3 & Er & H).
  rewrite http_run in Er. inversion Er as [[Hv Hw]]. subst w3.
  apply bind_inv in H as ([] & w4 & Es & H).
  unfold lift in Es. inversion Es as [[Hs Hw]]. subst w4.
  apply bind_inv in H as (j & w5 & Ej & H).
  unfold lift in Ej. inversion Ej as [[Hj Hw]]. subst w5.
  unfold lift in H. inversion H as [[Hq Hw]].
  destruct j; try discriminate. cbn [strip_quotes] in Hq. inversion Hq.
  exists content, r, s. cbn [drawn w_trace] in Hv.
  repeat split; try assumption; try reflexivity.
  apply (raise_for_status_ok_inv _ Hs).
Qed.

Lemma X3_save_media_witness :
  exists content r s,
    vendor Demo.env (w_trace Demo.world)
           (OpSaveMedia (JStr "tok-1") (uuid4_hex Demo.env 0 ++ ".jpg") content) = Ok r
    /\ resp_ok r = true
    /\ json_body r = Ok (JStr s)
    /\ "3f2a9c1e5b7d4e0fa1b2c3d4e5f60000.jpg" = PyStr.strip_char dquote s.
Proof.
  destruct (X3_save_media_returns_vendor_string Demo.env (JStr "tok-1") (JStr "photo1.jpg")
              None Demo.world
              (sent (OpSaveMedia (JStr "tok-1") "3f2a9c1e5b7d4e0fa1b2c3d4e5f60000.jpg" "JPEG-1")
                    (drawn Demo.world))
              "3f2a9c1e5b7d4e0fa1b2c3d4e5f60000.jpg" eq_refl)
    as (content & r & s & Hv & Hok & Hj & Hid & _).
  exists content, r, s. repeat split; assumption.
Defined.

(** ** The wrappers of dvi_client.py *)

Lemma failed_names (what : string) (r : http_response) :
  PyStr.contains what (failed what r) = true
  /\ PyStr.contains (Py.str_int (status_code r)) (failed what r) = true
  /\ PyStr.contains (text r) (failed what r) = true.
Proof.
  unfold failed. split; [apply contains_prefix|]. split.
  - rewrite <- append_assoc. apply contains_append.
  - rewrite <- !append_assoc. apply contains_suffix.
Qed.

(** X4: on an error status each wrapper of dvi_client.py raises a
    [DVIError] after its one request, and the text of that error names
    the vendor operation, the status code and the response body. *)
Theorem X4_dvi_client_errors (env : Env) (token : json) (w : World) (r : http_response) :
  resp_ok r = false ->
  (forall ro,
      vendor env (w_trace w) (OpGetRODetail token ro) = Ok r ->
      get_ro_detail env token ro w
      = (Raise (Exn DVIError (failed "GetRODetail" r)), sent (OpGetRODetail token ro) w))
  /\ (forall labor,
         vendor env (w_trace w) (OpGetCheckListItems token labor) = Ok r ->
         get_checklist_items env token labor w
         = (Raise (Exn DVIError (failed "GetCheckListItemsV2" r)),
            sent (OpGetCheckListItems token labor) w))
  /\ (forall ro labor item condition comments ro_type,
         vendor env (w_trace w)
                (OpSaveChecklist token ro labor item condition comments ro_type) = Ok r ->
         save_checklist env token ro labor item condition comments ro_type w
         = (Raise (Exn DVIError (failed "SaveChecklist" r)),
            sent (OpSaveChecklist token ro labor item condition comments ro_type) w))
  /\ (forall ro labor item blob ro_type,
         vendor env (w_trace w)
                (OpSaveChecklistImageCloud token ro labor item blob ro_type) = Ok r ->
         save_checklist_image_cloud env token ro labor item blob ro_type w
         = (Raise (Exn DVIError (failed "SaveChecklistImageCloud" r)),
            sent (OpSaveChecklistImageCloud token ro labor item blob ro_type) w))
  /\ (forall ro status,
         vendor env (w_trace w) (OpSetROStatus token ro (Py.str_int status)) = Ok r ->
         set_ro_status env token ro status w
         = (Raise (Exn DVIError (failed "SetROStatus" r)),
            sent (OpSetROStatus token ro (Py.str_int status)) w))
  /\ (forall ro labor notes,
         vendor env (w_trace w)
                (OpSaveChecklist token ro labor TECH_NOTES_ITEM_ID
                                 (JStr "See Notes Below") notes "R") = Ok r ->
         save_pma_technician_notes env token ro labor notes w
         = (Raise (Exn DVIError (failed "SaveChecklist" r)),
            sent (OpSaveChecklist token ro labor TECH_NOTES_ITEM_ID
                                  (JStr "See Notes Below") notes "R") w))
  /\ (forall what,
         PyStr.contains what (failed what r) = true
         /\ PyStr.contains (Py.str_int (status_code r)) (failed what r) = true
         /\ PyStr.contains (text r) (failed what r) = true).
Proof.
  intros Hbad.
  repeat split; try (intros; apply failed_names).
  - intros ro Hv. unfold get_ro_detail, bind. rewrite http_run, Hv, Hbad. reflexivity.
  - intros labor Hv. unfold get_checklist_items, bind. rewrite http_run, Hv, Hbad.
    reflexivity.
  - intros ro labor item condition comments ro_type Hv.
    unfold save_checklist, bind. rewrite http_run, Hv, Hbad. reflexivity.
  - intros ro labor item blob ro_type Hv.
    unfold save_checklist_image_cloud, bind. rewrite http_run, Hv, Hbad. reflexivity.
  - intros ro status Hv. unfold set_ro_status, bind. rewrite http_run, Hv, Hbad.
    reflexivity.
  - intros ro labor notes Hv.
    unfold save_pma_technician_notes, save_checklist, bind. rewrite http_run, Hv, Hbad.
    reflexivity.
Qed.

Lemma X4_dvi_client_errors_witness :
  get_ro_detail (MkEnv (fun _ op => Ok (Demo.server_error op)) Demo.uuid4_hex Demo.creatable
                       JNull JNull Demo.stdout_ok)
                (JStr "tok-1") (JStr "12345") Demo.world
  = (Raise (Exn DVIError "GetRODetail failed: 500 boom"),
     sent (OpGetRODetail (JStr "tok-1") (JStr "12345")) Demo.world).
Proof.
  apply (proj1 (X4_dvi_client_errors
                  (MkEnv (fun _ op => Ok (Demo.server_error op)) Demo.uuid4_hex Demo.creatable
                         JNull JNull Demo.stdout_ok)
                  (JStr "tok-1") Demo.world
                  (Demo.server_error (OpGetRODetail (JStr "tok-1") (JStr "12345"))) eq_refl)
               (JStr "12345") eq_refl).
Defined.

(** ** Lookups in the RO detail *)

Lemma find_labor_loop_spec (target : string) (labors : list json) :
  forallb (wf_entry "Description") labors = true ->
  DviClient.find_labor_loop (PyStr.lower target) labors
  = Ok (match find (labor_matches target) labors with
        | Some labor => field labor "ID"
        | None => JNull
        end).
Proof.
  induction labors as [|labor rest IH]; intros Hw; [reflexivity|].
  cbn [forallb] in Hw. apply andb_true_iff in Hw as [Hl Hw].
  cbn [DviClient.find_labor_loop find].
  rewrite (get_field _ _ Hl). cbn [res_bind].
  unfold wf_entry in Hl. destruct labor as [| | | | |kvs]; try discriminate.
  rewrite (lower_or_text _ Hl). cbn [res_bind].
  unfold labor_matches at 1, field_text.
  destruct (PyStr.contains (PyStr.lower target) _); cbn [andb]; [|exact (IH Hw)].
  rewrite get_field_or. cbn [res_bind].
  change (field_or (JObj kvs) "ID" JNull) with (field (JObj kvs) "ID").
  destruct (Py.truthy (field (JObj kvs) "ID")); [reflexivity | exact (IH Hw)].
Qed.

(** X5: on an RO detail whose labor list is well formed,
    [find_labor_id_by_description] returns the ID of the first labor, in
    list order, whose description holds the target ignoring case and
    whose ID is truthy; a matching labor without an ID is passed over;
    it returns [None] when there is no such labor, and so never a falsy
    identifier other than [None]. *)
Theorem X5_find_labor_first_match (detail : json) (target : string) :
  wf_list detail "LaborList" "Description" = true ->
  DviClient.find_labor_id_by_description detail target
  = Ok (match find (labor_matches target) (entries detail "LaborList") with
        | Some labor => field labor "ID"
        | None => JNull
        end)
  /\ (forall id, DviClient.find_labor_id_by_description detail target = Ok id ->
                 id = JNull \/ Py.truthy id = true).
Proof.
  intros Hw. destruct (iter_entries _ _ _ Hw) as [E W].
  assert (Hr : DviClient.find_labor_id_by_description detail target
               = Ok (match find (labor_matches target) (entries detail "LaborList") with
                     | Some labor => field labor "ID"
                     | None => JNull
                     end)).
  { unfold DviClient.find_labor_id_by_description.
    unfold res_bind in E |- *.
    destruct (Py.get detail "LaborList" (JArr [])); [|discriminate].
    rewrite E. apply find_labor_loop_spec. exact W. }
  split; [exact Hr|].
  intros id Hid. rewrite Hr in Hid. inversion Hid as [Hid'].
  destruct (find (labor_matches target) (entries detail "LaborList")) as [labor|] eqn:Ef;
    [|left; reflexivity].
  right. apply find_some in Ef as [_ Hm].
  unfold labor_matches in Hm. apply andb_true_iff in Hm as [_ Ht]. exact Ht.
Qed.

Lemma X5_find_labor_witness :
  DviClient.find_labor_id_by_description
    (JObj [("LaborList",
            JArr [JObj [("Description", JStr "ISO check")];
                  JObj [("ID", JStr "lab-9"); ("Description", JStr "Courtesy iso")]])])
    "ISO"
  = Ok (JStr "lab-9").
Proof.
  apply (proj1 (X5_find_labor_first_match
                  (JObj [("LaborList",
                          JArr [JObj [("Description", JStr "ISO check")];
                                JObj [("ID", JStr "lab-9");
                                      ("Description", JStr "Courtesy iso")]])])
                  "ISO" eq_refl)).
Defined.

Lemma find_checklist_loop_spec (target : string) (cls : list json) :
  forallb (wf_entry "Name") cls = true ->
  find_checklist_loop target cls
  = Ok (match find (fun cl => String.eqb (field_text cl "Name") target) cls with
        | Some cl => cl
        | None => JNull
        end).
Proof.
  induction cls as [|cl rest IH]; intros Hw; [reflexivity|].
  cbn [forallb] in Hw. apply andb_true_iff in Hw as [Hl Hw].
  cbn [find_checklist_loop find].
  rewrite (get_field _ _ Hl). cbn [res_bind].
  unfold wf_entry in Hl. destruct cl as [| | | | |kvs]; try discriminate.
  rewrite (lower_or_text _ Hl). cbn [res_bind].
  unfold field_text.
  destruct (String.eqb _ target); [reflexivity | exact (IH Hw)].
Qed.

Lemma find_checklist_spec (detail : json) (name : string) :
  wf_list detail "CheckLists" "Name" = true ->
  find_checklist_for_name detail name
  = Ok (match find (fun cl => String.eqb (field_text cl "Name") (PyStr.lower name))
                   (entries detail "CheckLists") with
        | Some cl => cl
        | None => JNull
        end).
Proof.
  intros Hw. destruct (iter_entries _ _ _ Hw) as [E W].
  unfold find_checklist_for_name.
  unfold res_bind in E |- *.
  destruct (Py.get detail "CheckLists" (JArr [])); [|discriminate].
  rewrite E. apply find_checklist_loop_spec. exact W.
Qed.

(** X6: on an RO detail whose checklist list is well formed,
    [find_checklist_for_name] returns the first checklist, in list
    order, whose Name equals the given name ignoring case (the whole
    name, not a part of it), and [None] when there is none. *)
Theorem X6_find_checklist_exact_name (detail : json) (name : string) :
  wf_list detail "CheckLists" "Name" = true ->
  find_checklist_for_name detail name
  = Ok (match find (fun cl => String.eqb (field_text cl "Name") (PyStr.lower name))
                   (entries detail "CheckLists") with
        | Some cl => cl
        | None => JNull
        end)
  /\ (forall cl, find_checklist_for_name detail name = Ok cl -> cl <> JNull ->
                 In cl (entries detail "CheckLists")
                 /\ field_text cl "Name" = PyStr.lower name).
Proof.
  intros Hw. pose proof (find_checklist_spec detail name Hw) as Hr.
  split; [exact Hr|].
  intros cl Hcl Hnn. rewrite Hr in Hcl. inversion Hcl as [Hcl'].
  destruct (find _ (entries detail "CheckLists")) as [c|] eqn:Ef.
  - subst c. apply find_some in Ef as [Hin He]. split; [exact Hin|].
    apply String.eqb_eq. exact He.
  - subst cl. contradiction.
Qed.

Lemma X6_find_checklist_witness :
  find_checklist_for_name Demo.ro_detail "WHEEL torque SIGNOFF"
  = Ok (JObj [("Name", JStr "Wheel Torque Signoff")]).
Proof.
  apply (proj1 (X6_find_checklist_exact_name Demo.ro_detail "WHEEL torque SIGNOFF"
                  eq_refl)).
Defined.

Lemma contains_refl (s : string) : PyStr.contains s s = true.
Proof.
  rewrite <- (append_nil_r s) at 2. apply contains_prefix.
Qed.

Lemma named_checklist_detected (keywords : list string) (signoff name : string)
      (detail cl : json) :
  wf_detail detail = true ->
  PyStr.lower name = signoff ->
  find_checklist_for_name detail name = Ok cl ->
  cl <> JNull ->
  DviClient.keyword_detector keywords signoff detail = Ok true.
Proof.
  intros Hw Hn Hf Hnn.
  rewrite (keyword_detector_spec keywords signoff detail Hw). f_equal.
  apply keyword_hit_iff. right; right.
  unfold wf_detail in Hw. apply andb_true_iff in Hw as [_ Hw].
  apply andb_true_iff in Hw as [_ Hc].
  rewrite (find_checklist_spec detail name Hc) in Hf. inversion Hf as [Hf'].
  destruct (find _ (entries detail "CheckLists")) as [c|] eqn:Ef.
  - subst c. apply find_some in Ef as [Hin He]. exists cl. split; [exact Hin|].
    apply String.eqb_eq in He. rewrite He, Hn. apply contains_refl.
  - subst cl. contradiction.
Qed.

(** X7: the lookup by name and the detectors agree: on a well-formed RO
    detail, when [find_checklist_for_name] finds the checklist "Oil
    Change Signoff" (in any case), [ro_has_oil_service] is true, and
    when it finds "Wheel Torque Signoff", [ro_has_wheel_work] is true. *)
Theorem X7_named_signoff_detected (detail cl : json) (name : string) :
  wf_detail detail = true ->
  find_checklist_for_name detail name = Ok cl ->
  cl <> JNull ->
  (PyStr.lower name = "oil change signoff" ->
   DviClient.ro_has_oil_service detail = Ok true)
  /\ (PyStr.lower name = "wheel torque signoff" ->
      DviClient.ro_has_wheel_work detail = Ok true).
Proof.
  intros Hw Hf Hnn. split; intros Hn.
  - exact (named_checklist_detected _ _ name detail cl Hw Hn Hf Hnn).
  - exact (named_checklist_detected _ _ name detail cl Hw Hn Hf Hnn).
Qed.

Lemma X7_named_signoff_witness :
  DviClient.ro_has_wheel_work Demo.ro_detail = Ok true.
Proof.
  assert (Hnn : JObj [("Name", JStr "Wheel Torque Signoff")] <> JNull) by discriminate.
  apply (proj2 (X7_named_signoff_detected Demo.ro_detail
                  (JObj [("Name", JStr "Wheel Torque Signoff")])
                  "Wheel Torque Signoff" eq_refl eq_refl Hnn) eq_refl).
Defined.

(** X8: a key that is present with the value null is not the same as an
    absent key: with [LaborList] null the detectors and the labor lookup
    raise [TypeError], the list being the default only when the key is
    absent; a detector still answers true when the Requests text alone
    holds a keyword, since it returns before reading the list. *)
Theorem X8_null_labor_list (kvs : list (string * json)) :
  Py.assoc "LaborList" kvs = Some JNull ->
  wf_text (field (JObj kvs) "Requests") = true ->
  (forall target,
      DviClient.find_labor_id_by_description (JObj kvs) target
      = Raise (Exn TypeError "'NoneType' object is not iterable"))
  /\ DviClient.ro_has_oil_service (JObj kvs)
     = (if PyStr.any_in DviClient.oil_keywords (field_text (JObj kvs) "Requests")
        then Ok true
        else Raise (Exn TypeError "'NoneType' object is not iterable"))
  /\ DviClient.ro_has_wheel_work (JObj kvs)
     = (if PyStr.any_in DviClient.wheel_keywords (field_text (JObj kvs) "Requests")
        then Ok true
        else Raise (Exn TypeError "'NoneType' object is not iterable")).
Proof.
  intros Hl Hr.
  assert (Hd : forall keywords signoff,
             DviClient.keyword_detector keywords signoff (JObj kvs)
             = (if PyStr.any_in keywords (field_text (JObj kvs) "Requests")
                then Ok true
                else Raise (Exn TypeError "'NoneType' object is not iterable"))).
  { intros keywords signoff. unfold DviClient.keyword_detector.
    change (Py.get (JObj kvs) "Requests" JNull) with (Ok (field (JObj kvs) "Requests")).
    cbn [res_bind]. rewrite (lower_or_text _ Hr). cbn [res_bind].
    fold (field_text (JObj kvs) "Requests").
    destruct (PyStr.any_in keywords (field_text (JObj kvs) "Requests")); [reflexivity|].
    cbn [Py.get]. rewrite Hl. reflexivity. }
  split; [|split; apply Hd].
  intros target. unfold DviClient.find_labor_id_by_description.
  cbn [Py.get]. rewrite Hl. reflexivity.
Qed.

Lemma X8_null_labor_list_witness :
  DviClient.ro_has_oil_service (JObj [("Requests", JStr "Oil change"); ("LaborList", JNull)])
  = Ok true
  /\ DviClient.ro_has_wheel_work (JObj [("Requests", JStr "Oil change"); ("LaborList", JNull)])
     = Raise (Exn TypeError "'NoneType' object is not iterable").
Proof.
  destruct (X8_null_labor_list [("Requests", JStr "Oil change"); ("LaborList", JNull)]
              eq_refl eq_refl) as [_ [Ho Hw]].
  split; [rewrite Ho | rewrite Hw]; reflexivity.
Defined.

(** ** The status-only endpoints *)

Lemma status_endpoint_missing (env : Env) (route missing status : string) (req : request)
      (kvs : list (string * json)) (w : World) :
  json_or_empty req = JObj kvs ->
  Py.truthy (field_or (JObj kvs) "ro_number" JNull) = false ->
  status_endpoint env route missing status req w
  = (Ok (Response 400 (error_body missing)), w).
Proof.
  intros Hd Hro. unfold status_endpoint.
  rewrite Hd, bind_lift, get_field_or, Hro. reflexivity.
Qed.

(** X9: a request to a status-only endpoint whose body does not parse,
    is empty, or is an object without a truthy [ro_number] is answered
    400 with [ok] false and the endpoint's own text, and neither login
    nor any other vendor request is sent. *)
Theorem X9_status_endpoints_missing_ro_number (env : Env) (req : request)
        (kvs : list (string * json)) (w : World) :
  json_or_empty req = JObj kvs ->
  Py.truthy (field_or (JObj kvs) "ro_number" JNull) = false ->
  Forall (fun h => fst h req w = (Ok (Response 400 (error_body (snd (snd h)))), w))
         (status_endpoints env).
Proof.
  intros Hd Hro. unfold status_endpoints.
  repeat constructor; cbn [fst snd];
    apply (status_endpoint_missing env _ _ _ req kvs w Hd Hro).
Qed.

Lemma X9_status_endpoints_witness :
  dvi_qc_complete Demo.env (Request None [] [] None) Demo.world
  = (Ok (Response 400 (error_body "Missing ro_number")), Demo.world).
Proof.
  pose proof (X9_status_endpoints_missing_ro_number Demo.env (Request None [] [] None) []
                Demo.world eq_refl eq_refl) as H.
  exact (Forall_inv (Forall_inv_tail (Forall_inv_tail (Forall_inv_tail H)))).
Defined.

Lemma status_endpoint_success (env : Env) (route missing status : string) (req : request)
      (kvs : list (string * json)) (w : World) (r0 r1 : http_response) (data token : json) :
  json_or_empty req = JObj kvs ->
  Py.truthy (field_or (JObj kvs) "ro_number" JNull) = true ->
  accepts env (w_trace w)
          [OpLogin; OpChangeStatus token (field_or (JObj kvs) "ro_number" JNull) status "R"]
          [r0; r1] ->
  json_body r0 = Ok data ->
  getitem_str data "Token" = Ok token ->
  status_endpoint env route missing status req w
  = (Ok (status_answer (field_or (JObj kvs) "ro_number" JNull) status (text r1)),
     sent (OpChangeStatus token (field_or (JObj kvs) "ro_number" JNull) status "R")
          (sent OpLogin w)).
Proof.
  intros Hd Hro [A0 [A1 _]] Hj Ht. unfold status_endpoint.
  rewrite Hd, bind_lift, get_field_or, Hro. cbn [negb].
  apply try_except_ok.
  rewrite (bind_ok _ _ _ _ _ (dvi_login_ok env w r0 data token A0 Hj Ht)).
  rewrite (bind_ok _ _ _ _ _ (change_status_ok env token _ status "R" (sent OpLogin w) r1 A1)).
  reflexivity.
Qed.

(** X10: when the vendor accepts login and the status change, each
    status-only endpoint sends exactly these two requests, login first,
    the status change carrying the token of the login, the RO number of
    the request, the endpoint's code (3, 4, 5 or 8) and type "R", and
    answers 200 with that code as [new_status] and the vendor's text,
    unchanged, as [raw]. *)
Theorem X10_status_endpoints_success (env : Env) (req : request)
        (kvs : list (string * json)) (w : World) (token : json) :
  json_or_empty req = JObj kvs ->
  Py.truthy (field_or (JObj kvs) "ro_number" JNull) = true ->
  Forall (fun h =>
            forall r0 r1 data,
              accepts env (w_trace w)
                      [OpLogin;
                       OpChangeStatus token (field_or (JObj kvs) "ro_number" JNull)
                                      (fst (snd h)) "R"]
                      [r0; r1] ->
              json_body r0 = Ok data ->
              getitem_str data "Token" = Ok token ->
              fst h req w
              = (Ok (status_answer (field_or (JObj kvs) "ro_number" JNull)
                                   (fst (snd h)) (text r1)),
                 sent (OpChangeStatus token (field_or (JObj kvs) "ro_number" JNull)
                                      (fst (snd h)) "R")
                      (sent OpLogin w)))
         (status_endpoints env).
Proof.
  intros Hd Hro. unfold status_endpoints.
  repeat constructor; cbn [fst snd]; intros r0 r1 data Ha Hj Ht;
    apply (status_endpoint_success env _ _ _ req kvs w r0 r1 data token Hd Hro Ha Hj Ht).
Qed.

Lemma X10_status_endpoints_witness :
  dvi_start Demo.env (Demo.json_request (JObj [("ro_number", JStr "12345")])) Demo.world
  = (Ok (status_answer (JStr "12345") "3" "OK"),
     sent (OpChangeStatus (JStr "tok-1") (JStr "12345") "3" "R") (sent OpLogin Demo.world)).
Proof.
  pose proof (X10_status_endpoints_success Demo.env
                (Demo.json_request (JObj [("ro_number", JStr "12345")]))
                [("ro_number", JStr "12345")] Demo.world (JStr "tok-1")
                eq_refl eq_refl) as H.
  apply (Forall_inv H (Demo.answer OpLogin (JObj [("Token", JStr "tok-1")]))
            (Demo.plain (OpChangeStatus (JStr "tok-1") (JStr "12345") "3" "R") "OK")
            (JObj [("Token", JStr "tok-1")])
            (conj (conj eq_refl eq_refl) (conj (conj eq_refl eq_refl) I))
            eq_refl eq_refl).
Defined.

Lemma change_status_world (env : Env) (token ro_number : json) (status ro_type : string)
      (w : World) :
  snd (change_status env token ro_number status ro_type w)
  = sent (OpChangeStatus token ro_number status ro_type) w.
Proof.
  unfold change_status. unfold bind at 1. rewrite http_run.
  destruct (vendor env (w_trace w) _) as [r|e]; [|reflexivity].
  rewrite bind_lift. destruct (raise_for_status r) as [[]|e]; reflexivity.
Qed.

Lemma status_endpoint_failure (env : Env) (route missing status : string) (req : request)
      (kvs : list (string * json)) (w : World) :
  quiet env ->
  json_or_empty req = JObj kvs ->
  Py.truthy (field_or (JObj kvs) "ro_number" JNull) = true ->
  (forall e, fst (dvi_login env w) = Raise e ->
             status_endpoint env route missing status req w
             = (Ok (Response 500 (error_body (exn_msg e))), sent OpLogin w))
  /\ (forall token e,
         fst (dvi_login env w) = Ok token ->
         fst (change_status env token (field_or (JObj kvs) "ro_number" JNull) status "R"
                            (sent OpLogin w)) = Raise e ->
         status_endpoint env route missing status req w
         = (Ok (Response 500 (error_body (exn_msg e))),
            sent (OpChangeStatus token (field_or (JObj kvs) "ro_number" JNull) status "R")
                 (sent OpLogin w))).
Proof.
  intros Q Hd Hro. split.
  - intros e He. unfold status_endpoint.
    rewrite Hd, bind_lift, get_field_or, Hro. cbn [negb].
    pose proof (dvi_login_world env w) as W.
    destruct (dvi_login env w) as [rl wl] eqn:El. cbn [fst snd] in He, W. subst rl wl.
    rewrite (try_except_raise _ _ w (sent OpLogin w) e)
      by (rewrite (bind_raise _ _ _ _ _ El); reflexivity).
    rewrite (bind_log env _ _ _ Q). reflexivity.
  - intros token e Hl Hc. unfold status_endpoint.
    rewrite Hd, bind_lift, get_field_or, Hro. cbn [negb].
    pose proof (dvi_login_world env w) as W.
    destruct (dvi_login env w) as [rl wl] eqn:El. cbn [fst snd] in Hl, W. subst rl wl.
    pose proof (change_status_world env token (field_or (JObj kvs) "ro_number" JNull)
                  status "R" (sent OpLogin w)) as W2.
    destruct (change_status env token (field_or (JObj kvs) "ro_number" JNull) status "R"
                            (sent OpLogin w)) as [rc wc] eqn:Ec.
    cbn [fst snd] in Hc, W2. subst rc wc.
    rewrite (try_except_raise _ _ w _ e)
      by (rewrite (bind_ok _ _ _ _ _ El), (bind_raise _ _ _ _ _ Ec); reflexivity).
    rewrite (bind_log env _ _ _ Q). reflexivity.
Qed.

(** X11: when login or the status change raises and the log line of
    the failure is printed, a status-only endpoint answers 500 with
    [ok] false and the text of the exception as [error]; after a failed
    login no status change is sent. *)
Theorem X11_status_endpoints_failure (env : Env) (req : request)
        (kvs : list (string * json)) (w : World) :
  quiet env ->
  json_or_empty req = JObj kvs ->
  Py.truthy (field_or (JObj kvs) "ro_number" JNull) = true ->
  Forall (fun h =>
            (forall e, fst (dvi_login env w) = Raise e ->
                       fst h req w
                       = (Ok (Response 500 (error_body (exn_msg e))), sent OpLogin w))
            /\ (forall token e,
                   fst (dvi_login env w) = Ok token ->
                   fst (change_status env token (field_or (JObj kvs) "ro_number" JNull)
                                      (fst (snd h)) "R" (sent OpLogin w)) = Raise e ->
                   fst h req w
                   = (Ok (Response 500 (error_body (exn_msg e))),
                      sent (OpChangeStatus token (field_or (JObj kvs) "ro_number" JNull)
                                           (fst (snd h)) "R")
                           (sent OpLogin w))))
         (status_endpoints env).
Proof.
  intros Q Hd Hro. unfold status_endpoints.
  repeat constructor; cbn [fst snd];
    try (intros e He;
         apply (proj1 (status_endpoint_failure env _ _ _ req kvs w Q Hd Hro) e He));
    intros token e Hl Hc;
    apply (proj2 (status_endpoint_failure env _ _ _ req kvs w Q Hd Hro) token e Hl Hc).
Qed.

Lemma X11_status_endpoints_witness :
  dvi_iso_complete Demo.env_status_500
                   (Demo.json_request (JObj [("ro_number", JStr "12345")])) Demo.world
  = (Ok (Response 500
           (error_body ("500 Server Error: Internal Server Error for url: "
                          ++ "https://dviapi.rowriter.com/ChangeStatus"))),
     sent (OpChangeStatus (JStr "tok-1") (JStr "12345") "4" "R") (sent OpLogin Demo.world)).
Proof.
  pose proof (X11_status_endpoints_failure Demo.env_status_500
                (Demo.json_request (JObj [("ro_number", JStr "12345")]))
                [("ro_number", JStr "12345")] Demo.world
                (fun _ _ => eq_refl) eq_refl eq_refl) as H.
  apply (proj2 (Forall_inv (Forall_inv_tail H)) (JStr "tok-1")
            (Exn HTTPError ("500 Server Error: Internal Server Error for url: "
                              ++ "https://dviapi.rowriter.com/ChangeStatus"))
            eq_refl eq_refl).
Defined.

(** The log line has to be printed: with standard output closed, a
    status change that fails makes the handler raise instead of
    answering 500. *)
Example closed_stdout_leaves_handler :
  fst (dvi_start Demo.env_closed_stdout
                 (Demo.json_request (JObj [("ro_number", JStr "12345")])) Demo.world)
  = Raise (Exn OSError "[Errno 9] Bad file descriptor").
Proof. reflexivity. Qed.

(** X12: the server keeps nothing between requests: the same request
    to [/dvi/qc_complete] twice logs in twice and sends two status
    changes, each with the token of its own login. *)
Theorem X12_qc_complete_twice (env : Env) (req : request) (kvs : list (string * json))
        (w : World) (r0 r1 r2 r3 : http_response) (d1 t1 d2 t2 : json) :
  json_or_empty req = JObj kvs ->
  Py.truthy (field_or (JObj kvs) "ro_number" JNull) = true ->
  accepts env (w_trace w)
          [OpLogin; OpChangeStatus t1 (field_or (JObj kvs) "ro_number" JNull) "8" "R";
           OpLogin; OpChangeStatus t2 (field_or (JObj kvs) "ro_number" JNull) "8" "R"]
          [r0; r1; r2; r3] ->
  json_body r0 = Ok d1 -> getitem_str d1 "Token" = Ok t1 ->
  json_body r2 = Ok d2 -> getitem_str d2 "Token" = Ok t2 ->
  twice (dvi_qc_complete env) req w
  = (Ok (status_answer (field_or (JObj kvs) "ro_number" JNull) "8" (text r1),
         status_answer (field_or (JObj kvs) "ro_number" JNull) "8" (text r3)),
     MkWorld (w_trace w
                ++ [OpLogin; OpChangeStatus t1 (field_or (JObj kvs) "ro_number" JNull) "8" "R";
                    OpLogin; OpChangeStatus t2 (field_or (JObj kvs) "ro_number" JNull) "8" "R"])
             (w_files w) (w_uuids w)).
Proof.
  intros Hd Hro [A0 [A1 [A2 [A3 _]]]] Hj1 Ht1 Hj2 Ht2.
  unfold twice, dvi_qc_complete.
  rewrite (bind_ok _ _ _ _ _
             (status_endpoint_success env _ _ "8" req kvs w r0 r1 d1 t1 Hd Hro
                (conj A0 (conj A1 I)) Hj1 Ht1)).
  rewrite (bind_ok _ _ _ _ _
             (status_endpoint_success env _ _ "8" req kvs
                (sent (OpChangeStatus t1 (field_or (JObj kvs) "ro_number" JNull) "8" "R")
                      (sent OpLogin w))
                r2 r3 d2 t2 Hd Hro (conj A2 (conj A3 I)) Hj2 Ht2)).
  unfold ret. rewrite trace_sent4. reflexivity.
Qed.

Lemma X12_qc_complete_twice_witness :
  w_trace (snd (twice (dvi_qc_complete Demo.env)
                      (Demo.json_request (JObj [("ro_number", JStr "12345")])) Demo.world))
  = [ OpLogin; OpChangeStatus (JStr "tok-1") (JStr "12345") "8" "R";
      OpLogin; OpChangeStatus (JStr "tok-1") (JStr "12345") "8" "R" ].
Proof.
  rewrite (X12_qc_complete_twice Demo.env
             (Demo.json_request (JObj [("ro_number", JStr "12345")]))
             [("ro_number", JStr "12345")] Demo.world
             (Demo.answer OpLogin (JObj [("Token", JStr "tok-1")]))
             (Demo.plain (OpChangeStatus (JStr "tok-1") (JStr "12345") "8" "R") "OK")
             (Demo.answer OpLogin (JObj [("Token", JStr "tok-1")]))
             (Demo.plain (OpChangeStatus (JStr "tok-1") (JStr "12345") "8" "R") "OK")
             (JObj [("Token", JStr "tok-1")]) (JStr "tok-1")
             (JObj [("Token", JStr "tok-1")]) (JStr "tok-1")
             eq_refl eq_refl
             (conj (conj eq_refl eq_refl)
                (conj (conj eq_refl eq_refl)
                   (conj (conj eq_refl eq_refl)
                      (conj (conj eq_refl eq_refl) I))))
             eq_refl eq_refl eq_refl eq_refl).
  reflexivity.
Defined.

(** ** What a computation sends *)

Lemma Forall_nil_False (ops : list vendor_op) :
  Forall (fun _ => False) ops -> ops = [].
Proof. destruct ops; [reflexivity|]. intros H. inversion H. contradiction. Qed.

Lemma appends_weaken {A} (Q Q' : vendor_op -> Prop) (m : M A) :
  (forall op, Q op -> Q' op) -> appends Q m -> appends Q' m.
Proof.
  intros HQ H w. destruct (H w) as (ops & E & F). exists ops. split; [exact E|].
  eapply Forall_impl; [exact HQ | exact F].
Qed.

Lemma appends_still {A} (Q : vendor_op -> Prop) (m : M A) :
  (forall w, w_trace (snd (m w)) = w_trace w) -> appends Q m.
Proof.
  intros H w. exists []. rewrite app_nil_r. split; [apply H | constructor].
Qed.

Lemma appends_ret {A} (Q : vendor_op -> Prop) (a : A) : appends Q (ret a).
Proof. apply appends_still. reflexivity. Qed.

Lemma appends_raise {A} (Q : vendor_op -> Prop) (c : exn_class) (msg : string) :
  appends Q (@raise A c msg).
Proof. apply appends_still. reflexivity. Qed.

Lemma appends_lift {A} (Q : vendor_op -> Prop) (r : res A) : appends Q (lift r).
Proof. apply appends_still. reflexivity. Qed.

Lemma appends_http (Q : vendor_op -> Prop) (env : Env) (op : vendor_op) :
  Q op -> appends Q (http env op).
Proof.
  intros HQ w. exists [op]. split; [reflexivity | constructor; [exact HQ | constructor]].
Qed.

Lemma appends_bind {A B} (Q : vendor_op -> Prop) (m : M A) (k : A -> M B) :
  appends Q m ->
  (forall a w w', m w = (Ok a, w') -> appends Q (k a)) ->
  appends Q (bind m k).
Proof.
  intros Hm Hk w. destruct (Hm w) as (ops & E & F). unfold bind.
  destruct (m w) as [[a|e] w1] eqn:Em; cbn [snd] in E.
  - destruct (Hk a w w1 Em w1) as (ops' & E' & F').
    exists (ops ++ ops')%list. split; [|apply Forall_app; split; assumption].
    rewrite E', E, app_assoc. reflexivity.
  - exists ops. split; assumption.
Qed.

Lemma appends_try_except {A} (Q : vendor_op -> Prop) (m : M A) (h : exn -> M A) :
  appends Q m -> (forall e, appends Q (h e)) -> appends Q (try_except m h).
Proof.
  intros Hm Hh w. destruct (Hm w) as (ops & E & F). unfold try_except.
  destruct (m w) as [[a|e] w1]; cbn [snd] in E.
  - exists ops. split; assumption.
  - destruct (Hh e w1) as (ops' & E' & F').
    exists (ops ++ ops')%list. split; [|apply Forall_app; split; assumption].
    rewrite E', E, app_assoc. reflexivity.
Qed.

Lemma appends_try_finally {A} (Q : vendor_op -> Prop) (m : M A) (c : World -> World) :
  appends Q m -> (forall w, w_trace (c w) = w_trace w) -> appends Q (try_finally m c).
Proof.
  intros Hm Hc w. destruct (Hm w) as (ops & E & F). unfold try_finally.
  destruct (m w) as [r w1]. cbn [snd] in *. exists ops. rewrite Hc. split; assumption.
Qed.

Lemma appends_log (Q : vendor_op -> Prop) (env : Env) (msg : string) :
  appends Q (log env msg).
Proof. apply appends_still. reflexivity. Qed.

Lemma appends_fresh (Q : vendor_op -> Prop) (env : Env) : appends Q (fresh_uuid_hex env).
Proof. apply appends_still. reflexivity. Qed.

Lemma appends_open_rb (Q : vendor_op -> Prop) (p : json) : appends Q (open_rb p).
Proof. apply appends_still. intros w. rewrite open_rb_world. reflexivity. Qed.

Lemma appends_open_wb (Q : vendor_op -> Prop) (env : Env) (p : string) :
  appends Q (open_wb env p).
Proof.
  apply appends_still. intros w. unfold open_wb.
  destruct (creatable env (Fs.path_str p)); reflexivity.
Qed.

Lemma appends_write_file (Q : vendor_op -> Prop) (p c : string) :
  appends Q (write_file p c).
Proof. apply appends_still. reflexivity. Qed.

Lemma cleanup_trace (paths : list json) :
  forall w, w_trace (cleanup paths w) = w_trace w.
Proof.
  induction paths as [|p rest IH]; intros w; [reflexivity|].
  cbn [cleanup]. rewrite IH.
  destruct p; try reflexivity.
  destruct (andb _ _); reflexivity.
Qed.

(** Composing the lemmas above along the binds of a computation. *)
Ltac appends_steps :=
  repeat first
    [ apply appends_ret
    | apply appends_raise
    | apply appends_lift
    | apply appends_log
    | apply appends_fresh
    | apply appends_open_rb
    | apply appends_open_wb
    | apply appends_write_file
    | apply appends_http; cbn; tauto
    | apply appends_bind; [|intros ? ? ? ?]
    | apply appends_try_except; [|intros ?]
    | match goal with
      | |- appends _ (if ?b then _ else _) => destruct b
      | |- appends _ (match ?x with _ => _ end) => destruct x
      end ].

Lemma appends_save_media (Q : vendor_op -> Prop) (env : Env) (token p : json)
      (b : option string) :
  (forall n c, Q (OpSaveMedia token n c)) -> appends Q (save_media env token p b).
Proof.
  intros HQ. unfold save_media.
  repeat first
    [ apply appends_ret | apply appends_raise | apply appends_lift | apply appends_fresh
    | apply appends_open_rb | apply appends_http; apply HQ
    | apply appends_bind; [|intros ? ? ? ?]
    | match goal with
      | |- appends _ (if ?b then _ else _) => destruct b
      end ].
Qed.

Lemma appends_upload_images (Q : vendor_op -> Prop) (env : Env)
      (token ro labor item : json) (paths : list json) :
  (forall op, image_op op -> Q op) ->
  forall blobs errs, appends Q (upload_images env token ro labor item paths blobs errs).
Proof.
  intros HQ. induction paths as [|p rest IH]; intros blobs errs; cbn [upload_images].
  - apply appends_ret.
  - apply appends_bind.
    + apply appends_try_except;
        [|intros e; cbv zeta; apply appends_bind;
          [apply appends_log | intros; apply appends_ret]].
      apply appends_bind; [|intros; apply appends_ret].
      unfold upload_and_attach.
      apply appends_bind; [apply appends_save_media; intros; apply HQ; exact I|].
      intros blob w w' _.
      apply appends_bind; [|intros; apply appends_ret].
      unfold save_checklist_image_cloud.
      apply appends_bind; [apply appends_http; apply HQ; exact I|].
      intros r ? ? _. destruct (negb (resp_ok r)); [apply appends_raise | apply appends_ret].
    + intros [blob|msg] w w' _; apply IH.
Qed.

Lemma appends_decode_images (Q : vendor_op -> Prop) (env : Env) (imgs : list json) :
  appends Q (decode_images env imgs).
Proof.
  induction imgs as [|img rest IH]; cbn [decode_images]; [apply appends_ret|].
  apply appends_bind.
  - apply appends_try_except;
      [|intros e; apply appends_bind; [apply appends_log | intros; apply appends_ret]].
    unfold decode_image. appends_steps.
  - intros r w w' _. apply appends_bind; [exact IH | intros; apply appends_ret].
Qed.

Lemma appends_stage_files (Q : vendor_op -> Prop) (env : Env) (fs : list (string * upload)) :
  appends Q (stage_files env fs).
Proof.
  induction fs as [|[k f] rest IH]; cbn [stage_files]; [apply appends_ret|].
  destruct (String.eqb (up_filename f) ""); [exact IH|].
  appends_steps. exact IH.
Qed.

Lemma appends_resolve (Q : vendor_op -> Prop) (env : Env) (token ro : json) :
  (forall t r, Q (OpGetRODetail t r)) ->
  (forall t l, Q (OpGetCheckListItems t l)) ->
  appends Q (resolve_iso_labor_and_item env token ro).
Proof.
  intros H1 H2. unfold resolve_iso_labor_and_item, get_ro_detail, get_checklist_items.
  repeat first
    [ apply appends_ret | apply appends_raise | apply appends_lift
    | apply appends_http; first [apply H1 | apply H2]
    | apply appends_bind; [|intros ? ? ? ?]
    | match goal with
      | |- appends _ (if ?b then _ else _) => destruct b
      end ].
Qed.

Lemma still_trace {A} (m : M A) :
  appends (fun _ => False) m -> forall w, w_trace (snd (m w)) = w_trace w.
Proof.
  intros H w. destruct (H w) as (ops & E & F).
  rewrite (Forall_nil_False ops F), app_nil_r in E. exact E.
Qed.

Lemma image_op_allowed (f1 f2 : bool) (op : vendor_op) :
  image_op op -> allowed_after_login f1 f2 op.
Proof. destruct op; cbn; tauto. Qed.

Lemma iso_try_shape (env : Env) (data ro title comments : json) (paths : list json)
      (f1 f2 : bool) (w : World) :
  exists rest,
    w_trace (snd (iso_inspection_try env data ro title comments paths f1 f2 w))
    = (w_trace w ++ OpLogin :: rest)%list
    /\ Forall (allowed_after_login f1 f2) rest.
Proof.
  unfold iso_inspection_try. unfold bind at 1.
  pose proof (dvi_login_world env w) as W.
  destruct (dvi_login env w) as [[token|e] w1]; cbn [snd] in W; subst w1.
  2: { exists []. split; [reflexivity | constructor]. }
  match goal with
  | |- context [snd (?k (sent OpLogin w))] =>
      assert (H : appends (allowed_after_login f1 f2) k)
  end.
  { apply appends_bind;
      [apply appends_resolve; intros; exact I | intros ids ? ? _].
    apply appends_bind; [apply appends_log | intros ? ? ? _].
    apply appends_bind;
      [apply appends_upload_images; apply image_op_allowed | intros up ? ? _].
    apply appends_bind; [apply appends_lift | intros c ? ? _].
    apply appends_bind.
    { unfold save_checklist. apply appends_bind; [apply appends_http; exact I|].
      intros r ? ? _. destruct (negb (resp_ok r)); [apply appends_raise | apply appends_ret]. }
    intros checklist ? ? _.
    apply appends_bind.
    { destruct f1; [|apply appends_ret].
      apply appends_bind; [|intros; apply appends_ret].
      unfold change_status.
      apply appends_bind; [apply appends_http; left; split; reflexivity|].
      intros r ? ? _. apply appends_bind; [apply appends_lift | intros; apply appends_ret]. }
    intros started ? ? _.
    apply appends_bind; [|intros; apply appends_ret].
    destruct f2; [|apply appends_ret].
    apply appends_bind; [|intros; apply appends_ret].
    unfold change_status.
    apply appends_bind; [apply appends_http; right; split; reflexivity|].
    intros r ? ? _. apply appends_bind; [apply appends_lift | intros; apply appends_ret]. }
  destruct (H (sent OpLogin w)) as (rest & E & F).
  exists rest. split; [|exact F].
  rewrite E. cbn [sent w_trace]. rewrite <- app_assoc. reflexivity.
Qed.

(** X13: whatever the request and whatever the vendor answers, the ISO
    inspection endpoint of the final server sends either nothing (the
    request is turned down, or read with an error, before login) or a
    login followed by requests among which there is no second login, no
    [SetROStatus], and no status change but the one to "3", when
    [move_to_start] is on, and the one to "4", when [move_to_complete]
    is on. *)
Theorem X13_iso_inspection_requests (env : Env) (req : request) (w : World) :
  exists ops,
    w_trace (snd (dvi_iso_inspection env req w)) = (w_trace w ++ ops)%list
    /\ (ops = []
        \/ exists rest,
             ops = OpLogin :: rest
             /\ Forall (allowed_after_login (start_flag req) (complete_flag req)) rest).
Proof.
  unfold dvi_iso_inspection. fold (is_multipart req).
  change (if is_multipart req
          then JObj (map (fun kv => (fst kv, JStr (snd kv))) (multidict_items (form req)))
          else json_or_empty req) with (request_data req).
  unfold start_flag, complete_flag.
  generalize (request_data req). intros data.
  assert (Hnone : forall r : res response * World,
             w_trace (snd r) = w_trace w ->
             exists ops, w_trace (snd r) = (w_trace w ++ ops)%list
                         /\ (ops = []
                             \/ exists rest,
                                  ops = OpLogin :: rest
                                  /\ Forall (allowed_after_login
                                               (flag_is_true
                                                  (field_or data "move_to_start" (JStr "true")))
                                               (flag_is_true
                                                  (field_or data "move_to_complete"
                                                            (JStr "true")))) rest)).
  { intros r E. exists []. rewrite app_nil_r. split; [exact E | left; reflexivity]. }
  destruct data as [| | | | |kvs]; try (apply Hnone; reflexivity).
  rewrite bind_lift, get_field_or.
  destruct (Py.truthy (field_or (JObj kvs) "ro_number" JNull)); cbn [negb];
    [|apply Hnone; reflexivity].
  rewrite bind_lift, get_field_or, bind_lift, get_field_or.
  unfold bind at 1.
  pose proof (still_trace _ (appends_stage_files (fun _ => False) env
                               (if is_multipart req then multidict_items (files req)
                                else [])) w) as W1.
  destruct (stage_files env (if is_multipart req then multidict_items (files req) else []) w)
    as [[staged|e] w1]; cbn [snd] in W1; [|apply Hnone; exact W1].
  rewrite bind_lift, get_field_or, bind_lift, get_field_or.
  unfold bind at 1.
  match goal with
  | |- context [match ?m w1 with _ => _ end] =>
      assert (W2 : w_trace (snd (m w1)) = w_trace w1);
      [ destruct (field_or (JObj kvs) "images_base64" (JArr []));
        try reflexivity;
        apply (still_trace _ (appends_decode_images (fun _ => False) env _))
      | destruct (m w1) as [[decoded|e] w2] ]
  end; cbn [snd] in W2.
  2: { apply Hnone. cbn [snd]. congruence. }
  rewrite bind_lift, get_field_or, bind_lift, get_field_or.
  unfold bind at 1.
  match goal with
  | |- context [log env ?msg w2] =>
      pose proof (log_world env msg w2) as WL;
      destruct (log env msg w2) as [[[]|e] w2']
  end; cbn [snd] in WL; subst w2'.
  2: { apply Hnone. cbn [snd]. congruence. }
  unfold try_finally, try_except.
  match goal with
  | |- context [iso_inspection_try env ?d ?ro ?t ?c ?ps ?f1 ?f2 w2] =>
      destruct (iso_try_shape env d ro t c ps f1 f2 w2) as (rest & E & F);
      destruct (iso_inspection_try env d ro t c ps f1 f2 w2) as [[r|e] w3]
  end; cbn [snd] in E.
  - cbn [snd]. rewrite cleanup_trace.
    exists (OpLogin :: rest).
    split; [congruence | right; exists rest; split; [reflexivity | exact F]].
  - unfold bind, log. destruct (stdout env w3 _) as [[]|e']; cbn [ret snd];
      rewrite cleanup_trace;
      exists (OpLogin :: rest);
      (split; [congruence | right; exists rest; split; [reflexivity | exact F]]).
Qed.

(** ** The status moves and their flags *)











(** With [move_to_start] spelled "1" the final server sends no status
    change to "3". *)
Example flag_one_skips_start :
  w_trace (snd (dvi_iso_inspection Demo.env Demo.flag_one Demo.world))
  = [ OpLogin;
      OpSaveChecklist (JStr "tok-1") (JStr "12345") Demo.config_labor Demo.config_item
                      (JStr "Failed Inspection") (JStr "Brake pads worn") "R";
      OpChangeStatus (JStr "tok-1") (JStr "12345") "4" "R" ].
Proof. reflexivity. Qed.

Lemma dvi_login_run (env : Env) (w : World) :
  fst (dvi_login env w)
  = match vendor env (w_trace w) OpLogin with
    | Raise e => Raise e
    | Ok r =>
        match raise_for_status r with
        | Raise e => Raise e
        | Ok _ =>
            match json_body r with
            | Raise e => Raise e
            | Ok data => getitem_str data "Token"
            end
        end
    end.
Proof.
  unfold dvi_login. unfold bind at 1. rewrite http_run.
  destruct (vendor env (w_trace w) OpLogin) as [r|e]; [|reflexivity].
  rewrite bind_lift.
  destruct (raise_for_status r) as [[]|e]; [|reflexivity].
  rewrite bind_lift. destruct (json_body r) as [data|e]; reflexivity.
Qed.

Lemma dvi_login_trace_only (env : Env) (w w0 : World) :
  w_trace w0 = w_trace w -> fst (dvi_login env w0) = fst (dvi_login env w).
Proof. intros E. rewrite !dvi_login_run, E. reflexivity. Qed.

(** X14: when login fails and the handler's log lines are printed, the
    ISO inspection endpoint answers a JSON request 500 with the text of
    the login error, and login is the only request it has sent: no image
    is uploaded, no checklist written, no status changed. *)
Theorem X14_iso_inspection_login_failure (env : Env) (req : request)
        (kvs : list (string * json)) (w : World) (e : exn) :
  quiet env ->
  is_multipart req = false ->
  json_or_empty req = JObj kvs ->
  Py.truthy (field_or (JObj kvs) "ro_number" JNull) = true ->
  fst (dvi_login env w) = Raise e ->
  fst (dvi_iso_inspection env req w) = Ok (Response 500 (error_body (exn_msg e)))
  /\ w_trace (snd (dvi_iso_inspection env req w)) = (w_trace w ++ [OpLogin])%list.
Proof.
  intros Q Hm Hd Hro Hl.
  rewrite (iso_inspection_json env req kvs w Hm Hd Hro).
  destruct (decode_step_total env (field_or (JObj kvs) "images_base64" (JArr [])) w Q)
    as (decoded & w1 & T).
  assert (W1 : w_trace w1 = w_trace w).
  { destruct (field_or (JObj kvs) "images_base64" (JArr []));
      try (inversion T; reflexivity).
    pose proof (still_trace _ (appends_decode_images (fun _ => False) env l) w) as W.
    rewrite T in W. exact W. }
  rewrite (bind_ok _ _ _ _ _ T). cbv zeta.
  rewrite (bind_log env _ _ w1 Q). unfold try_finally.
  pose proof (dvi_login_trace_only env w w1 W1) as Ht. rewrite Hl in Ht.
  pose proof (dvi_login_world env w1) as Ww.
  destruct (dvi_login env w1) as [rl wl] eqn:El. cbn [fst snd] in Ht, Ww. subst rl wl.
  rewrite (try_except_raise _ _ w1 (sent OpLogin w1) e)
    by (unfold iso_inspection_try; rewrite (bind_raise _ _ _ _ _ El); reflexivity).
  rewrite (bind_log env _ _ _ Q).
  cbn [ret fst snd]. split; [reflexivity|].
  rewrite cleanup_trace. cbn [sent w_trace]. rewrite W1. reflexivity.
Qed.

Lemma X14_iso_inspection_login_failure_witness :
  fst (dvi_iso_inspection
         (MkEnv (fun _ op => Ok (Demo.server_error op)) Demo.uuid4_hex Demo.creatable
                JNull JNull Demo.stdout_ok)
         Demo.two_images Demo.world)
  = Ok (Response 500
          (error_body ("500 Server Error: Internal Server Error for url: "
                         ++ "https://dviapi.rowriter.com/login"))).
Proof.
  apply (proj1 (X14_iso_inspection_login_failure
                  (MkEnv (fun _ op => Ok (Demo.server_error op)) Demo.uuid4_hex
                         Demo.creatable JNull JNull Demo.stdout_ok)
                  Demo.two_images
                  [("ro_number", JStr "12345"); ("comments", JStr "Brake pads worn");
                   ("image_paths", JArr [JStr "photo1.jpg"; JStr "photo2.jpg"])]
                  Demo.world
                  (Exn HTTPError ("500 Server Error: Internal Server Error for url: "
                                    ++ "https://dviapi.rowriter.com/login"))
                  (fun _ _ => eq_refl) eq_refl eq_refl eq_refl eq_refl)).
Defined.

(** X15: the identifier resolution touches neither files nor the uuid
    counter, and sends nothing when both static identifiers are set,
    returning them as they are; otherwise it sends the RO detail request,
    and after it at most one checklist request, for a truthy labor id. *)
Theorem X15_resolution_requests (env : Env) (token ro_number : json) (w : World) :
  (exists ops,
      snd (resolve_iso_labor_and_item env token ro_number w)
      = MkWorld (w_trace w ++ ops) (w_files w) (w_uuids w)
      /\ (ops = []
          \/ ops = [OpGetRODetail token ro_number]
          \/ exists labor_id,
               Py.truthy labor_id = true
               /\ ops = [OpGetRODetail token ro_number;
                         OpGetCheckListItems token labor_id]))
  /\ (static_ids env = true ->
      resolve_iso_labor_and_item env token ro_number w
      = (Ok (ISO_LABOR_ID env, ISO_ITEM_ID env), w))
  /\ (static_ids env = false ->
      exists ops,
        w_trace (snd (resolve_iso_labor_and_item env token ro_number w))
        = (w_trace w ++ OpGetRODetail token ro_number :: ops)%list).
Proof.
  split; [|split].
  - apply (resolve_worlds env token ro_number w
             (fun w' => exists ops,
                  w' = MkWorld (w_trace w ++ ops) (w_files w) (w_uuids w)
                  /\ (ops = []
                      \/ ops = [OpGetRODetail token ro_number]
                      \/ exists labor_id,
                           Py.truthy labor_id = true
                           /\ ops = [OpGetRODetail token ro_number;
                                     OpGetCheckListItems token labor_id]))).
    + exists []. rewrite app_nil_r. destruct w. split; [reflexivity | left; reflexivity].
    + exists [OpGetRODetail token ro_number].
      split; [reflexivity | right; left; reflexivity].
    + intros l Hl. exists [OpGetRODetail token ro_number; OpGetCheckListItems token l].
      split; [|right; right; exists l; split; [exact Hl | reflexivity]].
      unfold sent. cbn [w_trace w_files w_uuids]. rewrite <- app_assoc. reflexivity.
  - apply resolve_static.
  - intros Hs. unfold resolve_iso_labor_and_item. fold (static_ids env). rewrite Hs.
    match goal with
    | |- context [bind ?m ?k w] =>
        pose proof (get_ro_detail_world env token ro_number w) as W;
        unfold bind at 1;
        destruct (get_ro_detail env token ro_number w) as [[d|e] w1]; cbn [snd] in W; subst w1
    end.
    + match goal with
      | |- context [snd (?k (sent ?op w))] =>
          assert (H : appends (fun _ => True) k)
      end.
      { unfold get_checklist_items.
        repeat first
          [ apply appends_ret | apply appends_raise | apply appends_lift
          | apply appends_http; exact I
          | apply appends_bind; [|intros ? ? ? ?]
          | match goal with
            | |- appends _ (if ?b then _ else _) => destruct b
            end ]. }
      destruct (H (sent (OpGetRODetail token ro_number) w)) as (ops & E & _).
      exists ops. rewrite E. cbn [sent w_trace]. rewrite <- app_assoc. reflexivity.
    + exists []. reflexivity.
Qed.

Lemma X15_resolution_witness :
  resolve_iso_labor_and_item Demo.env (JStr "tok-1") (JStr "12345") Demo.world
  = (Ok (Demo.config_labor, Demo.config_item), Demo.world).
Proof.
  apply (proj1 (proj2 (X15_resolution_requests Demo.env (JStr "tok-1") (JStr "12345")
                         Demo.world)) eq_refl).
Defined.

(** ** Decoding and uploading images *)

Lemma decode_images_spec (env : Env) (imgs : list json) :
  forall w,
    match fst (decode_images env imgs w) with
    | Ok decoded => length decoded <= length imgs
                    /\ Forall (fun p => Py.is_str p = true) decoded
    | Raise e => exists w0 msg, stdout env w0 msg = Raise e
    end.
Proof.
  induction imgs as [|img rest IH]; intros w.
  - cbn. split; [apply le_n | constructor].
  - cbn [decode_images]. unfold bind at 1, try_except.
    assert (K : forall (r : option string) (w1 : World),
               match fst (bind (decode_images env rest)
                               (fun decoded =>
                                  ret (match r with
                                       | Some p => JStr p :: decoded
                                       | None => decoded
                                       end)) w1) with
               | Ok decoded => length decoded <= S (length rest)
                               /\ Forall (fun p => Py.is_str p = true) decoded
               | Raise e => exists w0 msg, stdout env w0 msg = Raise e
               end).
    { intros r w1. unfold bind. specialize (IH w1).
      destruct (decode_images env rest w1) as [[d|e] w2]; cbn [fst ret] in *; [|exact IH].
      destruct IH as [L F]. destruct r as [p|]; cbn [length].
      - split; [lia | constructor; [reflexivity | exact F]].
      - split; [lia | exact F]. }
    destruct (decode_image env img w) as [[r|e] w1]; [exact (K r w1)|].
    destruct (stdout env w1 ("Base64 decode error: " ++ exn_msg e)) as [[]|e'] eqn:P.
    + replace (bind (log env ("Base64 decode error: " ++ exn_msg e))
                    (fun _ => ret (@None string)) w1)
        with (@Ok (option string) None, w1)
        by (unfold bind, log; rewrite P; reflexivity).
      exact (K None w1).
    + replace (bind (log env ("Base64 decode error: " ++ exn_msg e))
                    (fun _ => ret (@None string)) w1)
        with (@Raise (option string) e', w1)
        by (unfold bind, log; rewrite P; reflexivity).
      cbn [fst]. eauto.
Qed.

(** X16: decoding the base64 images sends nothing to the vendor and,
    whatever the entries are, raises nothing but what printing the log
    line of a failed entry raised; so with every line printed it never
    raises.  When it returns, it returns at most one path per entry,
    each a string. *)
Theorem X16_decode_images_never_raises (env : Env) (imgs : list json) (w : World) :
  w_trace (snd (decode_images env imgs w)) = w_trace w
  /\ only_print_raises env (fst (decode_images env imgs w))
  /\ (forall decoded w',
         decode_images env imgs w = (Ok decoded, w') ->
         length decoded <= length imgs
         /\ Forall (fun p => Py.is_str p = true) decoded)
  /\ (quiet env -> exists decoded w', decode_images env imgs w = (Ok decoded, w')).
Proof.
  pose proof (decode_images_spec env imgs w) as S.
  split; [apply (still_trace _ (appends_decode_images (fun _ => False) env imgs))|].
  split; [|split].
  - destruct (fst (decode_images env imgs w)); [exact I | exact S].
  - intros decoded w' E. rewrite E in S. exact S.
  - intros Q. apply decode_images_total. exact Q.
Qed.

Lemma image_effect_refl (n : nat) (w : World) : image_effect n w w.
Proof.
  exists []. rewrite app_nil_r. repeat split; [constructor | cbn; lia].
Qed.

Lemma image_effect_trans (n n' : nat) (w w1 w2 : World) :
  image_effect n w w1 -> image_effect n' w1 w2 -> image_effect (n + n') w w2.
Proof.
  intros (o1 & E1 & F1 & L1 & K1) (o2 & E2 & F2 & L2 & K2).
  exists (o1 ++ o2)%list. repeat split.
  - rewrite E2, E1, app_assoc. reflexivity.
  - apply Forall_app. split; assumption.
  - rewrite length_app. lia.
  - congruence.
Qed.

Lemma image_effect_sent (op : vendor_op) (w : World) :
  image_op op -> image_effect 1 w (sent op w).
Proof.
  intros H. exists [op]. repeat split; [constructor; [exact H | constructor] | cbn; lia].
Qed.

Lemma image_effect_drawn (w : World) : image_effect 0 w (drawn w).
Proof.
  exists []. cbn [drawn w_trace w_files]. rewrite app_nil_r.
  repeat split; [constructor | cbn; lia].
Qed.

Lemma save_media_effect (env : Env) (token p : json) (b : option string) (w : World) :
  image_effect 1 w (snd (save_media env token p b w)).
Proof.
  unfold save_media.
  destruct (andb _ _); [apply image_effect_refl|].
  unfold bind at 1. cbn [fresh_uuid_hex]. fold (drawn w).
  assert (D : image_effect 1 w (drawn w)).
  { apply (image_effect_trans 0 1 w (drawn w) (drawn w));
      [apply image_effect_drawn | apply image_effect_refl]. }
  unfold bind at 1.
  match goal with
  | |- context [match ?m (drawn w) with _ => _ end] =>
      assert (W : snd (m (drawn w)) = drawn w);
      [ destruct (Py.truthy p); [apply open_rb_world | reflexivity]
      | destruct (m (drawn w)) as [[content|e] w1]; cbn [snd] in W; subst w1 ]
  end; [|exact D].
  unfold bind at 1. rewrite http_run.
  assert (S : image_effect 1 w
                (sent (OpSaveMedia token (uuid4_hex env (w_uuids w) ++ ".jpg") content)
                      (drawn w))).
  { apply (image_effect_trans 0 1 w (drawn w));
      [apply image_effect_drawn | apply image_effect_sent; exact I]. }
  destruct (vendor env (w_trace (drawn w)) _) as [r|e]; [|exact S].
  rewrite bind_lift. destruct (raise_for_status r) as [[]|e]; [|exact S].
  rewrite bind_lift. destruct (json_body r) as [j|e]; [|exact S].
  exact S.
Qed.

Lemma save_checklist_image_cloud_world (env : Env) (token ro labor item : json)
      (blob ro_type : string) (w : World) :
  snd (save_checklist_image_cloud env token ro labor item blob ro_type w)
  = sent (OpSaveChecklistImageCloud token ro labor item blob ro_type) w.
Proof.
  unfold save_checklist_image_cloud, bind. rewrite http_run.
  destruct (vendor env (w_trace w) _) as [r|e]; [|reflexivity].
  destruct (negb (resp_ok r)); reflexivity.
Qed.

Lemma upload_and_attach_effect (env : Env) (token ro labor item p : json) (w : World) :
  image_effect 2 w (snd (upload_and_attach env token ro labor item p w)).
Proof.
  unfold upload_and_attach. unfold bind at 1.
  pose proof (save_media_effect env token p None w) as S.
  destruct (save_media env token p None w) as [[blob|e] w1]; cbn [snd] in S.
  - unfold bind at 1.
    pose proof (save_checklist_image_cloud_world env token ro labor item blob "R" w1) as W.
    destruct (save_checklist_image_cloud env token ro labor item blob "R" w1)
      as [[j|e] w2]; cbn [snd] in W; subst w2; cbn [snd ret];
      apply (image_effect_trans 1 1 w w1); try exact S;
      apply image_effect_sent; exact I.
  - apply (image_effect_trans 1 1 w w1); [exact S | apply image_effect_refl].
Qed.

Lemma upload_images_effect (env : Env) (token ro labor item : json) (paths : list json) :
  forall blobs errs w,
    image_effect (2 * length paths) w
                 (snd (upload_images env token ro labor item paths blobs errs w))
    /\ match fst (upload_images env token ro labor item paths blobs errs w) with
       | Ok (blobs', errs') =>
           length blobs' + length errs' = length blobs + length errs + length paths
       | Raise e => exists w0 msg, stdout env w0 msg = Raise e
       end.
Proof.
  induction paths as [|p rest IH]; intros blobs errs w.
  - cbn [upload_images ret fst snd]. split; [apply image_effect_refl | cbn; lia].
  - cbn [upload_images].
    replace (2 * length (p :: rest)) with (2 + 2 * length rest) by (cbn; lia).
    pose proof (upload_and_attach_effect env token ro labor item p w) as U.
    destruct (upload_and_attach env token ro labor item p w) as [[blob|e] w1] eqn:E;
      cbn [snd] in U.
    + rewrite !(bind_ok _ _ w w1 (inl blob))
        by (apply try_except_ok; rewrite (bind_ok _ _ _ _ _ E); reflexivity).
      destruct (IH (blobs ++ [blob])%list errs w1) as [F L].
      split; [exact (image_effect_trans _ _ _ _ _ U F)|].
      destruct (fst (upload_images env token ro labor item rest (blobs ++ [blob]) errs w1))
        as [[b' e']|e']; [|exact L].
      rewrite L, length_app. cbn. lia.
    + destruct (stdout env w1 (upload_error p e)) as [[]|e'] eqn:P.
      * rewrite !(bind_ok _ _ w w1 (inr (upload_error p e)))
          by (rewrite (try_except_raise _ _ w w1 e)
                by (rewrite (bind_raise _ _ _ _ _ E); reflexivity);
              cbv zeta; unfold bind, log; rewrite P; reflexivity).
        destruct (IH blobs (errs ++ [upload_error p e])%list w1) as [F L].
        split; [exact (image_effect_trans _ _ _ _ _ U F)|].
        destruct (fst (upload_images env token ro labor item rest blobs
                                     (errs ++ [upload_error p e]) w1))
          as [[b' e'']|e'']; [|exact L].
        rewrite L, length_app. cbn. lia.
      * rewrite !(bind_raise _ _ w w1 e')
          by (rewrite (try_except_raise _ _ w w1 e)
                by (rewrite (bind_raise _ _ _ _ _ E); reflexivity);
              cbv zeta; unfold bind, log; rewrite P; reflexivity).
        cbn [fst snd]. split; [|eauto].
        apply (image_effect_trans 2 (2 * length rest) w w1 w1 U), image_effect_refl.
Qed.

(** X17: the upload loop never touches a file and sends, for every
    image, at most two requests, the upload and the attachment, and
    nothing else; it raises nothing but what printing the log line of a
    failed image raised, so with every line printed it never raises;
    when it returns it has added to [blobs] and [upload_errors] one
    entry for every image. *)
Theorem X17_upload_loop (env : Env) (token ro labor item : json) (paths : list json)
        (blobs errs : list string) (w : World) :
  image_effect (2 * length paths) w
               (snd (upload_images env token ro labor item paths blobs errs w))
  /\ only_print_raises env (fst (upload_images env token ro labor item paths blobs errs w))
  /\ (forall blobs' errs' w',
         upload_images env token ro labor item paths blobs errs w = (Ok (blobs', errs'), w') ->
         length blobs' + length errs' = length blobs + length errs + length paths)
  /\ (quiet env ->
      exists blobs' errs' w',
        upload_images env token ro labor item paths blobs errs w = (Ok (blobs', errs'), w')).
Proof.
  destruct (upload_images_effect env token ro labor item paths blobs errs w) as [F S].
  split; [exact F|]. split; [|split].
  - destruct (fst (upload_images env token ro labor item paths blobs errs w)) as [[b e]|e];
      [exact I | exact S].
  - intros blobs' errs' w' E. rewrite E in S. exact S.
  - intros Q. rewrite (upload_images_spec env token ro labor item paths Q blobs errs w).
    eexists. eexists. eexists. reflexivity.
Qed.

(** ** Temporary files: staging and cleanup *)

Lemma lookup_remove (p q : string) (fs : list (string * string)) :
  Fs.lookup q (Fs.remove p fs) = if String.eqb q p then None else Fs.lookup q fs.
Proof.
  induction fs as [|[k c] fs IH]; cbn [Fs.remove Fs.lookup filter fst].
  - destruct (String.eqb q p); reflexivity.
  - fold (Fs.remove p fs).
    destruct (String.eqb_spec p k) as [<-|Hpk]; cbn [negb].
    + rewrite IH. destruct (String.eqb q p); reflexivity.
    + cbn [Fs.lookup]. rewrite IH.
      destruct (String.eqb_spec q k) as [->|Hqk]; [|reflexivity].
      destruct (String.eqb_spec k p) as [->|]; [contradiction | reflexivity].
Qed.

Lemma lookup_write (p q c : string) (fs : list (string * string)) :
  Fs.lookup q (Fs.write p c fs) = if String.eqb q p then Some c else Fs.lookup q fs.
Proof.
  unfold Fs.write. cbn [Fs.lookup]. rewrite lookup_remove.
  destruct (String.eqb q p); reflexivity.
Qed.

Lemma cleanup_step_removes (paths : list json) :
  forall w q c,
    Fs.lookup q (w_files (cleanup paths w)) = Some c -> Fs.lookup q (w_files w) = Some c.
Proof.
  induction paths as [|p rest IH]; intros w q c H; [exact H|].
  cbn [cleanup] in H. apply IH in H.
  destruct p; try exact H.
  destruct (andb _ _); [|exact H].
  cbn [w_files] in H. rewrite lookup_remove in H.
  destruct (String.eqb q (Fs.path_str s)); [discriminate | exact H].
Qed.

Lemma cleanup_removes_listed (paths : list json) :
  forall w s,
    In (JStr s) paths ->
    PyStr.startswith (Fs.path_name s) "tmp_" = true ->
    Fs.lookup (Fs.path_str s) (w_files (cleanup paths w)) = None.
Proof.
  induction paths as [|p rest IH]; intros w s Hin Hn; [contradiction|].
  cbn [cleanup]. destruct Hin as [->|Hin]; [|apply IH; assumption].
  destruct (Fs.lookup (Fs.path_str s) (w_files (cleanup rest _))) as [c|] eqn:E;
    [|reflexivity].
  apply cleanup_step_removes in E. rewrite Hn, andb_true_r in E.
  unfold Fs.exists_ in E.
  destruct (Fs.lookup (Fs.path_str s) (w_files w)) eqn:L.
  - cbn [w_files] in E. rewrite lookup_remove, String.eqb_refl in E. discriminate.
  - rewrite L in E. discriminate.
Qed.

Lemma cleanup_frame (paths : list json) :
  forall w q,
    (forall s, In (JStr s) paths -> Fs.path_str s <> q) ->
    Fs.lookup q (w_files (cleanup paths w)) = Fs.lookup q (w_files w).
Proof.
  induction paths as [|p rest IH]; intros w q H; [reflexivity|].
  cbn [cleanup]. rewrite IH by (intros s Hs; apply H; right; exact Hs).
  destruct p; try reflexivity.
  destruct (andb _ _); [|reflexivity].
  cbn [w_files]. rewrite lookup_remove.
  destruct (String.eqb_spec q (Fs.path_str s)) as [->|]; [|reflexivity].
  exfalso. apply (H s); [left; reflexivity | reflexivity].
Qed.

Lemma cleanup_uuids (paths : list json) :
  forall w, w_uuids (cleanup paths w) = w_uuids w.
Proof.
  induction paths as [|p rest IH]; intros w; [reflexivity|].
  cbn [cleanup]. rewrite IH.
  destruct p; try reflexivity.
  destruct (andb _ _); reflexivity.
Qed.

(** X18: the cleanup of the [finally] block only removes files: every
    listed path whose file name starts with "tmp_" is absent afterwards,
    be it a file the handler staged or one the caller listed in
    [image_paths]; a file that is still there was there before, with the
    same content; a file that no listed path names is left as it was;
    and no request is sent. *)
Theorem X18_cleanup (paths : list json) (w : World) :
  (forall s, In (JStr s) paths ->
             PyStr.startswith (Fs.path_name s) "tmp_" = true ->
             Fs.lookup (Fs.path_str s) (w_files (cleanup paths w)) = None)
  /\ (forall q c, Fs.lookup q (w_files (cleanup paths w)) = Some c ->
                  Fs.lookup q (w_files w) = Some c)
  /\ (forall q, (forall s, In (JStr s) paths -> Fs.path_str s <> q) ->
                Fs.lookup q (w_files (cleanup paths w)) = Fs.lookup q (w_files w))
  /\ w_trace (cleanup paths w) = w_trace w
  /\ w_uuids (cleanup paths w) = w_uuids w.
Proof.
  split; [intros s; apply cleanup_removes_listed|].
  split; [apply cleanup_step_removes|].
  split; [apply cleanup_frame|].
  split; [apply cleanup_trace | apply cleanup_uuids].
Qed.

(** *** Paths of staged files *)

Lemma contains_char_cons (c x : ascii) (s : string) :
  PyStr.contains (String c "") (String x s)
  = if Ascii.eqb c x then true else PyStr.contains (String c "") s.
Proof.
  cbn [PyStr.contains String.prefix].
  destruct (ascii_dec c x) as [->|ne].
  - rewrite Ascii.eqb_refl. destruct s; reflexivity.
  - apply Ascii.eqb_neq in ne. rewrite ne. reflexivity.
Qed.

Lemma contains_char_append (c : ascii) (a b : string) :
  PyStr.contains (String c "") (a ++ b)
  = orb (PyStr.contains (String c "") a) (PyStr.contains (String c "") b).
Proof.
  induction a as [|x a IH].
  - cbn [append]. destruct b; reflexivity.
  - cbn [append]. rewrite !contains_char_cons, IH.
    destruct (Ascii.eqb c x); reflexivity.
Qed.

Lemma split_no_sep (sep : ascii) (s : string) :
  PyStr.contains (String sep "") s = false -> Fs.split sep s = [s].
Proof.
  induction s as [|x s IH]; intros H; [reflexivity|].
  rewrite contains_char_cons in H.
  destruct (Ascii.eqb sep x) eqn:E; [discriminate|].
  cbn [Fs.split]. rewrite Ascii.eqb_sym, E, (IH H). reflexivity.
Qed.

Lemma tmp_name_slash_free (h tail : string) :
  PyStr.contains "/" h = false ->
  PyStr.contains "/" tail = false ->
  PyStr.contains "/" ("tmp_" ++ h ++ tail) = false.
Proof.
  intros Hh Ht.
  change "/" with (String "/"%char "") in *.
  rewrite !contains_char_append, Hh, Ht. reflexivity.
Qed.

Lemma tmp_path_normal (h tail : string) :
  PyStr.contains "/" h = false ->
  PyStr.contains "/" tail = false ->
  Fs.path_str ("./tmp_" ++ h ++ tail) = "tmp_" ++ h ++ tail
  /\ Fs.path_str ("tmp_" ++ h ++ tail) = "tmp_" ++ h ++ tail
  /\ PyStr.startswith (Fs.path_name ("tmp_" ++ h ++ tail)) "tmp_" = true.
Proof.
  intros Hh Ht.
  pose proof (tmp_name_slash_free h tail Hh Ht) as Hs.
  change "/" with (String "/"%char "") in Hs.
  assert (P1 : Fs.parts ("tmp_" ++ h ++ tail) = ["tmp_" ++ h ++ tail]).
  { unfold Fs.parts. rewrite (split_no_sep _ _ Hs). reflexivity. }
  assert (P2 : Fs.parts ("./tmp_" ++ h ++ tail) = ["tmp_" ++ h ++ tail]).
  { unfold Fs.parts.
    change ("./tmp_" ++ h ++ tail) with (String "." (String "/" ("tmp_" ++ h ++ tail))).
    cbn [Fs.split]. change (Ascii.eqb "." "/") with false.
    change (Ascii.eqb "/" "/") with true. cbv iota.
    rewrite (split_no_sep _ _ Hs). reflexivity. }
  unfold Fs.path_str, Fs.path_name. rewrite P1, P2.
  repeat split. cbn [last]. unfold PyStr.startswith. apply prefix_append.
Qed.

Lemma stage_files_paths (env : Env) (fs : list (string * upload)) :
  slash_free_uuids env ->
  forall w staged w',
    stage_files env fs w = (Ok staged, w') ->
    Forall (fun p => exists s, p = JStr s /\ Fs.path_str s = s
                               /\ PyStr.startswith (Fs.path_name s) "tmp_" = true)
           staged.
Proof.
  intros Hu. induction fs as [|[k f] rest IH]; intros w staged w' H.
  - inversion H. constructor.
  - cbn [stage_files] in H.
    destruct (String.eqb (up_filename f) ""); [exact (IH _ _ _ H)|].
    apply bind_inv in H as (h & w1 & Eh & H).
    cbn [fresh_uuid_hex] in Eh. inversion Eh; subst h w1. clear Eh.
    apply bind_inv in H as ([] & w2 & _ & H).
    apply bind_inv in H as ([] & w3 & _ & H).
    apply bind_inv in H as (st & w4 & Es & H).
    inversion H; subst. constructor; [|exact (IH _ _ _ Es)].
    destruct (tmp_path_normal (uuid4_hex env (w_uuids w)) ".jpg" (Hu _) eq_refl)
      as (N1 & N2 & N3).
    exists ("tmp_" ++ uuid4_hex env (w_uuids w) ++ ".jpg").
    split; [f_equal; exact N1|]. split; [exact N2 | exact N3].
Qed.

(** X19: when the identifiers drawn hold no slash, the uploaded files
    of a request were staged and the handler's log lines are printed,
    the ISO inspection endpoint returns an answer and none of the staged
    files is left on disk, whether the answer is a success or a
    failure. *)
Theorem X19_staged_uploads_removed (env : Env) (req : request)
        (kvs : list (string * json)) (w w1 : World) (staged : list json) :
  quiet env ->
  slash_free_uuids env ->
  request_data req = JObj kvs ->
  Py.truthy (field_or (JObj kvs) "ro_number" JNull) = true ->
  stage_files env (if is_multipart req then multidict_items (files req) else []) w
  = (Ok staged, w1) ->
  (exists r, fst (dvi_iso_inspection env req w) = Ok r)
  /\ Forall (fun p => exists s,
                 p = JStr s
                 /\ Fs.lookup s (w_files (snd (dvi_iso_inspection env req w))) = None)
            staged.
Proof.
  intros Q Hu Hd Hro Hs.
  rewrite (iso_inspection_run env req kvs w Hd Hro).
  rewrite (bind_ok _ _ _ _ _ Hs).
  destruct (decode_step_total env (field_or (JObj kvs) "images_base64" (JArr [])) w1 Q)
    as (decoded & w2 & T).
  rewrite (bind_ok _ _ _ _ _ T). cbv zeta.
  rewrite (bind_log env _ _ w2 Q).
  unfold try_finally.
  match goal with
  | |- context [try_except ?m ?h w2] =>
      assert (R : exists r w3, try_except m h w2 = (Ok r, w3));
      [ unfold try_except; destruct (m w2) as [[r|e] w3];
        [ exists r, w3; reflexivity
        | rewrite (bind_log env _ _ w3 Q); eexists; exists w3; reflexivity ]
      | destruct R as (r & w3 & R); rewrite R ]
  end.
  cbn [fst snd]. split; [exists r; reflexivity|].
  pose proof (stage_files_paths env _ Hu w staged w1 Hs) as P.
  apply Forall_forall. intros p Hin.
  destruct (proj1 (Forall_forall _ _) P p Hin) as (s & -> & N & T').
  exists s. split; [reflexivity|].
  rewrite <- N at 1. apply cleanup_removes_listed; [|exact T'].
  apply in_or_app. left. exact Hin.
Qed.

(** The log lines have to be printed: with standard output closed the
    handler raises at its first line, before the guarded part and its
    cleanup, and the staged upload stays on disk. *)
Example staged_upload_left_when_log_fails :
  fst (dvi_iso_inspection Demo.env_closed_stdout Demo.multipart_one Demo.world)
  = Raise (Exn OSError "[Errno 9] Bad file descriptor")
  /\ Fs.lookup "tmp_3f2a9c1e5b7d4e0fa1b2c3d4e5f60000.jpg"
               (w_files (snd (dvi_iso_inspection Demo.env_closed_stdout Demo.multipart_one
                                                  Demo.world)))
     = Some "JPEG-3".
Proof. split; reflexivity. Qed.

Lemma hex_digit_no_slash (k : nat) : Ascii.eqb "/" (Py.hex_digit (k mod 16)) = false.
Proof.
  pose proof (Nat.mod_upper_bound k 16 ltac:(discriminate)) as B.
  generalize dependent (k mod 16). intros m B.
  do 16 (destruct m as [|m]; [reflexivity|]). lia.
Qed.

Lemma demo_uuids_slash_free : slash_free_uuids Demo.env.
Proof.
  intros n. cbn [uuid4_hex Demo.env]. unfold Demo.uuid4_hex.
  change "/" with (String "/"%char "").
  rewrite contains_char_append, !contains_char_cons, !hex_digit_no_slash.
  reflexivity.
Qed.

Lemma X19_staged_uploads_witness :
  Fs.lookup "tmp_3f2a9c1e5b7d4e0fa1b2c3d4e5f60000.jpg"
            (w_files (snd (dvi_iso_inspection Demo.env Demo.multipart_one Demo.world)))
  = None.
Proof.
  destruct (X19_staged_uploads_removed Demo.env Demo.multipart_one
              [("ro_number", JStr "12345"); ("comments", JStr "Brake pads worn")]
              Demo.world
              (MkWorld [] (Fs.write "tmp_3f2a9c1e5b7d4e0fa1b2c3d4e5f60000.jpg" "JPEG-3"
                             (Fs.write "tmp_3f2a9c1e5b7d4e0fa1b2c3d4e5f60000.jpg" ""
                                (w_files Demo.world))) 1)
              [JStr "tmp_3f2a9c1e5b7d4e0fa1b2c3d4e5f60000.jpg"]
              demo_quiet demo_uuids_slash_free eq_refl eq_refl eq_refl) as [_ F].
  destruct (Forall_inv F) as (s & E & L). inversion E; subst s. exact L.
Defined.

(** ** The staging endpoint *)

Lemma error_answer_structured (msg : string) : structured (Response 500 (error_body msg)).
Proof.
  right. split; [right; reflexivity|]. split; [reflexivity | eexists; reflexivity].
Qed.

(** X20: [/dvi/upload_image] never contacts the vendor, and it answers
    with a structured answer unless printing the log line of a failure
    raised, so always when that line is printed; without a part named
    [file], or with one whose file name is empty, it answers 400 and
    writes nothing. *)
Theorem X20_upload_image_answers (env : Env) (req : request) (w : World) :
  w_trace (snd (dvi_upload_image env req w)) = w_trace w
  /\ match fst (dvi_upload_image env req w) with
     | Ok r => structured r
     | Raise e => exists w0 msg, stdout env w0 msg = Raise e
     end
  /\ (quiet env ->
      exists r w', dvi_upload_image env req w = (Ok r, w') /\ structured r)
  /\ (find (fun kf => String.eqb "file" (fst kf)) (files req) = None ->
      dvi_upload_image env req w = (Ok (Response 400 (error_body "No file part")), w))
  /\ (forall k f,
         find (fun kf => String.eqb "file" (fst kf)) (files req) = Some (k, f) ->
         up_filename f = EmptyString ->
         dvi_upload_image env req w = (Ok (Response 400 (error_body "Empty filename")), w)).
Proof.
  assert (S : match fst (dvi_upload_image env req w) with
              | Ok r => structured r
              | Raise e => exists w0 msg, stdout env w0 msg = Raise e
              end).
  { unfold dvi_upload_image, try_except.
    match goal with
    | |- context [match ?m w with _ => _ end] => destruct (m w) as [[r|e] w'] eqn:H
    end.
    - cbn [fst].
      destruct (find _ (files req)) as [[k f]|].
      + destruct (String.eqb (up_filename f) "").
        * inversion H. right. split; [left; reflexivity|].
          split; [reflexivity | eexists; reflexivity].
        * repeat (apply bind_inv in H as (? & ? & _ & H)).
          inversion H. left. split; reflexivity.
      + inversion H. right. split; [left; reflexivity|].
        split; [reflexivity | eexists; reflexivity].
    - unfold bind, log.
      destruct (stdout env w' ("/dvi/upload_image error: " ++ exn_msg e)) as [[]|e'] eqn:P;
        cbn [ret fst]; [apply error_answer_structured | eauto]. }
  split; [|split; [exact S|split; [|split]]].
  - unfold dvi_upload_image.
    match goal with
    | |- context [try_except ?m ?h w] =>
        apply (still_trace _ (appends_try_except (fun _ => False) m h
                 ltac:(destruct (find _ (files req)) as [[? ?]|]; appends_steps)
                 ltac:(intros; appends_steps)))
    end.
  - intros Q. destruct (dvi_upload_image env req w) as [[r|e] w']; cbn [fst] in S.
    + exists r, w'. split; [reflexivity | exact S].
    + destruct S as (w0 & msg & E). rewrite Q in E. discriminate.
  - intros Hf. unfold dvi_upload_image. rewrite Hf. reflexivity.
  - intros k f Hf He. unfold dvi_upload_image. rewrite Hf, He. reflexivity.
Qed.

Lemma save_media_sends_file (env : Env) (token : json) (path content : string)
      (b : option string) (w : World) :
  path <> EmptyString ->
  Fs.lookup (Fs.path_str path) (w_files w) = Some content ->
  w_trace (snd (save_media env token (JStr path) b w))
  = (w_trace w ++ [OpSaveMedia token (uuid4_hex env (w_uuids w) ++ ".jpg") content])%list.
Proof.
  intros Hne Hl. unfold save_media.
  assert (Ht : Py.truthy (JStr path) = true).
  { cbn [Py.truthy]. apply String.eqb_neq in Hne. rewrite Hne. reflexivity. }
  rewrite Ht. cbn [negb andb].
  unfold bind at 1. cbn [fresh_uuid_hex]. fold (drawn w).
  unfold bind at 1, open_rb. cbn [drawn w_files]. rewrite Hl.
  unfold bind at 1. rewrite http_run.
  destruct (vendor env _ _) as [r|e]; [|reflexivity].
  rewrite bind_lift. destruct (raise_for_status r) as [[]|e]; [|reflexivity].
  rewrite bind_lift. destruct (json_body r) as [j|e]; reflexivity.
Qed.

(** X21: what [/dvi/upload_image] stages is what a later upload sends:
    when the identifiers drawn hold no slash and the file can be
    created, the endpoint answers 200 with a [temp_path] named
    "tmp_<uuid>.jpg", the file at that path holds the uploaded content,
    and [save_media] on that path sends this very content. *)
Theorem X21_upload_image_round_trip (env : Env) (req : request) (w : World)
        (k : string) (f : upload) (token : json) :
  slash_free_uuids env ->
  find (fun kf => String.eqb "file" (fst kf)) (files req) = Some (k, f) ->
  up_filename f <> EmptyString ->
  creatable env ("tmp_" ++ uuid4_hex env (w_uuids w) ++ ".jpg") = true ->
  exists w',
    dvi_upload_image env req w
    = (Ok (Response 200
             (JObj [("ok", JBool true);
                    ("temp_path", JStr ("tmp_" ++ uuid4_hex env (w_uuids w) ++ ".jpg"))])),
       w')
    /\ open_rb (JStr ("tmp_" ++ uuid4_hex env (w_uuids w) ++ ".jpg")) w'
       = (Ok (up_content f), w')
    /\ w_trace (snd (save_media env token
                                (JStr ("tmp_" ++ uuid4_hex env (w_uuids w) ++ ".jpg"))
                                None w'))
       = (w_trace w ++ [OpSaveMedia token (uuid4_hex env (S (w_uuids w)) ++ ".jpg")
                                     (up_content f)])%list.
Proof.
  intros Hu Hf Hne Hc.
  destruct (tmp_path_normal (uuid4_hex env (w_uuids w)) ".jpg" (Hu _) eq_refl)
    as (N1 & N2 & _).
  set (p := "tmp_" ++ uuid4_hex env (w_uuids w) ++ ".jpg") in *.
  set (w' := MkWorld (w_trace w)
                     (Fs.write p (up_content f) (Fs.write p "" (w_files w)))
                     (S (w_uuids w))).
  assert (L : Fs.lookup (Fs.path_str p) (w_files w') = Some (up_content f)).
  { rewrite N2. unfold w'. cbn [w_files]. rewrite lookup_write, String.eqb_refl.
    reflexivity. }
  exists w'. split; [|split].
  - unfold dvi_upload_image. rewrite Hf.
    apply String.eqb_neq in Hne. rewrite Hne.
    apply try_except_ok.
    unfold bind at 1. cbn [fresh_uuid_hex].
    unfold bind at 1, open_wb. cbn [w_files w_trace w_uuids].
    change (Fs.path_str ("./tmp_" ++ uuid4_hex env (w_uuids w) ++ ".jpg"))
      with (Fs.path_str (String "." (String "/" p))).
    change (String "." (String "/" p))
      with ("./tmp_" ++ uuid4_hex env (w_uuids w) ++ ".jpg").
    rewrite N1. fold p. rewrite Hc.
    unfold bind at 1, write_file. cbn [w_files w_trace w_uuids ret].
    rewrite N1. reflexivity.
  - unfold open_rb. rewrite L. reflexivity.
  - assert (Hp : p <> EmptyString) by (unfold p; discriminate).
    rewrite (save_media_sends_file env token p (up_content f) None w' Hp L).
    reflexivity.
Qed.

Lemma X21_upload_image_witness :
  exists w',
    dvi_upload_image Demo.env
                     (Request (Some "multipart/form-data") []
                              [("file", Upload "front.jpg" "JPEG-3")] None)
                     Demo.world
    = (Ok (Response 200
             (JObj [("ok", JBool true);
                    ("temp_path", JStr "tmp_3f2a9c1e5b7d4e0fa1b2c3d4e5f60000.jpg")])),
       w')
    /\ open_rb (JStr "tmp_3f2a9c1e5b7d4e0fa1b2c3d4e5f60000.jpg") w' = (Ok "JPEG-3", w').
Proof.
  assert (Hne : "front.jpg" <> EmptyString) by discriminate.
  destruct (X21_upload_image_round_trip Demo.env
              (Request (Some "multipart/form-data") []
                       [("file", Upload "front.jpg" "JPEG-3")] None)
              Demo.world "file" (Upload "front.jpg" "JPEG-3") (JStr "tok-1")
              demo_uuids_slash_free eq_refl Hne eq_refl) as (w' & E & O & _).
  exists w'. split; [exact E | exact O].
Defined.

(** X22: a request to the ISO inspection endpoint whose data is an
    object without a truthy [ro_number] is answered 400 before anything
    else happens: no uploaded file is staged, no image decoded, no
    identifier drawn, no request sent. *)
Theorem X22_iso_inspection_missing_ro_number (env : Env) (req : request)
        (kvs : list (string * json)) (w : World) :
  request_data req = JObj kvs ->
  Py.truthy (field_or (JObj kvs) "ro_number" JNull) = false ->
  dvi_iso_inspection env req w
  = (Ok (Response 400 (error_body "Missing required field 'ro_number'")), w).
Proof.
  intros Hd Hro. unfold dvi_iso_inspection. fold (is_multipart req).
  change (if is_multipart req
          then JObj (map (fun kv => (fst kv, JStr (snd kv))) (multidict_items (form req)))
          else json_or_empty req) with (request_data req).
  rewrite Hd, bind_lift, get_field_or, Hro. reflexivity.
Qed.

Lemma X22_iso_inspection_missing_witness :
  dvi_iso_inspection Demo.env
    (Request (Some "multipart/form-data; boundary=frontier")
             [("comments", "Brake pads worn")]
             [("photo", Upload "front.jpg" "JPEG-3")] None)
    Demo.world
  = (Ok (Response 400 (error_body "Missing required field 'ro_number'")), Demo.world).
Proof.
  apply (X22_iso_inspection_missing_ro_number Demo.env
           (Request (Some "multipart/form-data; boundary=frontier")
                    [("comments", "Brake pads worn")]
                    [("photo", Upload "front.jpg" "JPEG-3")] None)
           [("comments", JStr "Brake pads worn")] Demo.world eq_refl eq_refl).
Defined.

(** ** The RowID in a form action *)

Lemma split_hd_no_sep (sep : ascii) (s : string) :
  PyStr.contains (String sep "") (hd EmptyString (Fs.split sep s)) = false.
Proof.
  induction s as [|x s IH]; [reflexivity|].
  cbn [Fs.split]. destruct (Ascii.eqb x sep) eqn:E; [reflexivity|].
  destruct (Fs.split sep s) as [|y ys]; cbn [hd] in *.
  - rewrite contains_char_cons, Ascii.eqb_sym, E. reflexivity.
  - rewrite contains_char_cons, Ascii.eqb_sym, E. exact IH.
Qed.

Lemma parameter_after_clean (marker action : string) :
  PyStr.contains "&" (parameter_after marker action) = false.
Proof. unfold parameter_after. apply (split_hd_no_sep "&"). Qed.

(** X23: the RowID that [get_rowid_for_ro] reads off a form action is
    never empty and never holds an ampersand; a value after "ID=" that
    is not empty wins over the one after "rowid="; when "ID=" is absent
    or followed by an empty value, a value after "rowid=" that is not
    empty is taken; and an action holding neither "ID=" nor "rowid="
    yields none, so that the hidden field is tried. *)
Theorem X23_rowid_from_action (action : string) :
  (forall rowid, rowid_from_action action = Some rowid ->
                 rowid <> EmptyString /\ PyStr.contains "&" rowid = false)
  /\ (PyStr.contains "ID=" action = true ->
      parameter_after "ID=" action <> EmptyString ->
      rowid_from_action action = Some (parameter_after "ID=" action))
  /\ (PyStr.contains "ID=" action = false \/ parameter_after "ID=" action = EmptyString ->
      PyStr.contains "rowid=" action = true ->
      parameter_after "rowid=" action <> EmptyString ->
      rowid_from_action action = Some (parameter_after "rowid=" action))
  /\ (PyStr.contains "ID=" action = false ->
      PyStr.contains "rowid=" action = false ->
      rowid_from_action action = None).
Proof.
  split; [|split; [|split]].
  - intros rowid H. unfold rowid_from_action in H.
    destruct (PyStr.contains "ID=" action).
    + destruct (String.eqb_spec (parameter_after "ID=" action) "") as [E|N];
        cbn [negb] in H.
      * destruct (PyStr.contains "rowid=" action); [|discriminate].
        destruct (String.eqb_spec (parameter_after "rowid=" action) "") as [E'|N'];
          cbn [negb] in H; [discriminate|].
        inversion H; subst. split; [exact N' | apply parameter_after_clean].
      * inversion H; subst. split; [exact N | apply parameter_after_clean].
    + destruct (PyStr.contains "rowid=" action); [|discriminate].
      destruct (String.eqb_spec (parameter_after "rowid=" action) "") as [E'|N'];
        cbn [negb] in H; [discriminate|].
      inversion H; subst. split; [exact N' | apply parameter_after_clean].
  - intros Hc Hn. unfold rowid_from_action. rewrite Hc.
    apply String.eqb_neq in Hn. rewrite Hn. reflexivity.
  - intros Hid Hc Hn. unfold rowid_from_action. rewrite Hc.
    apply String.eqb_neq in Hn. rewrite Hn. cbn [negb].
    destruct Hid as [-> | ->]; [reflexivity|].
    destruct (PyStr.contains "ID=" action); reflexivity.
  - intros H1 H2. unfold rowid_from_action. rewrite H1, H2. reflexivity.
Qed.

Lemma X23_rowid_from_action_witness :
  rowid_from_action "./EditChecklist.aspx?rowid=cd64-77&ID=6894-01&Type=R" = Some "6894-01"
  /\ rowid_from_action "./EditChecklist.aspx?ID=&rowid=cd64-77" = Some "cd64-77".
Proof.
  assert (Hn : parameter_after "ID=" "./EditChecklist.aspx?rowid=cd64-77&ID=6894-01&Type=R"
               <> EmptyString) by discriminate.
  assert (Hr : parameter_after "rowid=" "./EditChecklist.aspx?ID=&rowid=cd64-77"
               <> EmptyString) by discriminate.
  split.
  - apply (proj1 (proj2 (X23_rowid_from_action
                           "./EditChecklist.aspx?rowid=cd64-77&ID=6894-01&Type=R"))
                 eq_refl Hn).
  - apply (proj1 (proj2 (proj2 (X23_rowid_from_action
                                  "./EditChecklist.aspx?ID=&rowid=cd64-77")))
                 (or_intror eq_refl) eq_refl Hr).
Defined.

(** ** Structured answers of the ISO inspection endpoint *)

(** X24: for a request whose data is an object and whose uploaded files
    could be staged, the ISO inspection endpoint gives a structured
    answer (200 with [ok] true, or 400 or 500 with [ok] false and an
    error text) unless printing one of its log lines raised; so with
    every line printed no exception leaves the handler. *)
Theorem X24_iso_inspection_structured (env : Env) (req : request)
        (kvs : list (string * json)) (w w1 : World) (staged : list json) :
  request_data req = JObj kvs ->
  stage_files env (if is_multipart req then multidict_items (files req) else []) w
  = (Ok staged, w1) ->
  match fst (dvi_iso_inspection env req w) with
  | Ok r => structured r
  | Raise e => exists w0 msg, stdout env w0 msg = Raise e
  end
  /\ (quiet env ->
      exists r w', dvi_iso_inspection env req w = (Ok r, w') /\ structured r).
Proof.
  intros Hd Hs. split; [|intros Q; exact (iso_inspection_structured env req kvs w w1
                                            staged Q Hd Hs)].
  destruct (Py.truthy (field_or (JObj kvs) "ro_number" JNull)) eqn:Hro.
  - rewrite (iso_inspection_run env req kvs w Hd Hro).
    rewrite (bind_ok _ _ _ _ _ Hs).
    destruct ((match field_or (JObj kvs) "images_base64" (JArr []) with
               | JArr l => decode_images env l
               | _ => ret []
               end) w1) as [[decoded|e] w2] eqn:T.
    2: { rewrite (bind_raise _ _ _ _ _ T). cbn [fst].
         destruct (field_or (JObj kvs) "images_base64" (JArr [])); try discriminate.
         pose proof (decode_images_spec env l w1) as D. rewrite T in D. exact D. }
    rewrite (bind_ok _ _ _ _ _ T). cbv zeta.
    match goal with
    | |- context [bind (log env ?line) ?k w2] =>
        destruct (stdout env w2 line) as [[]|e] eqn:P;
        [ rewrite (bind_ok _ _ w2 w2 tt) by (unfold log; rewrite P; reflexivity)
        | rewrite (bind_raise _ _ w2 w2 e) by (unfold log; rewrite P; reflexivity);
          cbn [fst]; exists w2, line; exact P ]
    end.
    unfold try_finally, try_except.
    match goal with
    | |- context [iso_inspection_try env ?d ?ro ?t ?c ?ps ?f1 ?f2 w2] =>
        destruct (iso_inspection_try env d ro t c ps f1 f2 w2) as [[r|e] w3] eqn:H
    end.
    + cbn [fst]. exact (iso_try_structured _ _ _ _ _ _ _ _ _ _ _ H).
    + unfold bind, log.
      destruct (stdout env w3 ("/dvi/iso_inspection error: " ++ exn_msg e)) as [[]|e']
        eqn:P'; cbn [ret fst];
        [apply error_answer_structured | eexists; eexists; exact P'].
  - unfold dvi_iso_inspection. fold (is_multipart req).
    change (if is_multipart req
            then JObj (map (fun kv => (fst kv, JStr (snd kv))) (multidict_items (form req)))
            else json_or_empty req) with (request_data req).
    rewrite Hd, bind_lift, get_field_or, Hro. cbn [negb ret fst].
    right. split; [left; reflexivity|]. split; [reflexivity | eexists; reflexivity].
Qed.

Lemma X24_iso_inspection_structured_witness :
  exists r w',
    dvi_iso_inspection Demo.env_status_500 Demo.two_images Demo.world = (Ok r, w')
    /\ structured r.
Proof.
  apply (proj2 (X24_iso_inspection_structured Demo.env_status_500 Demo.two_images
                  [("ro_number", JStr "12345"); ("comments", JStr "Brake pads worn");
                   ("image_paths", JArr [JStr "photo1.jpg"; JStr "photo2.jpg"])]
                  Demo.world Demo.world [] eq_refl eq_refl)
               (fun _ _ => eq_refl)).
Defined.
